(** * collab-todo: permission resolution, link identifiers, throttling

    A shallow embedding of the server side of the collab-todo application
    (Next.js route handlers over MongoDB collections) and the properties of
    its permission and identifier model.

    Conventions of the embedding:
    - a JavaScript string is a [string]; the builtins whose result depends
      on Unicode ([toLowerCase], [trim], [length]) are fields of the class
      [Externals], and the examples instantiate them with their restrictions
      to ASCII strings, [Js.toLowerCase], [Js.trim] and [Js.len];
    - a number that holds an integer is that integer; [x + 1] is the sum
      rounded to the nearest double ([Js.add1]);
    - [Date] values and [Date.now()] are integers (milliseconds);
    - an [ObjectId] is its hexadecimal string ([toString()]);
    - a MongoDB collection is the list of its documents in natural order;
      [findOne] returns the first match;
    - sources outside the repository (crypto.randomBytes, jsonwebtoken,
      bcrypt, bson) are the fields of the class [Externals];
    - an exception is a [None] (or a dedicated outcome) that the handler's
      [catch] turns into its response; a loop written [do ... while (true)]
      takes fuel and yields [None] when the fuel runs out. *)

From Stdlib Require Import ZArith String Ascii List Bool Lia.
From stdpp Require Import base option list gmap strings sorting.

Local Open Scope string_scope.
Local Open Scope list_scope.
Local Open Scope Z_scope.

(* ===================================================================== *)
(** ** JavaScript values and string builtins                              *)
(* ===================================================================== *)

Module Js.

(** A JSON value as a handler sees a field of a parsed body.  Numbers are
    split into integers and the rest ([Number.isInteger]). *)
Inductive JsVal :=
| JsUndefined
| JsNull
| JsBool (b : bool)
| JsNum (n : Z)
| JsFrac
| JsStr (s : string)
| JsObject.

Definition isEmpty (s : string) : bool :=
  match s with EmptyString => true | String _ _ => false end.

(** ToBoolean. *)
Definition truthy (v : JsVal) : bool :=
  match v with
  | JsUndefined | JsNull => false
  | JsBool b => b
  | JsNum n => negb (n =? 0)
  | JsFrac => true
  | JsStr s => negb (isEmpty s)
  | JsObject => true
  end.

(** [x || d] on numbers, with [x] possibly [undefined]. *)
Definition orNum (x : option Z) (d : Z) : Z :=
  match x with
  | Some v => if v =? 0 then d else v
  | None => d
  end.

(** The string builtins on ASCII strings, where the white space is the
    characters 9 to 13 and 32, the letters with another case are A to Z and
    every character is one UTF-16 unit.  They instantiate the fields of
    [Externals] in the examples. *)
Definition isWhite (c : ascii) : bool :=
  let n := nat_of_ascii c in
  ((9 <=? n) && (n <=? 13))%nat || (n =? 32)%nat.

Fixpoint trimStart (s : string) : string :=
  match s with
  | String c s' => if isWhite c then trimStart s' else s
  | EmptyString => EmptyString
  end.

(** Drops the white space at the end: a character is kept when something
    is kept after it or when it is not white space. *)
Fixpoint trimEnd (s : string) : string :=
  match s with
  | String c s' =>
      match trimEnd s' with
      | EmptyString => if isWhite c then EmptyString else String c EmptyString
      | t => String c t
      end
  | EmptyString => EmptyString
  end.

Definition trim (s : string) : string := trimEnd (trimStart s).

Definition lowerChar (c : ascii) : ascii :=
  let n := nat_of_ascii c in
  if ((65 <=? n) && (n <=? 90))%nat then ascii_of_nat (n + 32) else c.

Fixpoint toLowerCase (s : string) : string :=
  match s with
  | String c s' => String (lowerChar c) (toLowerCase s')
  | EmptyString => EmptyString
  end.

(** [s.length] of an ASCII string. *)
Definition len (s : string) : Z := Z.of_nat (String.length s).

(** 2^53: every integer up to it in absolute value is a double. *)
Definition maxSafe : Z := 9007199254740992.

(** The double nearest to the integer [n], ties going to the even
    significand: beyond 2^53 the doubles around [n] are the multiples of
    [ulp], the power of two that leaves a significand of 53 bits. *)
Definition roundDouble (n : Z) : Z :=
  let a := Z.abs n in
  if a <=? maxSafe then n
  else
    let ulp := 2 ^ (Z.log2 a - 52) in
    let q := a / ulp in
    let r := a mod ulp in
    let down := q * ulp in
    let up := (q + 1) * ulp in
    Z.sgn n *
    (if 2 * r <? ulp then down
     else if ulp <? 2 * r then up
     else if Z.even q then down else up).

(** [x + 1] on a number that holds the integer [x]. *)
Definition add1 (x : Z) : Z := roundDouble (x + 1).

End Js.

(* ===================================================================== *)
(** ** lib/db-types.ts: documents and API types                           *)
(* ===================================================================== *)

Record UserDocument := {
  u_id : string;
  u_email : string;
  passwordHash : string;
  u_createdAt : Z;
  u_updatedAt : Z
}.

Record TodoListDocument := {
  l_id : string;
  userId : option string;       (* userId?: ObjectId *)
  shareId : string;
  viewId : option string;       (* viewId?: string *)
  title : string;
  createdAt : Z;
  updatedAt : Z
}.

Record TodoItemDocument := {
  i_id : string;
  listId : string;
  text : string;
  completed : bool;
  order : Z;
  i_createdAt : Z;
  i_updatedAt : Z
}.

Inductive Permission := view | edit.

Record UserAPI := {
  ua_id : string;
  ua_email : string;
  ua_createdAt : Z;
  ua_updatedAt : Z
}.

(** [TodoList] of the API; [a_viewId] is what the [viewId] property of the
    serialized document holds (absent when the document has none). *)
Record TodoList := {
  a_id : string;
  a_shareId : string;
  a_viewId : option string;
  a_title : string;
  a_createdAt : Z;
  a_updatedAt : Z;
  permission : option Permission
}.

Record TodoItem := {
  ai_id : string;
  ai_text : string;
  ai_completed : bool;
  ai_order : Z;
  ai_createdAt : Z;
  ai_updatedAt : Z
}.

Definition serializeTodoList (doc : TodoListDocument) : TodoList :=
  {| a_id := l_id doc;
     a_shareId := shareId doc;
     a_viewId := viewId doc;
     a_title := title doc;
     a_createdAt := createdAt doc;
     a_updatedAt := updatedAt doc;
     permission := None |}.

Definition serializeTodoItem (doc : TodoItemDocument) : TodoItem :=
  {| ai_id := i_id doc;
     ai_text := text doc;
     ai_completed := completed doc;
     ai_order := order doc;
     ai_createdAt := i_createdAt doc;
     ai_updatedAt := i_updatedAt doc |}.

Definition serializeUser (user : UserDocument) : UserAPI :=
  {| ua_id := u_id user;
     ua_email := u_email user;
     ua_createdAt := u_createdAt user;
     ua_updatedAt := u_updatedAt user |}.

(** Decoded token, [AuthContext] of lib/middleware/auth.ts. *)
Record AuthContext := {
  auth_userId : string;
  auth_email : string
}.

(* ===================================================================== *)
(** ** Code outside the repository                                        *)
(* ===================================================================== *)

Class Externals := {
  (** [randomByte k i]: byte [i] of the buffer that the [k]-th call of
      [crypto.randomBytes] returns. *)
  randomByte : nat -> nat -> N;
  (** [jwt.verify] under the server secret; [None] when it throws. *)
  jwt_verify : string -> option AuthContext;
  (** [jwt.sign] under the server secret; [None] when it throws. *)
  jwt_sign : AuthContext -> option string;
  (** [bcrypt.compare]; [None] when the promise rejects, as it does for a
      password that is not a string. *)
  bcrypt_compare : Js.JsVal -> string -> option bool;
  (** [ObjectId.isValid]. *)
  ObjectId_isValid : string -> bool;
  (** [new ObjectId(s).toString()]; [None] when the constructor throws. *)
  ObjectId_new : string -> option string;
  (** [s.toLowerCase()] *)
  String_toLowerCase : string -> string;
  (** [s.trim()] *)
  String_trim : string -> string;
  (** [s.length], in UTF-16 units *)
  String_length : string -> Z
}.

(* ===================================================================== *)
(** ** lib/utils.ts                                                       *)
(* ===================================================================== *)

Module Utils.

Definition chars : string := "abcdefghijklmnopqrstuvwxyz0123456789".

(** [chars[i]] for an index in range. *)
Definition charAt (i : nat) : ascii :=
  match String.get i chars with
  | Some c => c
  | None => "a"%char
  end.

(** The [for] loop of [generateShareId]: [n] iterations from index [i],
    each appending [chars[byte % chars.length]]. *)
Fixpoint generateLoop (buf : nat -> N) (i n : nat) : string :=
  match n with
  | O => EmptyString
  | S n' =>
      String (charAt (N.to_nat (buf i mod 36)%N)) (generateLoop buf (S i) n')
  end.

(** [generateShareId()] on the buffer [randomBytes(18)] returned. *)
Definition generateShareId (buf : nat -> N) : string :=
  generateLoop buf 0 9.

Definition isLowerAlnum (c : ascii) : bool :=
  let n := nat_of_ascii c in
  ((97 <=? n) && (n <=? 122) || (48 <=? n) && (n <=? 57))%nat.

(** [/^[a-z0-9]{9}$/.test(id)]. *)
Definition isValidShareId (id : string) : bool :=
  (String.length id =? 9)%nat && forallb isLowerAlnum (list_ascii_of_string id).

Definition detectPermission (list : TodoListDocument) (id : string) : Permission :=
  if String.eqb (shareId list) id then edit else view.

End Utils.

(* ===================================================================== *)
(** ** lib/rate-limit.ts                                                  *)
(* ===================================================================== *)

Module RateLimit.

Record RateLimitEntry := {
  count : Z;
  resetAt : Z
}.

Section WithExternals.
Context `{Externals}.

(** [checkSignupRateLimit(ip)] at time [now] on the map [signupAttempts]. *)
Definition checkSignupRateLimit (now : Z) (ip : string)
    (signupAttempts : gmap string RateLimitEntry)
  : bool * gmap string RateLimitEntry :=
  let entry := signupAttempts !! ip in
  let signupAttempts :=
    match entry with
    | Some e => if resetAt e <? now then delete ip signupAttempts else signupAttempts
    | None => signupAttempts
    end in
  let current := signupAttempts !! ip in
  if match current with Some c => 3 <=? count c | None => false end
  then (false, signupAttempts)
  else
    (true,
     <[ ip := {| count := Js.orNum (count <$> current) 0 + 1;
                 resetAt := Js.orNum (resetAt <$> current) (now + 60 * 60 * 1000) |} ]>
       signupAttempts).

(** [checkSigninRateLimit(email)] at time [now] on the map [signinAttempts]. *)
Definition checkSigninRateLimit (now : Z) (email : string)
    (signinAttempts : gmap string RateLimitEntry)
  : bool * gmap string RateLimitEntry :=
  let normalizedEmail := String_trim (String_toLowerCase email) in
  let entry := signinAttempts !! normalizedEmail in
  let signinAttempts :=
    match entry with
    | Some e =>
        if resetAt e <? now then delete normalizedEmail signinAttempts
        else signinAttempts
    | None => signinAttempts
    end in
  let current := signinAttempts !! normalizedEmail in
  if match current with Some c => 5 <=? count c | None => false end
  then (false, signinAttempts)
  else
    (true,
     <[ normalizedEmail :=
          {| count := Js.orNum (count <$> current) 0 + 1;
             resetAt := Js.orNum (resetAt <$> current) (now + 15 * 60 * 1000) |} ]>
       signinAttempts).

(** The callback of [setInterval] on one of the two maps: entries whose
    window has expired are deleted. *)
Definition sweep (now : Z) (m : gmap string RateLimitEntry) : gmap string RateLimitEntry :=
  filter (fun kv => ~ (resetAt (snd kv) < now)) m.

(** The contract as the specification words it: per key a counter and a
    window end; an expired window resets the counter to 0 and opens a
    window ending at [now + windowMs]; a counter at or above the limit
    refuses without incrementing; otherwise the counter is incremented. *)
Definition checkAndConsume (key : string) (limit windowMs now : Z)
    (m : gmap string RateLimitEntry) : bool * gmap string RateLimitEntry :=
  let '(cnt, wend) :=
    match m !! key with
    | Some e => if resetAt e <? now then (0, now + windowMs) else (count e, resetAt e)
    | None => (0, now + windowMs)
    end in
  if limit <=? cnt then (false, m)
  else (true, <[ key := {| count := cnt + 1; resetAt := wend |} ]> m).

(** The two policies of the system. *)
Inductive Policy := Signup | Signin.

Definition limit (p : Policy) : Z :=
  match p with Signup => 3 | Signin => 5 end.

Definition windowMs (p : Policy) : Z :=
  match p with Signup => 60 * 60 * 1000 | Signin => 15 * 60 * 1000 end.

Definition keyOf (p : Policy) (key : string) : string :=
  match p with Signup => key | Signin => String_trim (String_toLowerCase key) end.

Definition check (p : Policy) (now : Z) (key : string)
    (m : gmap string RateLimitEntry) : bool * gmap string RateLimitEntry :=
  match p with
  | Signup => checkSignupRateLimit now key m
  | Signin => checkSigninRateLimit now key m
  end.

(** Calls with the same key at the given times, in sequence. *)
Fixpoint calls (p : Policy) (key : string) (times : list Z)
    (m : gmap string RateLimitEntry) : list bool * gmap string RateLimitEntry :=
  match times with
  | [] => ([], m)
  | t :: ts =>
      let '(r, m1) := check p t key m in
      let '(rs, m2) := calls p key ts m1 in
      (r :: rs, m2)
  end.

End WithExternals.
End RateLimit.

(* ===================================================================== *)
(** ** MongoDB collection operations used by the handlers                 *)
(* ===================================================================== *)

Module Mongo.

Section Collection.
Context {A : Type}.

(** [findOne(q)]: the first matching document. *)
Definition findOne (q : A -> bool) (c : list A) : option A := List.find q c.

(** [find(q).toArray()]. *)
Definition findAll (q : A -> bool) (c : list A) : list A := List.filter q c.

(** [updateOne(q, { $set })]: the first matching document is updated. *)
Fixpoint updateOne (q : A -> bool) (f : A -> A) (c : list A) : list A :=
  match c with
  | [] => []
  | d :: c' => if q d then f d :: c' else d :: updateOne q f c'
  end.

(** [findOneAndUpdate(q, { $set }, { returnDocument: 'after' })]. *)
Definition findOneAndUpdate (q : A -> bool) (f : A -> A) (c : list A)
  : option A * list A :=
  (f <$> findOne q c, updateOne q f c).

(** [deleteOne(q)] with its [deletedCount]. *)
Fixpoint deleteOne (q : A -> bool) (c : list A) : Z * list A :=
  match c with
  | [] => (0, [])
  | d :: c' =>
      if q d then (1, c')
      else let '(n, r) := deleteOne q c' in (n, d :: r)
  end.

Definition deleteMany (q : A -> bool) (c : list A) : list A :=
  List.filter (fun d => negb (q d)) c.

(** [insertOne(d)] with the [_id] the driver chose; [None] is the
    duplicate-key error of the unique [_id] index. *)
Definition insertOne (key : A -> string) (d : A) (c : list A) : option (list A) :=
  if existsb (fun x => String.eqb (key x) (key d)) c then None
  else Some (c ++ [d]).
End Collection.

(** [{ shareId: id }] *)
Definition byShareId (id : string) (d : TodoListDocument) : bool :=
  String.eqb (shareId d) id.

(** [{ viewId: id }] *)
Definition byViewId (id : string) (d : TodoListDocument) : bool :=
  match viewId d with
  | Some v => String.eqb v id
  | None => false
  end.

(** [{ $or: [{ shareId: id }, { viewId: id }] }] *)
Definition byEitherId (id : string) (d : TodoListDocument) : bool :=
  byShareId id d || byViewId id d.

(** [{ _id: oid }] on TodoList. *)
Definition byListId (oid : string) (d : TodoListDocument) : bool :=
  String.eqb (l_id d) oid.

(** [{ listId: lid }] on TodoItem. *)
Definition byListRef (lid : string) (d : TodoItemDocument) : bool :=
  String.eqb (listId d) lid.

(** [{ _id: oid, listId: lid }] on TodoItem. *)
Definition byItem (oid lid : string) (d : TodoItemDocument) : bool :=
  String.eqb (i_id d) oid && String.eqb (listId d) lid.

(** The sort keys of the handlers, as the order relations of a merge sort. *)
Definition orderAsc (a b : TodoItemDocument) : Prop := order a <= order b.
Definition orderDesc (a b : TodoItemDocument) : Prop := order b <= order a.
Definition updatedDesc (a b : TodoListDocument) : Prop := updatedAt b <= updatedAt a.

#[global] Instance orderAsc_dec a b : Decision (orderAsc a b) := Z.le_dec _ _.
#[global] Instance orderDesc_dec a b : Decision (orderDesc a b) := Z.le_dec _ _.
#[global] Instance updatedDesc_dec a b : Decision (updatedDesc a b) := Z.le_dec _ _.

(** [sort({ order: 1 })] and [sort({ order: -1 })]. *)
Definition sortOrderAsc (c : list TodoItemDocument) : list TodoItemDocument :=
  merge_sort orderAsc c.

Definition sortOrderDesc (c : list TodoItemDocument) : list TodoItemDocument :=
  merge_sort orderDesc c.

(** [sort({ updatedAt: -1 })]. *)
Definition sortUpdatedDesc (c : list TodoListDocument) : list TodoListDocument :=
  merge_sort updatedDesc c.

End Mongo.

(* ===================================================================== *)
(** ** lib/auth.ts and lib/middleware/auth.ts                             *)
(* ===================================================================== *)

Module Auth.
Section WithExternals.
Context `{Externals}.

(** [verifyToken(token)]; [None] is its [Error('Invalid or expired token')]. *)
Definition verifyToken (token : string) : option AuthContext := jwt_verify token.

Definition generateToken (user : UserDocument) : option string :=
  jwt_sign {| auth_userId := u_id user; auth_email := u_email user |}.

Definition verifyPassword (password : Js.JsVal) (hash : string) : option bool :=
  bcrypt_compare password hash.

(** [getAuthContext(req)] on the value of the [auth_token] cookie. *)
Definition getAuthContext (cookie : option string) : option AuthContext :=
  match cookie with
  | None => None
  | Some token => if Js.isEmpty token then None else verifyToken token
  end.

(** [requireAuth(req)]; [None] is its [Error('Authentication required')]. *)
Definition requireAuth (cookie : option string) : option AuthContext :=
  getAuthContext cookie.
End WithExternals.
End Auth.

(* ===================================================================== *)
(** ** HTTP responses, request bodies and the store                       *)
(* ===================================================================== *)

Inductive Body :=
| ErrorResponse (error : string)
| MessageResponse (message : string)
| ListsResponse (lists : list TodoList)
| ListResponse (lst : TodoList)
| GetListResponse (lst : TodoList) (items : list TodoItem)
| ItemResponse (item : TodoItem)
| DeleteItemResponse (success : bool)
| UserResponse (user : UserAPI).

(** What a client observes: status code, JSON payload, [auth_token]
    cookie set by the response. *)
Record Response := {
  status : Z;
  body : Body;
  setCookie : option string
}.

(** [NextResponse.json(b, { status })]. *)
Definition json (b : Body) (st : Z) : Response :=
  {| status := st; body := b; setCookie := None |}.

Definition errorJson (msg : string) (st : Z) : Response :=
  json (ErrorResponse msg) st.

(** What the server component of /list/[shareId] renders. *)
Inductive Page :=
| NotFoundPage
| ErrorPage
| ListView (lst : TodoList) (items : list TodoItem) (perm : Permission)
    (isOwner : bool) (userEmail : option string).

(** [CreateListRequest] and [UpdateListRequest]. *)
Record TitleRequest := { b_title : Js.JsVal }.

Record CreateItemRequest := { b_text : Js.JsVal }.

Record UpdateItemRequest := {
  p_text : Js.JsVal;
  p_completed : Js.JsVal;
  p_order : Js.JsVal
}.

Record SigninRequest := {
  b_email : Js.JsVal;
  b_password : Js.JsVal
}.

(** The collections TodoList and TodoItem, and the number of calls of
    [randomBytes] made so far. *)
Record World := {
  TodoListColl : list TodoListDocument;
  TodoItemColl : list TodoItemDocument;
  randomCalls : nat
}.

Definition withLists (c : list TodoListDocument) (w : World) : World :=
  {| TodoListColl := c;
     TodoItemColl := TodoItemColl w;
     randomCalls := randomCalls w |}.

Definition withItems (c : list TodoItemDocument) (w : World) : World :=
  {| TodoListColl := TodoListColl w;
     TodoItemColl := c;
     randomCalls := randomCalls w |}.

Definition withRandomCalls (k : nat) (w : World) : World :=
  {| TodoListColl := TodoListColl w;
     TodoItemColl := TodoItemColl w;
     randomCalls := k |}.

(** The collection users and the map [signinAttempts]. *)
Record AuthWorld := {
  usersColl : list UserDocument;
  signinAttempts : gmap string RateLimit.RateLimitEntry
}.

(** [{ $set: { viewId, updatedAt } }] *)
Definition setViewId (v : string) (now : Z) (d : TodoListDocument) : TodoListDocument :=
  {| l_id := l_id d; userId := userId d; shareId := shareId d;
     viewId := Some v; title := title d;
     createdAt := createdAt d; updatedAt := now |}.

(** [list.viewId = viewId] on the document in memory. *)
Definition assignViewId (v : string) (d : TodoListDocument) : TodoListDocument :=
  {| l_id := l_id d; userId := userId d; shareId := shareId d;
     viewId := Some v; title := title d;
     createdAt := createdAt d; updatedAt := updatedAt d |}.

(** [{ $set: { updatedAt } }] *)
Definition setUpdatedAt (now : Z) (d : TodoListDocument) : TodoListDocument :=
  {| l_id := l_id d; userId := userId d; shareId := shareId d;
     viewId := viewId d; title := title d;
     createdAt := createdAt d; updatedAt := now |}.

(** [{ $set: { title, updatedAt } }] *)
Definition setTitle (t : string) (now : Z) (d : TodoListDocument) : TodoListDocument :=
  {| l_id := l_id d; userId := userId d; shareId := shareId d;
     viewId := viewId d; title := t;
     createdAt := createdAt d; updatedAt := now |}.

(** [updateFields] of the item PATCH. *)
Record UpdateFields := {
  uf_updatedAt : Z;
  uf_text : option string;
  uf_completed : option bool;
  uf_order : option Z
}.

(** [{ $set: updateFields }] *)
Definition setItemFields (u : UpdateFields) (d : TodoItemDocument) : TodoItemDocument :=
  {| i_id := i_id d; listId := listId d;
     text := default (text d) (uf_text u);
     completed := default (completed d) (uf_completed u);
     order := default (order d) (uf_order u);
     i_createdAt := i_createdAt d;
     i_updatedAt := uf_updatedAt u |}.

(** [!list.viewId] *)
Definition lacksViewId (d : TodoListDocument) : bool :=
  match viewId d with
  | Some v => Js.isEmpty v
  | None => true
  end.

(** Outcome of an identifier generation loop. *)
Inductive Generated (A : Type) :=
| Fresh (x : A)
| Exhausted.
Arguments Fresh {A} x.
Arguments Exhausted {A}.

Definition maxAttempts : nat := 5.

(* ===================================================================== *)
(** ** Route handlers                                                     *)
(* ===================================================================== *)

Module Api.
Section WithExternals.
Context `{Externals}.

Import Mongo.

(** The [do ... while (true)] of the lazy viewId generation (GET
    /api/lists/[shareId] and the list page): [attempts] collisions seen so
    far, [k] calls of [randomBytes] made so far. *)
Fixpoint generateViewId (fuel attempts k : nat) (coll : list TodoListDocument)
  : option (Generated string * nat) :=
  match fuel with
  | O => None
  | S fuel' =>
      let viewId := Utils.generateShareId (randomByte k) in
      let k := S k in
      match findOne (fun d => byShareId viewId d || byViewId viewId d) coll with
      | None => Some (Fresh viewId, k)
      | Some _ =>
          let attempts := S attempts in
          if (maxAttempts <=? attempts)%nat then Some (Exhausted, k)
          else generateViewId fuel' attempts k coll
      end
  end.

(** The [do ... while (true)] of POST /api/lists.  [continue] re-enters the
    loop through its condition [true], before [attempts++]. *)
Fixpoint generateIds (fuel attempts k : nat) (coll : list TodoListDocument)
  : option (Generated (string * string) * nat) :=
  match fuel with
  | O => None
  | S fuel' =>
      let shareId := Utils.generateShareId (randomByte k) in
      let viewId := Utils.generateShareId (randomByte (S k)) in
      let k := S (S k) in
      if String.eqb shareId viewId then generateIds fuel' attempts k coll
      else
        match findOne (fun d => byShareId shareId d || byViewId shareId d
                                || byShareId viewId d || byViewId viewId d) coll with
        | None => Some (Fresh (shareId, viewId), k)
        | Some _ =>
            let attempts := S attempts in
            if (maxAttempts <=? attempts)%nat then Some (Exhausted, k)
            else generateIds fuel' attempts k coll
        end
  end.

(** The title checks shared by POST /api/lists and PATCH /api/lists/[shareId]:
    [!body.title || typeof body.title !== 'string'], then the trimmed
    length, then the length. *)
Definition validateTitle (b : TitleRequest) : Response + string :=
  match b_title b with
  | Js.JsStr s =>
      if Js.isEmpty s then inl (errorJson "Title is required and must be a string" 400)
      else if String_length (String_trim s) =? 0 then inl (errorJson "Title cannot be empty" 400)
      else if 200 <? String_length s then inl (errorJson "Title must be 200 characters or less" 400)
      else inr s
  | _ => inl (errorJson "Title is required and must be a string" 400)
  end.

(** The text checks of POST /api/lists/[shareId]/items. *)
Definition validateText (b : CreateItemRequest) : Response + string :=
  match b_text b with
  | Js.JsStr s =>
      if Js.isEmpty s then inl (errorJson "Text is required and must be a string" 400)
      else if String_length (String_trim s) =? 0 then inl (errorJson "Text cannot be empty" 400)
      else if 500 <? String_length s then inl (errorJson "Text must be 500 characters or less" 400)
      else inr s
  | _ => inl (errorJson "Text is required and must be a string" 400)
  end.

Definition isUndefined (v : Js.JsVal) : bool :=
  match v with Js.JsUndefined => true | _ => false end.

(** The field checks of PATCH /api/lists/[shareId]/items/[itemId], building
    [updateFields]. *)
Definition validateUpdate (b : UpdateItemRequest) (now : Z) : Response + UpdateFields :=
  if isUndefined (p_text b) && isUndefined (p_completed b) && isUndefined (p_order b)
  then inl (errorJson "At least one field (text, completed, or order) must be provided" 400)
  else
    let checkOrder (t : option string) (c : option bool) : Response + UpdateFields :=
      match p_order b with
      | Js.JsUndefined =>
          inr {| uf_updatedAt := now; uf_text := t; uf_completed := c; uf_order := None |}
      | Js.JsNum n =>
          if n <? 0 then inl (errorJson "Order must be a non-negative integer" 400)
          else inr {| uf_updatedAt := now; uf_text := t; uf_completed := c;
                      uf_order := Some n |}
      | _ => inl (errorJson "Order must be a non-negative integer" 400)
      end in
    let checkCompleted (t : option string) : Response + UpdateFields :=
      match p_completed b with
      | Js.JsUndefined => checkOrder t None
      | Js.JsBool c => checkOrder t (Some c)
      | _ => inl (errorJson "Completed must be a boolean" 400)
      end in
    match p_text b with
    | Js.JsUndefined => checkCompleted None
    | Js.JsStr s =>
        if String_length (String_trim s) =? 0 then inl (errorJson "Text cannot be empty" 400)
        else if 500 <? String_length s then inl (errorJson "Text must be 500 characters or less" 400)
        else checkCompleted (Some (String_trim s))
    | _ => inl (errorJson "Text must be a string" 400)
    end.

Definition withPermission (p : Permission) (l : TodoList) : TodoList :=
  {| a_id := a_id l; a_shareId := a_shareId l; a_viewId := a_viewId l;
     a_title := a_title l; a_createdAt := a_createdAt l;
     a_updatedAt := a_updatedAt l; permission := Some p |}.

(** GET /api/lists *)
Definition GET_lists (cookie : option string) (w : World) : Response :=
  match Auth.requireAuth cookie with
  | None => errorJson "Authentication required" 401
  | Some auth =>
      match ObjectId_new (auth_userId auth) with
      | None => errorJson "Failed to fetch lists" 500
      | Some uid =>
          let lists :=
            sortUpdatedDesc
              (findAll (fun d => match userId d with
                                 | Some u => String.eqb u uid
                                 | None => false
                                 end) (TodoListColl w)) in
          json (ListsResponse
                  (map (fun l => serializeTodoList
                                   (assignViewId (default "" (viewId l)) l)) lists))
               200
      end
  end.

(** POST /api/lists *)
Definition POST_lists (fuel : nat) (cookie : option string)
    (body : option TitleRequest) (now : Z) (insertedId : string) (w : World)
  : option (Response * World) :=
  match Auth.requireAuth cookie with
  | None => Some (errorJson "Authentication required" 401, w)
  | Some auth =>
      match body with
      | None => Some (errorJson "Failed to create todo list" 500, w)
      | Some b =>
          match validateTitle b with
          | inl r => Some (r, w)
          | inr t =>
              match generateIds fuel 0 (randomCalls w) (TodoListColl w) with
              | None => None
              | Some (Exhausted, k) =>
                  Some (errorJson "Failed to generate unique IDs. Please try again." 500,
                        withRandomCalls k w)
              | Some (Fresh (shareId, viewId), k) =>
                  let w := withRandomCalls k w in
                  match ObjectId_new (auth_userId auth) with
                  | None => Some (errorJson "Failed to create todo list" 500, w)
                  | Some uid =>
                      let newList :=
                        {| l_id := insertedId; userId := Some uid;
                           shareId := shareId; viewId := Some viewId;
                           title := String_trim t; createdAt := now; updatedAt := now |} in
                      match insertOne l_id newList (TodoListColl w) with
                      | None => Some (errorJson "Failed to create todo list" 500, w)
                      | Some c =>
                          Some (json (ListResponse (serializeTodoList newList)) 201,
                                withLists c w)
                      end
                  end
              end
          end
      end
  end.

(** The tail of GET /api/lists/[shareId] once [list.viewId] is present. *)
Definition respondList (lst : TodoListDocument) (id : string) (w : World) : Response :=
  let permission := Utils.detectPermission lst id in
  let items := sortOrderAsc (findAll (byListRef (l_id lst)) (TodoItemColl w)) in
  let serializedList := withPermission permission (serializeTodoList lst) in
  json (GetListResponse serializedList (map serializeTodoItem items)) 200.

(** GET /api/lists/[shareId] *)
Definition GET_list (fuel : nat) (id : string) (now : Z) (w : World)
  : option (Response * World) :=
  if negb (Utils.isValidShareId id) then Some (errorJson "Invalid ID format" 400, w)
  else
    match findOne (byEitherId id) (TodoListColl w) with
    | None => Some (errorJson "List not found" 404, w)
    | Some lst =>
        if lacksViewId lst then
          match generateViewId fuel 0 (randomCalls w) (TodoListColl w) with
          | None => None
          | Some (Exhausted, k) =>
              Some (errorJson "Failed to generate viewId" 500, withRandomCalls k w)
          | Some (Fresh viewId, k) =>
              let w :=
                withLists (updateOne (byListId (l_id lst)) (setViewId viewId now)
                             (TodoListColl w))
                  (withRandomCalls k w) in
              Some (respondList (assignViewId viewId lst) id w, w)
          end
        else Some (respondList lst id w, w)
    end.

(** PATCH /api/lists/[shareId] *)
Definition PATCH_list (id : string) (body : option TitleRequest) (now : Z) (w : World)
  : Response * World :=
  if negb (Utils.isValidShareId id) then (errorJson "Invalid shareId format" 400, w)
  else
    match body with
    | None => (errorJson "Failed to update todo list" 500, w)
    | Some b =>
        match validateTitle b with
        | inl r => (r, w)
        | inr t =>
            match findOne (byEitherId id) (TodoListColl w) with
            | None => (errorJson "List not found" 404, w)
            | Some lst =>
                match Utils.detectPermission lst id with
                | view =>
                    (errorJson "Forbidden: View-only access cannot modify list" 403, w)
                | edit =>
                    let '(result, c) :=
                      findOneAndUpdate (byListId (l_id lst)) (setTitle (String_trim t) now)
                        (TodoListColl w) in
                    match result with
                    | None => (errorJson "List not found" 404, withLists c w)
                    | Some r => (json (ListResponse (serializeTodoList r)) 200,
                                 withLists c w)
                    end
                end
            end
        end
    end.

(** DELETE /api/lists/[shareId] *)
Definition DELETE_list (cookie : option string) (id : string) (w : World)
  : Response * World :=
  match Auth.requireAuth cookie with
  | None => (errorJson "Authentication required" 401, w)
  | Some auth =>
      if negb (Utils.isValidShareId id) then (errorJson "Invalid ID format" 400, w)
      else
        match findOne (byShareId id) (TodoListColl w) with
        | None => (errorJson "List not found" 404, w)
        | Some lst =>
            if match userId lst with
               | None => true
               | Some u => negb (String.eqb u (auth_userId auth))
               end
            then (errorJson "Forbidden: Only the list owner can delete this list" 403, w)
            else
              let w := withItems (deleteMany (byListRef (l_id lst)) (TodoItemColl w)) w in
              let w := withLists (snd (deleteOne (byListId (l_id lst)) (TodoListColl w))) w in
              (json (MessageResponse "List deleted successfully") 200, w)
        end
  end.

(** POST /api/lists/[shareId]/items *)
Definition POST_item (id : string) (body : option CreateItemRequest) (now : Z)
    (insertedId : string) (w : World) : Response * World :=
  if negb (Utils.isValidShareId id) then (errorJson "Invalid shareId format" 400, w)
  else
    match body with
    | None => (errorJson "Failed to create todo item" 500, w)
    | Some b =>
        match validateText b with
        | inl r => (r, w)
        | inr t =>
            match findOne (byEitherId id) (TodoListColl w) with
            | None => (errorJson "List not found" 404, w)
            | Some lst =>
                match Utils.detectPermission lst id with
                | view =>
                    (errorJson "Forbidden: View-only access cannot create items" 403, w)
                | edit =>
                    let lastItem :=
                      take 1 (sortOrderDesc
                                (findAll (byListRef (l_id lst)) (TodoItemColl w))) in
                    let nextOrder :=
                      match lastItem with
                      | i :: _ => Js.add1 (order i)
                      | [] => 0
                      end in
                    let newItem :=
                      {| i_id := insertedId; listId := l_id lst; text := String_trim t;
                         completed := false; order := nextOrder;
                         i_createdAt := now; i_updatedAt := now |} in
                    match insertOne i_id newItem (TodoItemColl w) with
                    | None => (errorJson "Failed to create todo item" 500, w)
                    | Some c =>
                        let w := withItems c w in
                        let w :=
                          withLists (updateOne (byListId (l_id lst)) (setUpdatedAt now)
                                       (TodoListColl w)) w in
                        (json (ItemResponse (serializeTodoItem newItem)) 201, w)
                    end
                end
            end
        end
    end.

(** PATCH /api/lists/[shareId]/items/[itemId]; [now] is the [new Date()]
    of [updateFields], [now'] the one written to the list. *)
Definition PATCH_item (id itemId : string) (body : option UpdateItemRequest)
    (now now' : Z) (w : World) : Response * World :=
  if negb (Utils.isValidShareId id) then (errorJson "Invalid shareId format" 400, w)
  else if negb (ObjectId_isValid itemId) then (errorJson "Invalid itemId format" 400, w)
  else
    match body with
    | None => (errorJson "Failed to update todo item" 500, w)
    | Some b =>
        match validateUpdate b now with
        | inl r => (r, w)
        | inr updateFields =>
            match findOne (byEitherId id) (TodoListColl w) with
            | None => (errorJson "List not found" 404, w)
            | Some lst =>
                match Utils.detectPermission lst id with
                | view =>
                    (errorJson "Forbidden: View-only access cannot update items" 403, w)
                | edit =>
                    match ObjectId_new itemId with
                    | None => (errorJson "Failed to update todo item" 500, w)
                    | Some oid =>
                        let '(result, c) :=
                          findOneAndUpdate (byItem oid (l_id lst))
                            (setItemFields updateFields) (TodoItemColl w) in
                        match result with
                        | None => (errorJson "Item not found" 404, withItems c w)
                        | Some r =>
                            let w := withItems c w in
                            let w :=
                              withLists (updateOne (byListId (l_id lst))
                                           (setUpdatedAt now') (TodoListColl w)) w in
                            (json (ItemResponse (serializeTodoItem r)) 200, w)
                        end
                    end
                end
            end
        end
    end.

(** DELETE /api/lists/[shareId]/items/[itemId] *)
Definition DELETE_item (id itemId : string) (now : Z) (w : World) : Response * World :=
  if negb (Utils.isValidShareId id) then (errorJson "Invalid shareId format" 400, w)
  else if negb (ObjectId_isValid itemId) then (errorJson "Invalid itemId format" 400, w)
  else
    match findOne (byEitherId id) (TodoListColl w) with
    | None => (errorJson "List not found" 404, w)
    | Some lst =>
        match Utils.detectPermission lst id with
        | view => (errorJson "Forbidden: View-only access cannot delete items" 403, w)
        | edit =>
            match ObjectId_new itemId with
            | None => (errorJson "Failed to delete todo item" 500, w)
            | Some oid =>
                let '(deletedCount, c) :=
                  deleteOne (byItem oid (l_id lst)) (TodoItemColl w) in
                if deletedCount =? 0
                then (errorJson "Item not found" 404, withItems c w)
                else
                  let w := withItems c w in
                  let w :=
                    withLists (updateOne (byListId (l_id lst)) (setUpdatedAt now)
                                 (TodoListColl w)) w in
                  (json (DeleteItemResponse true) 200, w)
            end
        end
    end.

(** The server component of /list/[shareId] (app/list/[shareId]/page.tsx).
    Inside its [try], both [notFound()] and the exhausted generation throw,
    and the [catch] renders the error view. *)
Definition ListPage (fuel : nat) (id : string) (cookie : option string) (now : Z)
    (w : World) : option (Page * World) :=
  if negb (Utils.isValidShareId id) then Some (NotFoundPage, w)
  else
    let currentUserId : option string :=
      match cookie with
      | Some token => auth_userId <$> Auth.verifyToken token
      | None => None
      end in
    match findOne (byEitherId id) (TodoListColl w) with
    | None => Some (ErrorPage, w)
    | Some lst =>
        let render (lst : TodoListDocument) (w : World) : Page :=
          let permission := Utils.detectPermission lst id in
          let isOwner :=
            match currentUserId, userId lst with
            | Some c, Some u => String.eqb u c
            | _, _ => false
            end in
          let userEmail :=
            match currentUserId, cookie with
            | Some c, Some token =>
                if Js.isEmpty c then None else auth_email <$> Auth.verifyToken token
            | _, _ => None
            end in
          let items := sortOrderAsc (findAll (byListRef (l_id lst)) (TodoItemColl w)) in
          ListView (serializeTodoList lst) (map serializeTodoItem items)
            permission isOwner userEmail in
        if lacksViewId lst then
          match generateViewId fuel 0 (randomCalls w) (TodoListColl w) with
          | None => None
          | Some (Exhausted, k) => Some (ErrorPage, withRandomCalls k w)
          | Some (Fresh viewId, k) =>
              let w :=
                withLists (updateOne (byListId (l_id lst)) (setViewId viewId now)
                             (TodoListColl w))
                  (withRandomCalls k w) in
              Some (render (assignViewId viewId lst) w, w)
          end
        else Some (render lst w, w)
    end.

(** POST /api/auth/signin *)
Definition POST_signin (body : option SigninRequest) (now : Z) (w : AuthWorld)
  : Response * AuthWorld :=
  match body with
  | None => (errorJson "Internal server error" 500, w)
  | Some b =>
      let email := b_email b in
      let password := b_password b in
      if negb (Js.truthy email) || negb (Js.truthy password)
      then (errorJson "Email and password required" 400, w)
      else
        match email with
        | Js.JsStr e =>
            let normalizedEmail := String_trim (String_toLowerCase e) in
            let '(allowed, attempts) :=
              RateLimit.checkSigninRateLimit now normalizedEmail (signinAttempts w) in
            let w := {| usersColl := usersColl w; signinAttempts := attempts |} in
            if negb allowed
            then (errorJson "Too many signin attempts. Please try again later." 429, w)
            else
              match findOne (fun u => String.eqb (u_email u) normalizedEmail)
                      (usersColl w) with
              | None => (errorJson "Invalid credentials" 401, w)
              | Some user =>
                  match Auth.verifyPassword password (passwordHash user) with
                  | None => (errorJson "Internal server error" 500, w)
                  | Some false => (errorJson "Invalid credentials" 401, w)
                  | Some true =>
                      match Auth.generateToken user with
                      | None => (errorJson "Internal server error" 500, w)
                      | Some token =>
                          ({| status := 200;
                              body := UserResponse (serializeUser user);
                              setCookie := Some token |}, w)
                      end
                  end
              end
        | _ => (errorJson "Internal server error" 500, w)
        end
  end.

(** The requests that reach the TodoList and TodoItem collections. *)
Inductive Request :=
| ReqGetLists (cookie : option string)
| ReqCreateList (cookie : option string) (body : option TitleRequest) (now : Z)
    (insertedId : string)
| ReqGetList (id : string) (now : Z)
| ReqPatchList (id : string) (body : option TitleRequest) (now : Z)
| ReqDeleteList (cookie : option string) (id : string)
| ReqCreateItem (id : string) (body : option CreateItemRequest) (now : Z)
    (insertedId : string)
| ReqPatchItem (id itemId : string) (body : option UpdateItemRequest) (now now' : Z)
| ReqDeleteItem (id itemId : string) (now : Z)
| ReqListPage (id : string) (cookie : option string) (now : Z).

Inductive Reply :=
| Http (r : Response)
| Rendered (p : Page).

Definition reply {A : Type} (f : A -> Reply) (x : A * World) : Reply * World :=
  (f (fst x), snd x).

(** One request served to completion; [None] when a generation loop does
    not finish within [fuel] iterations. *)
Definition handle (fuel : nat) (r : Request) (w : World) : option (Reply * World) :=
  match r with
  | ReqGetLists cookie => Some (Http (GET_lists cookie w), w)
  | ReqCreateList cookie body now insertedId =>
      reply Http <$> POST_lists fuel cookie body now insertedId w
  | ReqGetList id now => reply Http <$> GET_list fuel id now w
  | ReqPatchList id body now => Some (reply Http (PATCH_list id body now w))
  | ReqDeleteList cookie id => Some (reply Http (DELETE_list cookie id w))
  | ReqCreateItem id body now insertedId =>
      Some (reply Http (POST_item id body now insertedId w))
  | ReqPatchItem id itemId body now now' =>
      Some (reply Http (PATCH_item id itemId body now now' w))
  | ReqDeleteItem id itemId now => Some (reply Http (DELETE_item id itemId now w))
  | ReqListPage id cookie now => reply Rendered <$> ListPage fuel id cookie now w
  end.

End WithExternals.
End Api.

(* ===================================================================== *)
(** ** Predicates on the store                                            *)
(* ===================================================================== *)

(** The public identifiers a list record bears. *)
Definition ids (d : TodoListDocument) : list string :=
  shareId d :: match viewId d with Some v => [v] | None => [] end.

(** Every shareId and viewId value of the collection. *)
Definition allIds (coll : list TodoListDocument) : list string :=
  concat (map ids coll).

(** No identifier value occurs twice in the union of the shareId and viewId
    fields of the collection: a record's two identifiers differ and two
    records share none. *)
Definition uniqueIds (coll : list TodoListDocument) : Prop :=
  NoDup (allIds coll).

(** MongoDB's unique index on [_id]. *)
Definition uniqueKeys (coll : list TodoListDocument) : Prop :=
  NoDup (map l_id coll).

(** The list a read addresses has no viewId yet. *)
Definition addressesLegacy (id : string) (w : World) : Prop :=
  exists lst,
    Mongo.findOne (Mongo.byEitherId id) (TodoListColl w) = Some lst /\
    lacksViewId lst = true.

(** The requests that write [updatedAt] of a stored list: a content
    mutation (title update, item creation, update or deletion) that
    succeeded, and a read that succeeded on a list that had no viewId. *)
Definition writesUpdatedAt (r : Api.Request) (rep : Api.Reply) (w : World) : Prop :=
  match r, rep with
  | Api.ReqPatchList _ _ _, Api.Http resp => status resp = 200
  | Api.ReqCreateItem _ _ _ _, Api.Http resp => status resp = 201
  | Api.ReqPatchItem _ _ _ _ _, Api.Http resp => status resp = 200
  | Api.ReqDeleteItem _ _ _, Api.Http resp => status resp = 200
  | Api.ReqGetList id _, Api.Http resp => status resp = 200 /\ addressesLegacy id w
  | Api.ReqListPage id _ _, Api.Rendered (ListView _ _ _ _ _) => addressesLegacy id w
  | _, _ => False
  end.

(** The list a request addresses: the one its identifier finds, by shareId
    or viewId, and for the deletion of a list by shareId alone. *)
Definition addressedList (r : Api.Request) (w : World) : option TodoListDocument :=
  match r with
  | Api.ReqGetLists _ | Api.ReqCreateList _ _ _ _ => None
  | Api.ReqDeleteList _ id => Mongo.findOne (Mongo.byShareId id) (TodoListColl w)
  | Api.ReqGetList id _ | Api.ReqPatchList id _ _ | Api.ReqCreateItem id _ _ _
  | Api.ReqPatchItem id _ _ _ _ | Api.ReqDeleteItem id _ _ | Api.ReqListPage id _ _ =>
      Mongo.findOne (Mongo.byEitherId id) (TodoListColl w)
  end.

(** [{ email: normalizedEmail }] on users, for the address a request gives. *)
Definition accountOf `{Externals} (e : string) (w : AuthWorld) : option UserDocument :=
  Mongo.findOne (fun u => String.eqb (u_email u) (String_trim (String_toLowerCase e))) (usersColl w).

(* ===================================================================== *)
(** ** Concrete instances used in examples                                *)
(* ===================================================================== *)

Module Demo.

Definition alice : AuthContext :=
  {| auth_userId := "64a000000000000000000001"; auth_email := "alice@example.com" |}.

Definition bob : AuthContext :=
  {| auth_userId := "64a000000000000000000002"; auth_email := "bob@example.com" |}.

(** Tokens are the strings "alice-token" and "bob-token"; password hashes
    are the password prefixed by "hash:", and comparing a password that is
    not a string rejects; byte [i] of buffer [k] is [k + i], so that
    successive identifiers differ; the string builtins are their
    restrictions to ASCII strings, and the examples use ASCII strings only. *)
#[local] Instance externals : Externals := {|
  randomByte := fun k i => N.of_nat (k + i);
  jwt_verify := fun t =>
    if String.eqb t "alice-token" then Some alice
    else if String.eqb t "bob-token" then Some bob
    else None;
  jwt_sign := fun a => Some (String.append "token-of-" (auth_userId a));
  bcrypt_compare := fun pw h =>
    match pw with
    | Js.JsStr s => Some (String.eqb (String.append "hash:" s) h)
    | _ => None
    end;
  ObjectId_isValid := fun s => (String.length s =? 24)%nat;
  ObjectId_new := fun s => if (String.length s =? 24)%nat then Some s else None;
  String_toLowerCase := Js.toLowerCase;
  String_trim := Js.trim;
  String_length := Js.len
|}.

(** A source of randomness whose every buffer is all zeros: each generated
    identifier is "aaaaaaaaa". *)
Definition zeros : Externals := {|
  randomByte := fun _ _ => 0%N;
  jwt_verify := jwt_verify;
  jwt_sign := jwt_sign;
  bcrypt_compare := bcrypt_compare;
  ObjectId_isValid := ObjectId_isValid;
  ObjectId_new := ObjectId_new;
  String_toLowerCase := String_toLowerCase;
  String_trim := String_trim;
  String_length := String_length
|}.

(** A source of randomness whose first twelve buffers are all zeros (six
    rounds in which both identifiers are "aaaaaaaaa") and whose later
    buffers differ. *)
Definition sixTwins : Externals := {|
  randomByte := fun k i => if (k <? 12)%nat then 0%N else N.of_nat (k + i);
  jwt_verify := jwt_verify;
  jwt_sign := jwt_sign;
  bcrypt_compare := bcrypt_compare;
  ObjectId_isValid := ObjectId_isValid;
  ObjectId_new := ObjectId_new;
  String_toLowerCase := String_toLowerCase;
  String_trim := String_trim;
  String_length := String_length
|}.

(** A list owned by alice, with both identifiers. *)
Definition groceries : TodoListDocument :=
  {| l_id := "64b000000000000000000001";
     userId := Some "64a000000000000000000001";
     shareId := "k3mf8qp2x"; viewId := Some "v9w8x7y6z";
     title := "Groceries"; createdAt := 1000; updatedAt := 2000 |}.

(** A record created before viewId and userId existed. *)
Definition legacy : TodoListDocument :=
  {| l_id := "64b000000000000000000002";
     userId := None;
     shareId := "legacy001"; viewId := None;
     title := "Old list"; createdAt := 10; updatedAt := 20 |}.

Definition milk : TodoItemDocument :=
  {| i_id := "64c000000000000000000001"; listId := "64b000000000000000000001";
     text := "Buy milk"; completed := false; order := 0;
     i_createdAt := 1500; i_updatedAt := 1500 |}.

Definition world : World :=
  {| TodoListColl := [groceries; legacy]; TodoItemColl := [milk]; randomCalls := 0 |}.

(** The first GET of the legacy list, by its edit identifier. *)
Definition firstRead : Response * World :=
  default (errorJson "" 0, world) (Api.GET_list 5 "legacy001" 3000 world).

Definition bobAccount : UserDocument :=
  {| u_id := "64a000000000000000000002"; u_email := "bob@example.com";
     passwordHash := "hash:correct horse"; u_createdAt := 1; u_updatedAt := 1 |}.

Definition authWorld : AuthWorld :=
  {| usersColl := [bobAccount]; signinAttempts := ∅ |}.

(** Signin requests served in sequence, with the status of each answer. *)
Fixpoint signins (reqs : list (SigninRequest * Z)) (w : AuthWorld) : list Z * AuthWorld :=
  match reqs with
  | [] => ([], w)
  | (b, now) :: reqs' =>
      let '(r, w1) := Api.POST_signin (Some b) now w in
      let '(rs, w2) := signins reqs' w1 in
      (status r :: rs, w2)
  end.

Definition wrongGuess : SigninRequest :=
  {| b_email := Js.JsStr "bob@example.com"; b_password := Js.JsStr "wrong password" |}.

End Demo.

(* ===================================================================== *)
(** ** lib/utils.ts: clamp                                                *)
(* ===================================================================== *)

(** [clamp(value, min, max)] on integers: [Math.min(Math.max(value, min), max)]. *)
Definition clamp (value min max : Z) : Z := Z.min (Z.max value min) max.

(* ===================================================================== *)
(** ** lib/middleware/auth.ts: checkOwnership                             *)
(* ===================================================================== *)

Section CheckOwnership.
Context `{Externals}.

(** [checkOwnership(userId, listId)] on the collection it reads, which is
    the one named 'todolists' (the handlers read and write 'TodoList'): the
    list is looked up by [_id] when [new ObjectId(listId)] succeeds, and by
    shareId when it throws. *)
Definition checkOwnership (uid listId : string) (todolists : list TodoListDocument) : bool :=
  let lst :=
    match ObjectId_new listId with
    | Some oid => Mongo.findOne (Mongo.byListId oid) todolists
    | None => Mongo.findOne (Mongo.byShareId listId) todolists
    end in
  match lst with
  | None => false
  | Some l =>
      match userId l with
      | None => false
      | Some u => String.eqb u uid
      end
  end.

End CheckOwnership.

(* ===================================================================== *)
(** ** app/api/auth/signup/route.ts                                       *)
(* ===================================================================== *)

(** Code outside the repository that only signup uses, and what the
    embedding of a body leaves open. *)
Class SignupExternals := {
  (** [validator.isEmail]; [None] when it throws. *)
  validator_isEmail : Js.JsVal -> option bool;
  (** [bcrypt.hash(password, 12)]; [None] when the promise rejects. *)
  bcrypt_hash : Js.JsVal -> option string;
  (** [password.length < 8] for a password that is an object or an array,
      of which [Js.JsObject] keeps nothing: true for the array [1,2,3],
      false for an object without [length]. *)
  object_length_below_8 : bool
}.

(** The two request headers signup reads; [None] is [headers.get] returning
    [null]. *)
Record Headers := {
  x_forwarded_for : option string;
  x_real_ip : option string
}.

(** [s.split(',')[0]] *)
Fixpoint splitFirst (s : string) : string :=
  match s with
  | EmptyString => EmptyString
  | String c s' => if Ascii.eqb c ","%char then EmptyString else String c (splitFirst s')
  end.

(** [a || b] on strings, with [a] possibly [null]. *)
Definition orStr (a : option string) (b : string) : string :=
  match a with
  | Some v => if Js.isEmpty v then b else v
  | None => b
  end.

(** [req.headers.get('x-forwarded-for')?.split(',')[0] ||
     req.headers.get('x-real-ip') || 'unknown'] *)
Definition clientIp (h : Headers) : string :=
  orStr (splitFirst <$> x_forwarded_for h) (orStr (x_real_ip h) "unknown").

(** The collection users with the two throttle maps. *)
Record AccountsWorld := {
  accounts : AuthWorld;
  signupAttempts : gmap string RateLimit.RateLimitEntry
}.

Definition withUsers (c : list UserDocument) (w : AccountsWorld) : AccountsWorld :=
  {| accounts := {| usersColl := c; signinAttempts := signinAttempts (accounts w) |};
     signupAttempts := signupAttempts w |}.

Definition withSignupAttempts (m : gmap string RateLimit.RateLimitEntry)
    (w : AccountsWorld) : AccountsWorld :=
  {| accounts := accounts w; signupAttempts := m |}.

Section Signup.
Context `{Externals} `{SignupExternals}.

(** [hashPassword(password)] of lib/auth.ts. *)
Definition hashPassword (password : Js.JsVal) : option string := bcrypt_hash password.

(** [password.length < 8]: the length of a string decides; a boolean or a
    number has no [length] and [undefined < 8] is false; reading [length]
    of [null] or [undefined] throws ([None]). *)
Definition lengthBelow8 (password : Js.JsVal) : option bool :=
  match password with
  | Js.JsUndefined | Js.JsNull => None
  | Js.JsStr s => Some (String_length s <? 8)
  | Js.JsObject => Some object_length_below_8
  | _ => Some false
  end.

(** POST /api/auth/signup *)
Definition POST_signup (h : Headers) (body : option SigninRequest) (now : Z)
    (insertedId : string) (w : AccountsWorld) : Response * AccountsWorld :=
  let ip := clientIp h in
  let '(allowed, attempts) := RateLimit.checkSignupRateLimit now ip (signupAttempts w) in
  let w := withSignupAttempts attempts w in
  if negb allowed
  then (errorJson "Too many signup attempts. Please try again later." 429, w)
  else
    match body with
    | None => (errorJson "Internal server error" 500, w)
    | Some b =>
        let email := b_email b in
        let password := b_password b in
        if negb (Js.truthy email) || negb (Js.truthy password)
        then (errorJson "Email and password required" 400, w)
        else
          match validator_isEmail email with
          | None => (errorJson "Internal server error" 500, w)
          | Some false => (errorJson "Invalid email format" 400, w)
          | Some true =>
              match lengthBelow8 password with
              | None => (errorJson "Internal server error" 500, w)
              | Some true => (errorJson "Password must be at least 8 characters" 400, w)
              | Some false =>
                match email with
                | Js.JsStr e =>
                    let normalizedEmail := String_trim (String_toLowerCase e) in
                    match Mongo.findOne (fun u => String.eqb (u_email u) normalizedEmail)
                            (usersColl (accounts w)) with
                    | Some _ => (errorJson "Email already registered" 400, w)
                    | None =>
                        match hashPassword password with
                        | None => (errorJson "Internal server error" 500, w)
                        | Some passwordHash =>
                            let doc :=
                              {| u_id := insertedId; u_email := normalizedEmail;
                                 passwordHash := passwordHash;
                                 u_createdAt := now; u_updatedAt := now |} in
                            match Mongo.insertOne u_id doc (usersColl (accounts w)) with
                            | None => (errorJson "Internal server error" 500, w)
                            | Some c =>
                                let w := withUsers c w in
                                match Mongo.findOne
                                        (fun u => String.eqb (u_id u) insertedId)
                                        (usersColl (accounts w)) with
                                | None => (errorJson "Internal server error" 500, w)
                                | Some user =>
                                    match Auth.generateToken user with
                                    | None => (errorJson "Internal server error" 500, w)
                                    | Some token =>
                                        ({| status := 201;
                                            body := UserResponse (serializeUser user);
                                            setCookie := Some token |}, w)
                                    end
                                end
                            end
                        end
                    end
                | _ => (errorJson "Internal server error" 500, w)
                end
              end
          end
    end.

End Signup.

(* ===================================================================== *)
(** ** Further predicates on the store                                    *)
(* ===================================================================== *)

(** No two accounts share an address. *)
Definition uniqueEmails (users : list UserDocument) : Prop :=
  NoDup (map u_email users).

(** What the validation of the handlers lets into the store: titles of 1 to
    200 characters, item texts of 1 to 500 characters, orders from 0. *)
Definition boundedTitles `{Externals} (coll : list TodoListDocument) : Prop :=
  forall d, d ∈ coll -> 0 < String_length (title d) <= 200.

Definition boundedItems `{Externals} (coll : list TodoItemDocument) : Prop :=
  forall i, i ∈ coll -> 0 < String_length (text i) <= 500 /\ 0 <= order i.

(** [email.toLowerCase().trim()] *)
Definition normalizeEmail `{Externals} (e : string) : string := String_trim (String_toLowerCase e).

(** Every entry of a throttle map counts between 1 and the limit. *)
Definition countsWithin (lim : Z) (m : gmap string RateLimit.RateLimitEntry) : Prop :=
  forall k e, m !! k = Some e -> 1 <= RateLimit.count e <= lim.

(** Instances of the signup externals used in examples: an address is
    accepted when it is a string that contains an at sign; the hash of a
    string password is the password prefixed by "hash:". *)
Module DemoAccounts.

Fixpoint hasAt (s : string) : bool :=
  match s with
  | EmptyString => false
  | String c s' => Ascii.eqb c "@"%char || hasAt s'
  end.

#[local] Instance signupExternals : SignupExternals := {|
  validator_isEmail := fun v =>
    match v with
    | Js.JsStr s => Some (hasAt s)
    | _ => None
    end;
  bcrypt_hash := fun v =>
    match v with
    | Js.JsStr s => Some (String.append "hash:" s)
    | _ => None
    end;
  object_length_below_8 := false
|}.

Definition world : AccountsWorld :=
  {| accounts := Demo.authWorld; signupAttempts := ∅ |}.

Definition carol : SigninRequest :=
  {| b_email := Js.JsStr "Carol@Example.com"; b_password := Js.JsStr "correct horse" |}.

Definition direct : Headers :=
  {| x_forwarded_for := Some "203.0.113.7, 10.0.0.1"; x_real_ip := None |}.

(** A source of tokens that fails. *)
Definition noTokens : Externals := {|
  randomByte := randomByte (Externals := Demo.externals);
  jwt_verify := jwt_verify (Externals := Demo.externals);
  jwt_sign := fun _ => None;
  bcrypt_compare := bcrypt_compare (Externals := Demo.externals);
  ObjectId_isValid := ObjectId_isValid (Externals := Demo.externals);
  ObjectId_new := ObjectId_new (Externals := Demo.externals);
  String_toLowerCase := Js.toLowerCase;
  String_trim := Js.trim;
  String_length := Js.len
|}.

(** Carol signs up. *)
Definition carolSignup : Response * AccountsWorld :=
  POST_signup (H := Demo.externals) direct (Some carol) 1000 "64a000000000000000000003" world.

(** Carol signs up while no token can be signed. *)
Definition carolSignupNoToken : Response * AccountsWorld :=
  POST_signup (H := noTokens) direct (Some carol) 1000 "64a000000000000000000003" world.

End DemoAccounts.

(** Alice creates a list in the store of the examples. *)
Module DemoLists.

Definition chores : TitleRequest := {| b_title := Js.JsStr " Chores " |}.

Definition created : Response * World :=
  default (errorJson "" 0, Demo.world)
    (Api.POST_lists (H := Demo.externals) 5 (Some "alice-token") (Some chores) 4000
       "64b000000000000000000003" Demo.world).

(** A 'todolists' collection for [checkOwnership]. *)
Definition todolists : list TodoListDocument := [Demo.groceries].

End DemoLists.

(* ===================================================================== *)
(** * Properties                                                          *)
(* ===================================================================== *)

(** ** The definitions on concrete inputs *)

Example isValidShareId_lowercase : Utils.isValidShareId "k3mf8qp2x" = true.
Proof. reflexivity. Qed.

Example isValidShareId_uppercase : Utils.isValidShareId "K3MF8QP2X" = false.
Proof. reflexivity. Qed.

Example isValidShareId_short : Utils.isValidShareId "abc123" = false.
Proof. reflexivity. Qed.

Example isValidShareId_long : Utils.isValidShareId "k3mf8qp2xa" = false.
Proof. reflexivity. Qed.

Example generateShareId_bytes :
  Utils.generateShareId (fun i => nth i [0; 25; 26; 35; 36; 71; 255; 128; 61] 0)%N = "az09a9duz".
Proof. reflexivity. Qed.

Example trim_both_ends : Js.trim "  Buy  milk " = "Buy  milk".
Proof. reflexivity. Qed.

Example trim_blank : Js.trim "   " = "".
Proof. reflexivity. Qed.

Example toLowerCase_email : Js.toLowerCase "Bob@Example.COM" = "bob@example.com".
Proof. reflexivity. Qed.

Example detectPermission_shareId : Utils.detectPermission Demo.groceries "k3mf8qp2x" = edit.
Proof. reflexivity. Qed.

Example detectPermission_viewId : Utils.detectPermission Demo.groceries "v9w8x7y6z" = view.
Proof. reflexivity. Qed.

(** Nobody signed in: an item cannot be added through the view link. *)
Example POST_item_by_viewId :
  Api.POST_item (H := Demo.externals) "v9w8x7y6z" (Some {| b_text := Js.JsStr "Eggs" |}) 3000
    "64c000000000000000000002" Demo.world
  = (errorJson "Forbidden: View-only access cannot create items" 403, Demo.world).
Proof. reflexivity. Qed.

(** Through the edit link the item is appended with the next order and the
    list's [updatedAt] is written. *)
Example POST_item_by_shareId :
  let '(r, w) := Api.POST_item (H := Demo.externals) "k3mf8qp2x" (Some {| b_text := Js.JsStr " Eggs " |}) 3000
                   "64c000000000000000000002" Demo.world in
  status r = 201 /\
  (text <$> TodoItemColl w) = ["Buy milk"; "Eggs"] /\
  (order <$> TodoItemColl w) = [0; 1] /\
  (updatedAt <$> TodoListColl w) = [3000; 20].
Proof. vm_compute. auto. Qed.

(** Six signin attempts for bob inside 15 minutes with a wrong password:
    five answers 401, then 429. *)
Example signin_six_wrong_guesses :
  fst (Demo.signins
         [(Demo.wrongGuess, 1000); (Demo.wrongGuess, 2000); (Demo.wrongGuess, 3000);
          (Demo.wrongGuess, 4000); (Demo.wrongGuess, 5000); (Demo.wrongGuess, 6000)]
         Demo.authWorld)
  = [401; 401; 401; 401; 401; 429].
Proof. vm_compute. reflexivity. Qed.

(** ** Identifier generator *)

Lemma generateShareId_length (buf : nat -> N) :
  String.length (Utils.generateShareId buf) = 9%nat.
Proof. reflexivity. Qed.

Lemma generateShareId_nonempty (buf : nat -> N) :
  Js.isEmpty (Utils.generateShareId buf) = false.
Proof. reflexivity. Qed.

Lemma charAt_alnum (i : nat) : Utils.isLowerAlnum (Utils.charAt i) = true.
Proof.
  do 36 (destruct i as [|i]; [reflexivity|]).
  reflexivity.
Qed.

Lemma generateShareId_valid (buf : nat -> N) :
  Utils.isValidShareId (Utils.generateShareId buf) = true.
Proof.
  unfold Utils.isValidShareId, Utils.generateShareId. cbn -[Utils.charAt Utils.isLowerAlnum].
  rewrite !charAt_alnum. reflexivity.
Qed.

(** ** Link grant *)

Lemma detectPermission_edit_iff (lst : TodoListDocument) (id : string) :
  Utils.detectPermission lst id = edit <-> id = shareId lst.
Proof.
  unfold Utils.detectPermission.
  destruct (String.eqb_spec (shareId lst) id); split; intros; congruence.
Qed.

Lemma detectPermission_view_iff (lst : TodoListDocument) (id : string) :
  Utils.detectPermission lst id = view <-> id <> shareId lst.
Proof.
  unfold Utils.detectPermission.
  destruct (String.eqb_spec (shareId lst) id); split; intros; congruence.
Qed.

Lemma byEitherId_ids (id : string) (d : TodoListDocument) :
  Mongo.byEitherId id d = true <-> id ∈ ids d.
Proof.
  unfold Mongo.byEitherId, Mongo.byShareId, Mongo.byViewId, ids.
  rewrite orb_true_iff, elem_of_cons.
  destruct (viewId d) as [v|].
  - rewrite list_elem_of_singleton, !String.eqb_eq. intuition congruence.
  - rewrite elem_of_nil, String.eqb_eq. intuition congruence.
Qed.

(** Under identifier uniqueness, an identifier of a stored record finds
    that record and no other. *)
Lemma findOne_unique (coll : list TodoListDocument) (lst : TodoListDocument) (id : string) :
  uniqueIds coll -> lst ∈ coll -> id ∈ ids lst ->
  Mongo.findOne (Mongo.byEitherId id) coll = Some lst.
Proof.
  unfold uniqueIds, allIds, Mongo.findOne.
  induction coll as [|d coll IH]; intros Hu Hin Hid.
  - by apply elem_of_nil in Hin.
  - cbn [map concat] in Hu. apply NoDup_app in Hu as (Hd & Hdisj & Hrest).
    cbn [find]. apply elem_of_cons in Hin as [->|Hin].
    + apply byEitherId_ids in Hid. by rewrite Hid.
    + destruct (Mongo.byEitherId id d) eqn:E.
      * apply byEitherId_ids in E. exfalso. apply (Hdisj id E).
        apply list_elem_of_In, in_concat. exists (ids lst). split.
        -- apply in_map, list_elem_of_In, Hin.
        -- by apply list_elem_of_In.
      * by apply IH.
Qed.

Lemma uniqueIds_self_distinct (coll : list TodoListDocument) (lst : TodoListDocument) (v : string) :
  uniqueIds coll -> lst ∈ coll -> viewId lst = Some v -> v <> shareId lst.
Proof.
  unfold uniqueIds, allIds. induction coll as [|d coll IH]; intros Hu Hin Hv.
  - by apply elem_of_nil in Hin.
  - cbn [map concat] in Hu. apply NoDup_app in Hu as (Hd & _ & Hrest).
    apply elem_of_cons in Hin as [->|Hin]; [|by apply IH].
    unfold ids in Hd. rewrite Hv in Hd. apply NoDup_cons in Hd as [Hd _].
    intros ->. apply Hd. by left.
Qed.

(** C4: the link grant is 'edit' exactly when the supplied identifier is
    the record's shareId and 'view' otherwise; so, in a store whose
    identifiers are unique, looking a list up by its edit identifier finds
    it with grant 'edit', and looking it up by its view identifier finds it
    with grant 'view', whoever asks (no identity enters the computation). *)
Theorem C4_link_type_determinism :
  (forall (lst : TodoListDocument) (id : string),
      Mongo.byEitherId id lst = true ->
      (Utils.detectPermission lst id = edit <-> id = shareId lst) /\
      (Utils.detectPermission lst id = view <-> id <> shareId lst)) /\
  (forall (coll : list TodoListDocument) (lst : TodoListDocument),
      uniqueIds coll -> lst ∈ coll ->
      (Mongo.findOne (Mongo.byEitherId (shareId lst)) coll = Some lst /\
       Utils.detectPermission lst (shareId lst) = edit) /\
      (forall v, viewId lst = Some v ->
         Mongo.findOne (Mongo.byEitherId v) coll = Some lst /\
         Utils.detectPermission lst v = view)).
Proof.
  split.
  - intros lst id _. split; [apply detectPermission_edit_iff | apply detectPermission_view_iff].
  - intros coll lst Hu Hin. split.
    + split.
      * apply findOne_unique; [done..|]. unfold ids. by left.
      * by apply detectPermission_edit_iff.
    + intros v Hv. split.
      * apply findOne_unique; [done..|]. unfold ids. rewrite Hv. right. by left.
      * apply detectPermission_view_iff. by eapply uniqueIds_self_distinct.
Qed.

(** ** Attempt throttle *)

Module RateLimitFacts.
Import RateLimit.

Section WithExternals.
Context `{Externals}.

Lemma orNum_count (c : Z) : Js.orNum (Some c) 0 + 1 = c + 1.
Proof. unfold Js.orNum. destruct (Z.eqb_spec c 0); lia. Qed.

Lemma orNum_resetAt (r d : Z) : r <> 0 -> Js.orNum (Some r) d = r.
Proof. unfold Js.orNum. intros Hr. destruct (Z.eqb_spec r 0); [done | reflexivity]. Qed.

(** The body shared by the two source functions is the contract, for any
    key, a limit of at least 1 and a clock past the epoch. *)
Lemma body_refines (k : string) (lim w now : Z) (m : gmap string RateLimitEntry) :
  0 < now -> 0 < lim ->
  (let entry := m !! k in
   let m1 := match entry with
             | Some e => if resetAt e <? now then delete k m else m
             | None => m
             end in
   let current := m1 !! k in
   if match current with Some c => lim <=? count c | None => false end
   then (false, m1)
   else (true, <[ k := {| count := Js.orNum (count <$> current) 0 + 1;
                          resetAt := Js.orNum (resetAt <$> current) (now + w) |} ]> m1))
  = checkAndConsume k lim w now m.
Proof.
  intros Hnow Hlim. unfold checkAndConsume. cbn zeta.
  destruct (m !! k) as [e|] eqn:He.
  - destruct (Z.ltb_spec (resetAt e) now) as [Hexp|Hlive].
    + rewrite lookup_delete_eq. cbn.
      destruct (Z.leb_spec lim 0); [lia|].
      by rewrite insert_delete_eq.
    + rewrite He. cbn. destruct (Z.leb_spec lim (count e)); [done|].
      change (if count e =? 0 then 0 else count e) with (Js.orNum (Some (count e)) 0).
      change (if resetAt e =? 0 then now + w else resetAt e)
        with (Js.orNum (Some (resetAt e)) (now + w)).
      rewrite orNum_count, orNum_resetAt by lia. done.
  - rewrite He. cbn. destruct (Z.leb_spec lim 0); [lia|]. done.
Qed.

Lemma check_refines (p : Policy) (key : string) (now : Z) (m : gmap string RateLimitEntry) :
  0 < now ->
  check p now key m = checkAndConsume (keyOf p key) (limit p) (windowMs p) now m.
Proof.
  intros Hnow. destruct p; cbn [check keyOf limit windowMs].
  - unfold checkSignupRateLimit. by apply body_refines.
  - unfold checkSigninRateLimit. by apply body_refines.
Qed.

(** A call inside a live window below the limit increments the counter
    and keeps the window end. *)
Lemma consume_live (k : string) (lim w now c r : Z) (m : gmap string RateLimitEntry) :
  m !! k = Some {| count := c; resetAt := r |} -> now <= r -> c < lim ->
  checkAndConsume k lim w now m = (true, <[ k := {| count := c + 1; resetAt := r |} ]> m).
Proof.
  intros Hm Hr Hc. unfold checkAndConsume. rewrite Hm. cbn.
  destruct (Z.ltb_spec r now); [lia|].
  destruct (Z.leb_spec lim c); [lia|]. done.
Qed.

(** A call inside a live window at the limit is refused and changes nothing. *)
Lemma consume_refused (k : string) (lim w now c r : Z) (m : gmap string RateLimitEntry) :
  m !! k = Some {| count := c; resetAt := r |} -> now <= r -> lim <= c ->
  checkAndConsume k lim w now m = (false, m).
Proof.
  intros Hm Hr Hc. unfold checkAndConsume. rewrite Hm. cbn.
  destruct (Z.ltb_spec r now); [lia|].
  destruct (Z.leb_spec lim c); [done|lia].
Qed.

(** A call with no entry or an expired one opens a window and counts 1. *)
Lemma consume_fresh (k : string) (lim w now : Z) (m : gmap string RateLimitEntry) :
  0 < lim ->
  (forall e, m !! k = Some e -> resetAt e < now) ->
  checkAndConsume k lim w now m = (true, <[ k := {| count := 1; resetAt := now + w |} ]> m).
Proof.
  intros Hlim Hexp. unfold checkAndConsume.
  destruct (m !! k) as [e|] eqn:He.
  - specialize (Hexp e eq_refl). destruct (Z.ltb_spec (resetAt e) now); [|lia].
    destruct (Z.leb_spec lim 0); [lia|]. done.
  - destruct (Z.leb_spec lim 0); [lia|]. done.
Qed.

Lemma limit_pos (p : Policy) : 0 < limit p.
Proof. destruct p; cbn; lia. Qed.

(** Calls inside a live window succeed while the counter stays within
    the limit. *)
Lemma calls_live (p : Policy) (key : string) (ts : list Z) :
  forall (c r : Z) (m : gmap string RateLimitEntry),
    m !! keyOf p key = Some {| count := c; resetAt := r |} ->
    c + Z.of_nat (length ts) <= limit p ->
    Forall (fun t => 0 < t <= r) ts ->
    exists m',
      calls p key ts m = (replicate (length ts) true, m') /\
      m' !! keyOf p key = Some {| count := c + Z.of_nat (length ts); resetAt := r |}.
Proof.
  induction ts as [|t ts IH]; intros c r m Hm Hc Hts.
  - exists m. cbn. split; [done|]. rewrite Hm. do 2 f_equal. lia.
  - apply Forall_cons in Hts as [Ht Hts]. cbn [length] in Hc.
    cbn [calls]. rewrite check_refines by lia.
    rewrite (consume_live _ _ _ _ c r) by (done || lia).
    destruct (IH (c + 1) r (<[keyOf p key:={| count := c + 1; resetAt := r |}]> m))
      as (m' & Hcalls & Hm'); [by rewrite lookup_insert_eq | lia | done |].
    exists m'. rewrite Hcalls. split; [done|].
    rewrite Hm'. do 2 f_equal. cbn [length]. lia.
Qed.

(** The periodic sweep is not observable: a call made after a sweep is
    answered as without the sweep and leaves the same entry for its key. *)
Lemma sweep_transparent (p : Policy) (key : string) (now now' : Z)
    (m : gmap string RateLimitEntry) :
  0 < now' -> now <= now' ->
  fst (check p now' key (sweep now m)) = fst (check p now' key m) /\
  snd (check p now' key (sweep now m)) !! keyOf p key
    = snd (check p now' key m) !! keyOf p key.
Proof.
  intros Hpos Hle. rewrite !check_refines by done.
  pose proof (limit_pos p) as Hlim.
  assert (Hs : sweep now m !! keyOf p key =
               match m !! keyOf p key with
               | Some e => if decide (resetAt e < now) then None else Some e
               | None => None
               end).
  { unfold sweep. destruct (m !! keyOf p key) as [e|] eqn:He.
    - destruct (decide (resetAt e < now)) as [Hexp|Hlive].
      + apply map_lookup_filter_None. right. intros x Hx.
        rewrite He in Hx. injection Hx as <-. cbn. tauto.
      + by apply map_lookup_filter_Some.
    - apply map_lookup_filter_None. by left. }
  unfold checkAndConsume. rewrite Hs.
  destruct (m !! keyOf p key) as [e|] eqn:He.
  - destruct (decide (resetAt e < now)) as [Hexp|Hlive].
    + destruct (Z.ltb_spec (resetAt e) now'); [|lia].
      destruct (Z.leb_spec (limit p) 0); [lia|]. cbn.
      by rewrite !lookup_insert_eq.
    + destruct (resetAt e <? now'); destruct (_ <=? _); cbn;
        rewrite ?lookup_insert_eq, ?Hs, ?He; try done;
        by destruct (decide (resetAt e < now)).
  - destruct (Z.leb_spec (limit p) 0); [lia|]. cbn. by rewrite !lookup_insert_eq.
Qed.

End WithExternals.
End RateLimitFacts.

(** C5: for both policies (signup: limit 3, window 1 hour; signin: limit 5,
    window 15 minutes, key normalized), with a clock past the epoch each
    call is the contract [checkAndConsume]: an expired window resets the
    counter and opens a window ending at now + windowMs, a counter at or
    above the limit refuses without changing anything, otherwise the counter
    is incremented and the call is allowed.  Hence, from a key with no live
    window, the first call and the next limit-1 calls inside the window it
    opens are allowed, every further call inside the window is refused and
    leaves the map as it is, and a call after the window is allowed again. *)
Theorem C5_throttle_contract_and_boundary `{Externals}
    (p : RateLimit.Policy) (key : string) (m : gmap string RateLimit.RateLimitEntry)
    (t0 : Z) (ts : list Z) (t_in t_after : Z) :
  0 < t0 ->
  (forall e, m !! RateLimit.keyOf p key = Some e -> RateLimit.resetAt e < t0) ->
  Z.of_nat (length ts) = RateLimit.limit p - 1 ->
  Forall (fun t => 0 < t <= t0 + RateLimit.windowMs p) ts ->
  0 < t_in <= t0 + RateLimit.windowMs p ->
  t0 + RateLimit.windowMs p < t_after ->
  (RateLimit.limit p = match p with RateLimit.Signup => 3 | RateLimit.Signin => 5 end /\
   RateLimit.windowMs p =
     match p with RateLimit.Signup => 3600000 | RateLimit.Signin => 900000 end) /\
  (forall now k m0, 0 < now ->
     RateLimit.check p now k m0 =
     RateLimit.checkAndConsume (RateLimit.keyOf p k) (RateLimit.limit p)
       (RateLimit.windowMs p) now m0) /\
  exists m1,
    RateLimit.calls p key (t0 :: ts) m = (replicate (Z.to_nat (RateLimit.limit p)) true, m1) /\
    RateLimit.check p t_in key m1 = (false, m1) /\
    fst (RateLimit.check p t_after key m1) = true.
Proof.
  intros Ht0 Hfresh Hlen Hts Hin Hafter.
  split; [by destruct p|].
  split; [intros; by apply RateLimitFacts.check_refines|].
  pose proof (RateLimitFacts.limit_pos p) as Hlim.
  assert (Hw : 0 < RateLimit.windowMs p) by (destruct p; cbn; lia).
  cbn [RateLimit.calls]. rewrite RateLimitFacts.check_refines by done.
  rewrite RateLimitFacts.consume_fresh by done.
  destruct (RateLimitFacts.calls_live p key ts 1 (t0 + RateLimit.windowMs p)
              (<[RateLimit.keyOf p key :=
                   {| RateLimit.count := 1;
                      RateLimit.resetAt := t0 + RateLimit.windowMs p |}]> m))
    as (m1 & Hcalls & Hm1); [by rewrite lookup_insert_eq | lia | done |].
  exists m1. rewrite Hcalls. split; [|split].
  - f_equal. replace (Z.to_nat (RateLimit.limit p)) with (S (length ts)) by lia. done.
  - rewrite RateLimitFacts.check_refines by lia.
    eapply RateLimitFacts.consume_refused; [exact Hm1 | lia | lia].
  - rewrite RateLimitFacts.check_refines by lia.
    unfold RateLimit.checkAndConsume. rewrite Hm1. cbn.
    destruct (Z.ltb_spec (t0 + RateLimit.windowMs p) t_after); [|lia].
    destruct (Z.leb_spec (RateLimit.limit p) 0); [lia|]. done.
Qed.

Lemma demo_signin_times :
  Forall (fun t => 0 < t <= 1000 + RateLimit.windowMs RateLimit.Signin)
    [1001; 2000; 500000; 901000].
Proof. repeat (constructor; [cbn; lia|]). constructor. Defined.

(** Five signin attempts for one address inside 15 minutes pass, the sixth
    is refused, and an attempt after the window passes again. *)
Lemma C5_witness :
  exists m1,
    RateLimit.calls (H := Demo.externals) RateLimit.Signin " Bob@Example.com" [1000; 1001; 2000; 500000; 901000] ∅
      = (replicate 5 true, m1) /\
    RateLimit.check (H := Demo.externals) RateLimit.Signin 901000 " Bob@Example.com" m1 = (false, m1) /\
    fst (RateLimit.check (H := Demo.externals) RateLimit.Signin 901001 " Bob@Example.com" m1) = true.
Proof.
  refine (proj2 (proj2 (C5_throttle_contract_and_boundary RateLimit.Signin
            " Bob@Example.com" ∅ 1000 [1001; 2000; 500000; 901000] 901000 901001
            _ _ _ demo_signin_times _ _))).
  - lia.
  - intros e He. rewrite lookup_empty in He. discriminate He.
  - reflexivity.
  - cbn. lia.
  - cbn. lia.
Defined.

Lemma demo_uniqueIds : uniqueIds (TodoListColl Demo.world).
Proof.
  unfold uniqueIds, allIds. cbn.
  repeat (apply NoDup_cons_2; [by (intros Hin; repeat (apply elem_of_cons in Hin as [Hin|Hin]; [discriminate Hin|]); apply elem_of_nil in Hin)|]).
  apply NoDup_nil_2.
Defined.

Lemma demo_groceries_stored : Demo.groceries ∈ TodoListColl Demo.world.
Proof. cbn. apply list_elem_of_here. Defined.

(** The view identifier of the groceries list resolves to it with grant
    'view', its edit identifier with grant 'edit'. *)
Lemma C4_witness :
  (Mongo.findOne (Mongo.byEitherId "k3mf8qp2x") (TodoListColl Demo.world) = Some Demo.groceries /\
   Utils.detectPermission Demo.groceries "k3mf8qp2x" = edit) /\
  (Mongo.findOne (Mongo.byEitherId "v9w8x7y6z") (TodoListColl Demo.world) = Some Demo.groceries /\
   Utils.detectPermission Demo.groceries "v9w8x7y6z" = view).
Proof.
  destruct (proj2 C4_link_type_determinism (TodoListColl Demo.world) Demo.groceries
              demo_uniqueIds demo_groceries_stored) as [He Hv].
  split; [exact He | exact (Hv "v9w8x7y6z" eq_refl)].
Defined.

(** ** Signin *)

Section Signin.
Context `{Externals}.

(** A signin request that reaches the account lookup is answered from the
    lookup and the password check alone. *)
Lemma signin_reaches_lookup (b : SigninRequest) (e : string) (now : Z) (w : AuthWorld) :
  b_email b = Js.JsStr e ->
  Js.truthy (b_email b) = true -> Js.truthy (b_password b) = true ->
  fst (RateLimit.checkSigninRateLimit now (String_trim (String_toLowerCase e)) (signinAttempts w)) = true ->
  fst (Api.POST_signin (Some b) now w) =
    match accountOf e w with
    | None => errorJson "Invalid credentials" 401
    | Some user =>
        match Auth.verifyPassword (b_password b) (passwordHash user) with
        | None => errorJson "Internal server error" 500
        | Some false => errorJson "Invalid credentials" 401
        | Some true =>
            match Auth.generateToken user with
            | None => errorJson "Internal server error" 500
            | Some token =>
                {| status := 200; body := UserResponse (serializeUser user);
                   setCookie := Some token |}
            end
        end
    end.
Proof.
  intros He Hte Htp Hrl. unfold Api.POST_signin, accountOf.
  rewrite Hte, Htp. cbn [negb orb]. rewrite He.
  destruct (RateLimit.checkSigninRateLimit now _ (signinAttempts w)) as [allowed attempts].
  cbn [fst] in Hrl. subst allowed. cbn [negb usersColl].
  destruct (Mongo.findOne _ (usersColl w)) as [user|]; [|reflexivity].
  destruct (Auth.verifyPassword _ _) as [[|]|]; try reflexivity.
  destruct (Auth.generateToken user); reflexivity.
Qed.

(** C6: the two failures of a signin are not always answered alike.  Past
    validation and throttle, a request whose address matches no account is
    answered 401 { error: 'Invalid credentials' } whatever its password,
    and so is a request for an existing account when [bcrypt.compare]
    resolves to false; but when [bcrypt.compare] rejects, as it does for a
    password that is not a string, the request for the existing account is
    answered 500 { error: 'Internal server error' }: the two responses
    differ in status and payload, and tell whether the address is
    registered. *)
Theorem C6_signin_status_reveals_account
    (b1 b2 : SigninRequest) (e1 e2 : string) (now1 now2 : Z) (w1 w2 : AuthWorld)
    (user : UserDocument) :
  b_email b1 = Js.JsStr e1 -> Js.isEmpty e1 = false ->
  Js.truthy (b_password b1) = true ->
  fst (RateLimit.checkSigninRateLimit now1 (String_trim (String_toLowerCase e1))
         (signinAttempts w1)) = true ->
  accountOf e1 w1 = None ->
  b_email b2 = Js.JsStr e2 -> Js.isEmpty e2 = false ->
  Js.truthy (b_password b2) = true ->
  fst (RateLimit.checkSigninRateLimit now2 (String_trim (String_toLowerCase e2))
         (signinAttempts w2)) = true ->
  accountOf e2 w2 = Some user ->
  fst (Api.POST_signin (Some b1) now1 w1) = errorJson "Invalid credentials" 401 /\
  (Auth.verifyPassword (b_password b2) (passwordHash user) = Some false ->
   fst (Api.POST_signin (Some b2) now2 w2) = fst (Api.POST_signin (Some b1) now1 w1)) /\
  (Auth.verifyPassword (b_password b2) (passwordHash user) = None ->
   fst (Api.POST_signin (Some b2) now2 w2) = errorJson "Internal server error" 500 /\
   status (fst (Api.POST_signin (Some b2) now2 w2))
     <> status (fst (Api.POST_signin (Some b1) now1 w1)) /\
   body (fst (Api.POST_signin (Some b2) now2 w2))
     <> body (fst (Api.POST_signin (Some b1) now1 w1))).
Proof.
  intros He1 Hn1 Hp1 Hr1 Ha1 He2 Hn2 Hp2 Hr2 Ha2.
  rewrite (signin_reaches_lookup b1 e1), (signin_reaches_lookup b2 e2);
    try done; try (rewrite ?He1, ?He2; cbn; by rewrite ?Hn1, ?Hn2).
  rewrite Ha1, Ha2. split; [done|]. split.
  - by intros ->.
  - intros ->. by repeat split.
Qed.

End Signin.

Lemma demo_throttle_open (e : string) (now : Z) :
  fst (RateLimit.checkSigninRateLimit (H := Demo.externals) now e (signinAttempts Demo.authWorld)) = true.
Proof.
  unfold RateLimit.checkSigninRateLimit. cbn [Demo.authWorld signinAttempts].
  rewrite lookup_empty. reflexivity.
Defined.

(** The password 12345, a number: the unknown address is answered 401,
    bob's address 500. *)
Lemma C6_witness :
  fst (Api.POST_signin (H := Demo.externals)
         (Some {| b_email := Js.JsStr "nobody@example.com"; b_password := Js.JsNum 12345 |})
         5000 Demo.authWorld)
    = errorJson "Invalid credentials" 401 /\
  fst (Api.POST_signin (H := Demo.externals)
         (Some {| b_email := Js.JsStr "bob@example.com"; b_password := Js.JsNum 12345 |})
         6000 Demo.authWorld)
    = errorJson "Internal server error" 500.
Proof.
  destruct (C6_signin_status_reveals_account (H := Demo.externals)
              {| b_email := Js.JsStr "nobody@example.com"; b_password := Js.JsNum 12345 |}
              {| b_email := Js.JsStr "bob@example.com"; b_password := Js.JsNum 12345 |}
              "nobody@example.com" "bob@example.com" 5000 6000
              Demo.authWorld Demo.authWorld Demo.bobAccount
              eq_refl eq_refl eq_refl (demo_throttle_open _ _) eq_refl
              eq_refl eq_refl eq_refl (demo_throttle_open _ _) eq_refl)
    as (H401 & _ & H500).
  split; [exact H401 | exact (proj1 (H500 eq_refl))].
Defined.

(** ** Collection operations *)

Module MongoFacts.
Import Mongo.

Section Generic.
Context {A : Type}.
Implicit Types (q : A -> bool) (f : A -> A) (c : list A).

Lemma findOne_Some q c x : findOne q c = Some x -> x ∈ c /\ q x = true.
Proof.
  unfold findOne. intros Hf. apply find_some in Hf as [Hin Hq].
  split; [by apply list_elem_of_In | done].
Qed.

Lemma findOne_None q c x : findOne q c = None -> x ∈ c -> q x = false.
Proof.
  unfold findOne. intros Hf Hin. eapply find_none; [exact Hf|]. by apply list_elem_of_In.
Qed.

Lemma findOne_None_iff q c : findOne q c = None <-> forall x, x ∈ c -> q x = false.
Proof.
  split; [intros Hf x; by apply findOne_None|].
  unfold findOne. induction c as [|d c IH]; intros Hall; [done|].
  cbn. rewrite (Hall d) by (by left). apply IH. intros x Hx. apply Hall. by right.
Qed.

Lemma updateOne_no_match q f c : findOne q c = None -> updateOne q f c = c.
Proof.
  unfold findOne. induction c as [|d c IH]; cbn; [done|].
  destruct (q d); [discriminate|]. intros Hf. by rewrite IH.
Qed.

Lemma deleteOne_no_match q c : findOne q c = None -> deleteOne q c = (0, c).
Proof.
  unfold findOne. induction c as [|d c IH]; cbn; [done|].
  destruct (q d); [discriminate|]. intros Hf. by rewrite IH.
Qed.

Lemma deleteOne_count q c :
  (fst (deleteOne q c) = 0 /\ snd (deleteOne q c) = c /\ findOne q c = None) \/
  (fst (deleteOne q c) = 1 /\ exists x, findOne q c = Some x).
Proof.
  unfold findOne. induction c as [|d c IH]; cbn; [by left|].
  destruct (q d); [right; eauto|].
  destruct (deleteOne q c) as [n r]. cbn in *.
  destruct IH as [(-> & -> & Hn)|[-> Hx]]; [by left | by right].
Qed.

Lemma deleteOne_keeps q c x : x ∈ c -> q x = false -> x ∈ snd (deleteOne q c).
Proof.
  induction c as [|d c IH]; intros Hin Hq; [by apply elem_of_nil in Hin|].
  cbn. apply elem_of_cons in Hin as [->|Hin].
  - rewrite Hq. destruct (deleteOne q c). cbn. by left.
  - destruct (q d); [done|]. specialize (IH Hin Hq).
    destruct (deleteOne q c). cbn in *. by right.
Qed.

Lemma deleteOne_sub q c x : x ∈ snd (deleteOne q c) -> x ∈ c.
Proof.
  induction c as [|d c IH]; cbn; [done|].
  destruct (q d); [by right|].
  destruct (deleteOne q c). cbn in *.
  intros [->|Hin]%elem_of_cons; [by left | right; by apply IH].
Qed.


Lemma deleteMany_keeps q c x : x ∈ c -> q x = false -> x ∈ deleteMany q c.
Proof.
  intros Hin Hq. unfold deleteMany. apply list_elem_of_In, filter_In.
  split; [by apply list_elem_of_In | by rewrite Hq].
Qed.


Lemma updateOne_elem q f c x' :
  x' ∈ updateOne q f c -> x' ∈ c \/ exists x, x ∈ c /\ q x = true /\ x' = f x.
Proof.
  induction c as [|d c IH]; cbn; [by left|].
  destruct (q d) eqn:Hq.
  - intros [->|Hin]%elem_of_cons.
    + right. exists d. split; [by left | done].
    + left. by right.
  - intros [->|Hin]%elem_of_cons; [left; by left|].
    destruct (IH Hin) as [?|(x & ? & ? & ?)]; [left; by right|].
    right. exists x. split; [by right | done].
Qed.

Lemma updateOne_keeps q f c x : x ∈ c -> q x = false -> x ∈ updateOne q f c.
Proof.
  induction c as [|d c IH]; intros Hin Hq; [by apply elem_of_nil in Hin|].
  cbn. apply elem_of_cons in Hin as [->|Hin].
  - rewrite Hq. by left.
  - destruct (q d); right; [done | by apply IH].
Qed.

End Generic.

Lemma keys_inj (coll : list TodoListDocument) (x y : TodoListDocument) :
  uniqueKeys coll -> x ∈ coll -> y ∈ coll -> l_id x = l_id y -> x = y.
Proof.
  unfold uniqueKeys. induction coll as [|d coll IH]; intros Hu Hx Hy Hk.
  - by apply elem_of_nil in Hx.
  - cbn in Hu. apply NoDup_cons in Hu as [Hd Hu].
    assert (Hk' : forall z, z ∈ coll -> l_id z ∈ map l_id coll).
    { intros z Hz. apply list_elem_of_In, in_map, list_elem_of_In, Hz. }
    apply elem_of_cons in Hx as [->|Hx]; apply elem_of_cons in Hy as [->|Hy].
    + done.
    + exfalso. apply Hd. rewrite Hk. by apply Hk'.
    + exfalso. apply Hd. rewrite <- Hk. by apply Hk'.
    + by apply IH.
Qed.

(** Updating by [_id] the document a query found first, with an update
    that keeps it a match, makes the query find the updated document. *)
Lemma findOne_updateOne (q : TodoListDocument -> bool) (f : TodoListDocument -> TodoListDocument)
    (coll : list TodoListDocument) (lst : TodoListDocument) :
  uniqueKeys coll -> findOne q coll = Some lst -> q (f lst) = true ->
  findOne q (updateOne (byListId (l_id lst)) f coll) = Some (f lst).
Proof.
  unfold findOne. induction coll as [|d coll IH]; intros Hu Hf Hq; [discriminate|].
  cbn in Hf. cbn [updateOne]. destruct (q d) eqn:Hqd.
  - injection Hf as ->. unfold byListId at 1. rewrite String.eqb_refl. cbn. by rewrite Hq.
  - assert (Hin : lst ∈ coll) by (eapply (findOne_Some q); exact Hf).
    destruct (byListId (l_id lst) d) eqn:Hk.
    + apply String.eqb_eq in Hk. exfalso.
      assert (d = lst) as ->; [|by apply find_some in Hf as [_ ?]; congruence].
      apply (keys_inj (d :: coll)); [done | by left | by right | done].
    + cbn. rewrite Hqd. apply IH; [|done..].
      unfold uniqueKeys in *. cbn in Hu. by apply NoDup_cons in Hu as [_ ?].
Qed.

Lemma findOne_byListId (coll : list TodoListDocument) (lst : TodoListDocument) :
  uniqueKeys coll -> lst ∈ coll -> findOne (byListId (l_id lst)) coll = Some lst.
Proof.
  intros Hu Hin. destruct (findOne (byListId (l_id lst)) coll) as [x|] eqn:Hf.
  - apply findOne_Some in Hf as [Hx Hk]. apply String.eqb_eq in Hk.
    f_equal. by apply (keys_inj coll).
  - apply (findOne_None _ _ lst) in Hf; [|done].
    unfold byListId in Hf. by rewrite String.eqb_refl in Hf.
Qed.

End MongoFacts.

(** ** Identifier uniqueness *)

Module IdFacts.
Import Mongo.

Lemma allIds_cons (d : TodoListDocument) (coll : list TodoListDocument) :
  allIds (d :: coll) = ids d ++ allIds coll.
Proof. reflexivity. Qed.

Lemma allIds_app (c1 c2 : list TodoListDocument) :
  allIds (c1 ++ c2) = allIds c1 ++ allIds c2.
Proof. unfold allIds. by rewrite map_app, concat_app. Qed.

Lemma elem_of_allIds (coll : list TodoListDocument) (id : string) :
  id ∈ allIds coll <-> exists d, d ∈ coll /\ id ∈ ids d.
Proof.
  induction coll as [|d coll IH].
  - split; [by intros ?%elem_of_nil | by intros (? & ?%elem_of_nil & _)].
  - rewrite allIds_cons, elem_of_app, IH. split.
    + intros [Hd|(x & Hx & Hid)]; [exists d; split; [by left | done]|].
      exists x. split; [by right | done].
    + intros (x & [->|Hx]%elem_of_cons & Hid); [by left|]. right. eauto.
Qed.

(** A query for an identifier on both fields finds nothing exactly when
    the identifier is nowhere in the collection. *)
Lemma fresh_iff (coll : list TodoListDocument) (id : string) :
  findOne (fun d => byShareId id d || byViewId id d) coll = None <-> id ∉ allIds coll.
Proof.
  rewrite elem_of_allIds. split.
  - intros Hf (d & Hd & Hid). apply byEitherId_ids in Hid.
    apply (MongoFacts.findOne_None _ _ d) in Hf; [|done].
    unfold byEitherId in Hid. congruence.
  - intros Hno. destruct (findOne _ coll) as [d|] eqn:Hf; [|done].
    apply MongoFacts.findOne_Some in Hf as [Hd Hq]. exfalso. apply Hno.
    exists d. split; [done|]. by apply byEitherId_ids.
Qed.

(** The four-way query of list creation. *)
Lemma fresh_pair_iff (coll : list TodoListDocument) (s v : string) :
  findOne (fun d => byShareId s d || byViewId s d || byShareId v d || byViewId v d) coll = None
  <-> (s ∉ allIds coll) /\ (v ∉ allIds coll).
Proof.
  rewrite <- !fresh_iff, !MongoFacts.findOne_None_iff. split.
  - intros Hf. split; intros d Hd; specialize (Hf d Hd);
      repeat (apply orb_false_iff in Hf as [Hf ?]); by apply orb_false_iff.
  - intros [Hs Hv] d Hd. specialize (Hs d Hd). specialize (Hv d Hd).
    apply orb_false_iff in Hs as [-> ->]. apply orb_false_iff in Hv as [-> ->]. done.
Qed.

Lemma uniqueIds_insert (coll : list TodoListDocument) (d : TodoListDocument) (v : string) :
  uniqueIds coll -> viewId d = Some v -> shareId d <> v ->
  shareId d ∉ allIds coll -> v ∉ allIds coll ->
  uniqueIds (coll ++ [d]).
Proof.
  unfold uniqueIds. intros Hu Hv Hne Hs Hvf.
  rewrite allIds_app. apply NoDup_app. split; [done|]. split.
  - intros x Hx. unfold allIds, ids. cbn. rewrite Hv, app_nil_r.
    intros [->|[->|[]%elem_of_nil]%elem_of_cons]%elem_of_cons; done.
  - unfold allIds, ids. cbn. rewrite Hv, app_nil_r.
    apply NoDup_cons. split; [|apply NoDup_singleton].
    by intros [?|[]%elem_of_nil]%elem_of_cons.
Qed.

(** An update that leaves both identifiers alone. *)
Lemma allIds_updateOne_same (q : TodoListDocument -> bool)
    (f : TodoListDocument -> TodoListDocument) (coll : list TodoListDocument) :
  (forall d, ids (f d) = ids d) -> allIds (updateOne q f coll) = allIds coll.
Proof.
  intros Hf. induction coll as [|d coll IH]; [done|].
  cbn [updateOne]. destruct (q d).
  - by rewrite !allIds_cons, Hf.
  - by rewrite !allIds_cons, IH.
Qed.

(** Writing a fresh viewId into one record. *)
Lemma uniqueIds_setViewId (q : TodoListDocument -> bool) (v : string) (now : Z)
    (coll : list TodoListDocument) :
  uniqueIds coll -> v ∉ allIds coll -> uniqueIds (updateOne q (setViewId v now) coll).
Proof.
  unfold uniqueIds. induction coll as [|d coll IH]; intros Hu Hv; [done|].
  rewrite allIds_cons in Hu, Hv. apply NoDup_app in Hu as (Hd & Hdisj & Hrest).
  apply not_elem_of_app in Hv as [Hvd Hvr].
  cbn [updateOne]. destruct (q d).
  - rewrite allIds_cons. unfold ids at 1. cbn [shareId viewId setViewId].
    assert (Hs : shareId d ∈ ids d) by (unfold ids; by left).
    apply NoDup_cons. split.
    + intros [Heq|Hin]%elem_of_cons; [by rewrite Heq in Hs|]. by apply (Hdisj (shareId d)).
    + by apply NoDup_cons.
  - rewrite allIds_cons. apply NoDup_app. split; [done|]. split.
    + intros x Hx Hin.
      assert (Hsub : forall y, y ∈ allIds (updateOne q (setViewId v now) coll) ->
                               y ∈ allIds coll \/ y = v).
      { clear. induction coll as [|e coll IHc]; intros y; [by left|].
        cbn [updateOne]. destruct (q e).
        - rewrite !allIds_cons, !elem_of_app. unfold ids at 1. cbn [shareId viewId setViewId].
          rewrite elem_of_cons, list_elem_of_singleton.
          intros [[Hy|Hy]|Hy].
          + left. left. rewrite Hy. unfold ids. by left.
          + by right.
          + left. by right.
        - rewrite !allIds_cons, !elem_of_app. intros [?|Hy]; [left; by left|].
          destruct (IHc y Hy); [left; by right | by right]. }
      destruct (Hsub x Hin) as [Hold | Hnew]; [by apply (Hdisj x) | by rewrite Hnew in Hx].
    + by apply IH.
Qed.

Lemma uniqueIds_deleteOne (q : TodoListDocument -> bool) (coll : list TodoListDocument) :
  uniqueIds coll -> uniqueIds (snd (deleteOne q coll)).
Proof.
  unfold uniqueIds. induction coll as [|d coll IH]; intros Hu; [done|].
  rewrite allIds_cons in Hu. apply NoDup_app in Hu as (Hd & Hdisj & Hrest).
  cbn [deleteOne]. destruct (q d); [done|].
  specialize (IH Hrest). destruct (deleteOne q coll) as [n r] eqn:E. cbn [snd] in *.
  rewrite allIds_cons. apply NoDup_app. split; [done|]. split; [|done].
  intros x Hx Hin. apply (Hdisj x Hx).
  apply elem_of_allIds in Hin as (y & Hy & Hid). apply elem_of_allIds.
  exists y. split; [|done]. apply (MongoFacts.deleteOne_sub q). by rewrite E.
Qed.

End IdFacts.

(** ** Generation loops *)

Arguments Utils.generateShareId : simpl never.

Section Loops.
Context `{Externals}.

Lemma generateViewId_Fresh (fuel attempts k k' : nat) (coll : list TodoListDocument) (v : string) :
  Api.generateViewId fuel attempts k coll = Some (Fresh v, k') ->
  (v ∉ allIds coll) /\ Js.isEmpty v = false /\ Utils.isValidShareId v = true.
Proof.
  revert attempts k. induction fuel as [|fuel IH]; intros attempts k; cbn [Api.generateViewId]; [discriminate|].
  destruct (Mongo.findOne _ coll) eqn:Hf.
  - destruct (maxAttempts <=? S attempts)%nat; [discriminate | apply IH].
  - intros [= <- <-]. split; [by apply IdFacts.fresh_iff|].
    split; [apply generateShareId_nonempty | apply generateShareId_valid].
Qed.

(** The viewId loop stops within [maxAttempts] iterations. *)
Lemma generateViewId_total (fuel attempts k : nat) (coll : list TodoListDocument) :
  (maxAttempts - attempts <= fuel)%nat -> (attempts < maxAttempts)%nat ->
  exists r, Api.generateViewId fuel attempts k coll = Some r.
Proof.
  revert attempts k. induction fuel as [|fuel IH]; intros attempts k Hfuel Hatt; [lia|].
  cbn [Api.generateViewId]. destruct (Mongo.findOne _ coll); [|eauto].
  destruct (Nat.leb_spec maxAttempts (S attempts)); [eauto|].
  apply IH; lia.
Qed.

Lemma generateIds_Fresh (fuel attempts k k' : nat) (coll : list TodoListDocument) (s v : string) :
  Api.generateIds fuel attempts k coll = Some (Fresh (s, v), k') ->
  s <> v /\ (s ∉ allIds coll) /\ (v ∉ allIds coll).
Proof.
  revert attempts k. induction fuel as [|fuel IH]; intros attempts k; cbn [Api.generateIds]; [discriminate|].
  destruct (String.eqb_spec (Utils.generateShareId (randomByte k))
              (Utils.generateShareId (randomByte (S k)))) as [|Hne]; [apply IH|].
  destruct (Mongo.findOne _ coll) eqn:Hf.
  - destruct (maxAttempts <=? S attempts)%nat; [discriminate | apply IH].
  - intros [= <- <- <-]. split; [done|]. by apply IdFacts.fresh_pair_iff.
Qed.

(** Rounds in which the two identifiers differ are counted: without twins
    the creation loop stops within [maxAttempts] iterations. *)
Lemma generateIds_total_without_twins (fuel attempts k : nat) (coll : list TodoListDocument) :
  (forall j, Utils.generateShareId (randomByte j) <> Utils.generateShareId (randomByte (S j))) ->
  (maxAttempts - attempts <= fuel)%nat -> (attempts < maxAttempts)%nat ->
  exists r, Api.generateIds fuel attempts k coll = Some r.
Proof.
  intros Hne. revert attempts k.
  induction fuel as [|fuel IH]; intros attempts k Hfuel Hatt; [lia|].
  cbn [Api.generateIds]. destruct (String.eqb_spec (Utils.generateShareId (randomByte k))
                   (Utils.generateShareId (randomByte (S k)))) as [Heq|_];
    [by apply Hne in Heq|].
  destruct (Mongo.findOne _ coll); [|eauto].
  destruct (Nat.leb_spec maxAttempts (S attempts)); [eauto|].
  apply IH; lia.
Qed.

End Loops.

(** ** Effect of the handlers on the store *)

Section Effects.
Context `{Externals}.

Lemma insertOne_Some {A : Type} (key : A -> string) (d : A) (c c' : list A) :
  Mongo.insertOne key d c = Some c' -> c' = c ++ [d].
Proof. unfold Mongo.insertOne. destruct (existsb _ c); congruence. Qed.

Lemma insertOne_fresh {A : Type} (key : A -> string) (d : A) (c c' : list A) (x : A) :
  Mongo.insertOne key d c = Some c' -> x ∈ c -> key x <> key d.
Proof.
  unfold Mongo.insertOne. destruct (existsb _ c) eqn:E; [discriminate|].
  intros _ Hx Hk. apply not_true_iff_false in E. apply E, existsb_exists.
  exists x. split; [by apply list_elem_of_In | by apply String.eqb_eq].
Qed.

Lemma withItems_same (w : World) : withItems (TodoItemColl w) w = w.
Proof. by destruct w. Qed.

Lemma withLists_same (w : World) : withLists (TodoListColl w) w = w.
Proof. by destruct w. Qed.

Lemma findOneAndUpdate_None {A : Type} (q : A -> bool) (f : A -> A) (c c' : list A) :
  Mongo.findOneAndUpdate q f c = (None, c') -> c' = c.
Proof.
  unfold Mongo.findOneAndUpdate. intros [= Hf <-].
  destruct (Mongo.findOne q c) eqn:E; [discriminate|].
  by apply MongoFacts.updateOne_no_match.
Qed.

Lemma validateTitle_inl (b : TitleRequest) (r : Response) :
  Api.validateTitle b = inl r -> status r = 400.
Proof. unfold Api.validateTitle. intros Hv. repeat case_match; by simplify_eq. Qed.

Lemma validateText_inl (b : CreateItemRequest) (r : Response) :
  Api.validateText b = inl r -> status r = 400.
Proof. unfold Api.validateText. intros Hv. repeat case_match; by simplify_eq. Qed.

Lemma validateUpdate_inl (b : UpdateItemRequest) (now : Z) (r : Response) :
  Api.validateUpdate b now = inl r -> status r = 400.
Proof. unfold Api.validateUpdate. intros Hv. repeat case_match; by simplify_eq. Qed.

(** A response built by a validation block is a 400. *)
Ltac rejected :=
  match goal with
  | Hv : Api.validateTitle _ = inl _ |- _ => apply validateTitle_inl in Hv
  | Hv : Api.validateText _ = inl _ |- _ => apply validateText_inl in Hv
  | Hv : Api.validateUpdate _ _ = inl _ |- _ => apply validateUpdate_inl in Hv
  end.

(** The branch of a handler that answers an error and returns the store
    it was given. *)
Ltac unchanged :=
  left; split; [first [by cbn | rejected; lia] | done].

(** PATCH /api/lists/[shareId] either answers 200 after one update of the
    title and [updatedAt] of the list found, or changes nothing. *)
Lemma PATCH_list_effect (id : string) (body : option TitleRequest) (now : Z)
    (w w' : World) (r : Response) :
  Api.PATCH_list id body now w = (r, w') ->
  (status r <> 200 /\ w' = w) \/
  (status r = 200 /\ exists lst t,
      Mongo.findOne (Mongo.byEitherId id) (TodoListColl w) = Some lst /\
      Utils.detectPermission lst id = edit /\
      w' = withLists (Mongo.updateOne (Mongo.byListId (l_id lst)) (setTitle t now)
                        (TodoListColl w)) w).
Proof.
  unfold Api.PATCH_list. intros Hp.
  repeat case_match; simplify_eq; try unchanged.
  - right. split; [done|]. eexists _, _. split; [done|]. split; [done|].
    match goal with Hf : Mongo.findOneAndUpdate _ _ _ = _ |- _ => by injection Hf as _ <- end.
  - left. split; [by cbn|].
    match goal with Hf : Mongo.findOneAndUpdate _ _ _ = _ |- _ =>
      apply findOneAndUpdate_None in Hf as -> end.
    apply withLists_same.
Qed.

(** POST /api/lists/[shareId]/items either answers 201 after inserting the
    item and writing [updatedAt] of the list found, or changes nothing. *)
Lemma POST_item_effect (id : string) (body : option CreateItemRequest) (now : Z)
    (insertedId : string) (w w' : World) (r : Response) :
  Api.POST_item id body now insertedId w = (r, w') ->
  (status r <> 201 /\ w' = w) \/
  (status r = 201 /\ exists lst item,
      Mongo.findOne (Mongo.byEitherId id) (TodoListColl w) = Some lst /\
      Utils.detectPermission lst id = edit /\
      w' = withLists (Mongo.updateOne (Mongo.byListId (l_id lst)) (setUpdatedAt now)
                        (TodoListColl w))
             (withItems (TodoItemColl w ++ [item]) w)).
Proof.
  unfold Api.POST_item. intros Hp.
  repeat case_match; simplify_eq; try unchanged.
  all: right; split; [done|]; eexists _, _; split; [done|]; split; [done|].
  all: match goal with Hi : Mongo.insertOne _ _ _ = _ |- _ =>
         apply insertOne_Some in Hi as -> end; done.
Qed.

(** PATCH /api/lists/[shareId]/items/[itemId] either answers 200 after
    updating the item and then writing [updatedAt] of the list found, or
    changes nothing. *)
Lemma PATCH_item_effect (id itemId : string) (body : option UpdateItemRequest)
    (now now' : Z) (w w' : World) (r : Response) :
  Api.PATCH_item id itemId body now now' w = (r, w') ->
  (status r <> 200 /\ w' = w) \/
  (status r = 200 /\ exists lst oid fields,
      Mongo.findOne (Mongo.byEitherId id) (TodoListColl w) = Some lst /\
      Utils.detectPermission lst id = edit /\
      w' = withLists (Mongo.updateOne (Mongo.byListId (l_id lst)) (setUpdatedAt now')
                        (TodoListColl w))
             (withItems (Mongo.updateOne (Mongo.byItem oid (l_id lst))
                           (setItemFields fields) (TodoItemColl w)) w)).
Proof.
  unfold Api.PATCH_item. intros Hp.
  repeat case_match; simplify_eq; try unchanged.
  - right. split; [done|]. eexists _, _, _. split; [done|]. split; [done|].
    match goal with Hf : Mongo.findOneAndUpdate _ _ _ = _ |- _ => by injection Hf as _ <- end.
  - left. split; [by cbn|].
    match goal with Hf : Mongo.findOneAndUpdate _ _ _ = _ |- _ =>
      apply findOneAndUpdate_None in Hf as -> end.
    apply withItems_same.
Qed.

(** DELETE /api/lists/[shareId]/items/[itemId] either answers 200 after
    deleting the item and then writing [updatedAt] of the list found, or
    changes nothing. *)
Lemma DELETE_item_effect (id itemId : string) (now : Z) (w w' : World) (r : Response) :
  Api.DELETE_item id itemId now w = (r, w') ->
  (status r <> 200 /\ w' = w) \/
  (status r = 200 /\ exists lst oid,
      Mongo.findOne (Mongo.byEitherId id) (TodoListColl w) = Some lst /\
      Utils.detectPermission lst id = edit /\
      w' = withLists (Mongo.updateOne (Mongo.byListId (l_id lst)) (setUpdatedAt now)
                        (TodoListColl w))
             (withItems (snd (Mongo.deleteOne (Mongo.byItem oid (l_id lst))
                                (TodoItemColl w))) w)).
Proof.
  unfold Api.DELETE_item. intros Hp.
  repeat case_match; simplify_eq; try unchanged.
  - left. split; [by cbn|].
    match goal with Hd : Mongo.deleteOne ?q ?c = (?n, _), Hz : (?n =? 0) = true |- _ =>
      apply Z.eqb_eq in Hz; subst n;
      destruct (MongoFacts.deleteOne_count q c) as [(_ & Hs & _)|[Hc _]];
      rewrite Hd in *; cbn in * end.
    + subst. apply withItems_same.
    + discriminate.
  - right. split; [done|]. eexists _, _. split; [done|]. split; [done|].
    match goal with Hd : Mongo.deleteOne _ _ = _ |- _ => by rewrite Hd end.
Qed.

(** DELETE /api/lists/[shareId] either answers 200 after deleting the items
    of the list found by its shareId and the list, whose owner is the
    caller, or changes nothing. *)
Lemma DELETE_list_effect (cookie : option string) (id : string) (w w' : World) (r : Response) :
  Api.DELETE_list cookie id w = (r, w') ->
  (status r <> 200 /\ w' = w) \/
  (status r = 200 /\ exists auth lst,
      Auth.requireAuth cookie = Some auth /\
      Mongo.findOne (Mongo.byShareId id) (TodoListColl w) = Some lst /\
      userId lst = Some (auth_userId auth) /\
      w' = withLists (snd (Mongo.deleteOne (Mongo.byListId (l_id lst)) (TodoListColl w)))
             (withItems (Mongo.deleteMany (Mongo.byListRef (l_id lst)) (TodoItemColl w)) w)).
Proof.
  unfold Api.DELETE_list. intros Hp.
  repeat case_match; simplify_eq; try unchanged.
  right. split; [done|]. eexists _, _. split; [done|]. split; [done|]. split; [|done].
  match goal with Hu : userId _ = Some _, Hn : negb _ = false |- _ =>
    rewrite Hu; apply negb_false_iff, String.eqb_eq in Hn; by rewrite Hn end.
Qed.

(** POST /api/lists either answers 201 after appending a record whose two
    identifiers differ and occur nowhere in the collection, or leaves the
    collections as they are. *)
Lemma POST_lists_effect (fuel : nat) (cookie : option string) (body : option TitleRequest)
    (now : Z) (insertedId : string) (w w' : World) (r : Response) :
  Api.POST_lists fuel cookie body now insertedId w = Some (r, w') ->
  (status r <> 201 /\ TodoListColl w' = TodoListColl w /\ TodoItemColl w' = TodoItemColl w) \/
  (status r = 201 /\ exists d v,
      TodoListColl w' = TodoListColl w ++ [d] /\ TodoItemColl w' = TodoItemColl w /\
      l_id d = insertedId /\ createdAt d = now /\ updatedAt d = now /\
      (forall x, x ∈ TodoListColl w -> l_id x <> insertedId) /\
      viewId d = Some v /\ shareId d <> v /\
      (shareId d ∉ allIds (TodoListColl w)) /\ (v ∉ allIds (TodoListColl w))).
Proof.
  unfold Api.POST_lists. intros Hp.
  repeat case_match; simplify_eq;
    try (left; split; [first [by cbn | rejected; lia] | done]).
  right. split; [done|].
  match goal with Hg : Api.generateIds _ _ _ _ = _ |- _ =>
    apply generateIds_Fresh in Hg as (Hne & Hs & Hv) end.
  match goal with Hi : Mongo.insertOne _ _ _ = _ |- _ =>
    pose proof (fun x => insertOne_fresh _ _ _ _ x Hi) as Hkey;
    apply insertOne_Some in Hi as -> end.
  eexists _, _. cbn. repeat (split; [done|]). done.
Qed.

(** GET /api/lists/[shareId] writes nothing unless the list found has no
    viewId; then it either gives up after [maxAttempts] collisions, having
    written nothing, or writes the generated viewId and [updatedAt] in one
    update of the list found. *)
Lemma GET_list_effect (fuel : nat) (id : string) (now : Z) (w w' : World) (r : Response) :
  Api.GET_list fuel id now w = Some (r, w') ->
  (w' = w /\
   (status r <> 200 \/
    exists lst, Mongo.findOne (Mongo.byEitherId id) (TodoListColl w) = Some lst /\
                lacksViewId lst = false /\ r = Api.respondList lst id w)) \/
  (exists lst k,
      Mongo.findOne (Mongo.byEitherId id) (TodoListColl w) = Some lst /\
      lacksViewId lst = true /\ status r = 500 /\ w' = withRandomCalls k w) \/
  (exists lst v k,
      Mongo.findOne (Mongo.byEitherId id) (TodoListColl w) = Some lst /\
      lacksViewId lst = true /\ Utils.isValidShareId id = true /\
      Api.generateViewId fuel 0 (randomCalls w) (TodoListColl w) = Some (Fresh v, k) /\
      w' = withLists (Mongo.updateOne (Mongo.byListId (l_id lst)) (setViewId v now)
                        (TodoListColl w)) (withRandomCalls k w) /\
      r = Api.respondList (assignViewId v lst) id w').
Proof.
  unfold Api.GET_list. intros Hg.
  repeat case_match; simplify_eq.
  - left. split; [done|]. by left.
  - right. right. eexists _, _, _. repeat (split; [done|]).
    split; [|done]. match goal with Hn : negb _ = false |- _ => by apply negb_false_iff in Hn end.
  - right. left. eexists _, _. by repeat (split; [done|]).
  - left. split; [done|]. right. eexists. by repeat (split; [done|]).
  - left. split; [done|]. by left.
Qed.

(** The list page has the same effect on the store as the GET handler. *)
Lemma ListPage_effect (fuel : nat) (id : string) (cookie : option string) (now : Z)
    (w w' : World) (p : Page) :
  Api.ListPage fuel id cookie now w = Some (p, w') ->
  w' = w \/
  (exists lst k,
      Mongo.findOne (Mongo.byEitherId id) (TodoListColl w) = Some lst /\
      lacksViewId lst = true /\ p = ErrorPage /\ w' = withRandomCalls k w) \/
  (exists lst v k,
      Mongo.findOne (Mongo.byEitherId id) (TodoListColl w) = Some lst /\
      lacksViewId lst = true /\
      Api.generateViewId fuel 0 (randomCalls w) (TodoListColl w) = Some (Fresh v, k) /\
      w' = withLists (Mongo.updateOne (Mongo.byListId (l_id lst)) (setViewId v now)
                        (TodoListColl w)) (withRandomCalls k w) /\
      exists tl items perm isOwner userEmail, p = ListView tl items perm isOwner userEmail).
Proof.
  unfold Api.ListPage. intros Hg.
  destruct (negb (Utils.isValidShareId id)); [simplify_eq; by left|].
  destruct (Mongo.findOne _ (TodoListColl w)) as [lst|] eqn:Hf; [|simplify_eq; by left].
  destruct (lacksViewId lst) eqn:Hl; [|simplify_eq; by left].
  destruct (Api.generateViewId _ _ _ _) as [[[v|] k]|] eqn:Hgv; simplify_eq.
  - right. right. eexists _, _, _. repeat (split; [done|]). by eexists _, _, _, _, _.
  - right. left. eexists _, _. by repeat (split; [done|]).
Qed.

End Effects.

(** ** Identifier uniqueness is an invariant *)

Section Uniqueness.
Context `{Externals}.

Lemma uniqueIds_touch (q : TodoListDocument -> bool) (f : TodoListDocument -> TodoListDocument)
    (coll : list TodoListDocument) :
  (forall d, ids (f d) = ids d) -> uniqueIds coll -> uniqueIds (Mongo.updateOne q f coll).
Proof. intros Hf Hu. unfold uniqueIds. by rewrite IdFacts.allIds_updateOne_same. Qed.

(** C3: every request served leaves the identifiers of the TodoList
    collection unique (each record's shareId differs from its viewId and no
    value occurs in two records, over both fields) if they were unique
    before; list creation persists a record only when the two generated
    identifiers differ and neither occurs as a shareId or viewId of the
    collection; the lazy backfill persists the generated viewId only when it
    occurs nowhere as a shareId or viewId, the shareId of the target
    included. *)
Theorem C3_identifier_uniqueness_invariant :
  (forall (fuel : nat) (r : Api.Request) (w w' : World) (rep : Api.Reply),
      uniqueIds (TodoListColl w) ->
      Api.handle fuel r w = Some (rep, w') ->
      uniqueIds (TodoListColl w')) /\
  (forall (fuel : nat) (cookie : option string) (body : option TitleRequest) (now : Z)
          (insertedId : string) (w w' : World) (r : Response),
      Api.POST_lists fuel cookie body now insertedId w = Some (r, w') ->
      status r = 201 ->
      exists d v,
        TodoListColl w' = TodoListColl w ++ [d] /\ viewId d = Some v /\
        shareId d <> v /\
        (shareId d ∉ allIds (TodoListColl w)) /\ (v ∉ allIds (TodoListColl w))) /\
  (forall (fuel : nat) (id : string) (now : Z) (w w' : World) (r : Response)
          (lst : TodoListDocument),
      Mongo.findOne (Mongo.byEitherId id) (TodoListColl w) = Some lst ->
      lacksViewId lst = true ->
      Api.GET_list fuel id now w = Some (r, w') ->
      status r = 200 ->
      exists v,
        TodoListColl w' =
          Mongo.updateOne (Mongo.byListId (l_id lst)) (setViewId v now) (TodoListColl w) /\
        (v ∉ allIds (TodoListColl w)) /\ v <> shareId lst).
Proof.
  split; [|split].
  - intros fuel r w w' rep Hu Hh. destruct r; cbn [Api.handle] in Hh.
    + by simplify_eq.
    + destruct (Api.POST_lists _ _ _ _ _ _) as [[r w1]|] eqn:E; unfold Api.reply in Hh; cbn in Hh; simplify_eq.
      apply POST_lists_effect in E
        as [(_ & -> & _)|(_ & d & v & -> & _ & _ & _ & _ & _ & Hv & Hne & Hs & Hvf)]; [done|].
      by eapply IdFacts.uniqueIds_insert.
    + destruct (Api.GET_list _ _ _ _) as [[r w1]|] eqn:E; unfold Api.reply in Hh; cbn in Hh; simplify_eq.
      apply GET_list_effect in E
        as [[-> _]|[(lst & k & _ & _ & _ & ->)|(lst & v & k & _ & _ & _ & Hg & -> & _)]];
        cbn; [done..|].
      apply IdFacts.uniqueIds_setViewId; [done|].
      by apply generateViewId_Fresh in Hg as [? _].
    + destruct (Api.PATCH_list _ _ _ _) as [r w1] eqn:E; unfold Api.reply in Hh; cbn in Hh; simplify_eq.
      apply PATCH_list_effect in E as [[_ ->]|(_ & lst & t & _ & _ & ->)]; [done|].
      cbn. by apply uniqueIds_touch.
    + destruct (Api.DELETE_list _ _ _) as [r w1] eqn:E; unfold Api.reply in Hh; cbn in Hh; simplify_eq.
      apply DELETE_list_effect in E as [[_ ->]|(_ & auth & lst & _ & _ & _ & ->)]; [done|].
      cbn. by apply IdFacts.uniqueIds_deleteOne.
    + destruct (Api.POST_item _ _ _ _ _) as [r w1] eqn:E; unfold Api.reply in Hh; cbn in Hh; simplify_eq.
      apply POST_item_effect in E as [[_ ->]|(_ & lst & item & _ & _ & ->)]; [done|].
      cbn. by apply uniqueIds_touch.
    + destruct (Api.PATCH_item _ _ _ _ _ _) as [r w1] eqn:E; unfold Api.reply in Hh; cbn in Hh; simplify_eq.
      apply PATCH_item_effect in E as [[_ ->]|(_ & lst & oid & fields & _ & _ & ->)]; [done|].
      cbn. by apply uniqueIds_touch.
    + destruct (Api.DELETE_item _ _ _ _) as [r w1] eqn:E; unfold Api.reply in Hh; cbn in Hh; simplify_eq.
      apply DELETE_item_effect in E as [[_ ->]|(_ & lst & oid & _ & _ & ->)]; [done|].
      cbn. by apply uniqueIds_touch.
    + destruct (Api.ListPage _ _ _ _ _) as [[p w1]|] eqn:E; unfold Api.reply in Hh; cbn in Hh; simplify_eq.
      apply ListPage_effect in E
        as [->|[(lst & k & _ & _ & _ & ->)|(lst & v & k & _ & _ & Hg & -> & _)]];
        cbn; [done..|].
      apply IdFacts.uniqueIds_setViewId; [done|].
      by apply generateViewId_Fresh in Hg as [? _].
  - intros fuel cookie body now insertedId w w' r Hp Hst.
    apply POST_lists_effect in Hp
      as [(Hn & _)|(_ & d & v & Hl & _ & _ & _ & _ & _ & Hv & Hne & Hs & Hvf)]; [done|].
    by exists d, v.
  - intros fuel id now w w' r lst Hf Hl Hg Hst.
    apply GET_list_effect in Hg
      as [[-> [Hn|(l' & Hf' & Hl' & _)]]|[(l' & k & _ & _ & Hs & _)|
          (l' & v & k & Hf' & _ & _ & Hg & -> & _)]].
    + done.
    + congruence.
    + congruence.
    + assert (l' = lst) as -> by congruence.
      apply generateViewId_Fresh in Hg as (Hfresh & _ & _).
      exists v. split; [done|]. split; [done|].
      intros ->. apply Hfresh, IdFacts.elem_of_allIds. exists lst.
      split; [by eapply MongoFacts.findOne_Some | unfold ids; by left].
Qed.

Lemma keys_updateOne (q : TodoListDocument -> bool) (f : TodoListDocument -> TodoListDocument)
    (coll : list TodoListDocument) :
  (forall d, l_id (f d) = l_id d) ->
  map l_id (Mongo.updateOne q f coll) = map l_id coll.
Proof.
  intros Hf. induction coll as [|d coll IH]; [done|].
  cbn [Mongo.updateOne]. destruct (q d); cbn; by rewrite ?Hf, ?IH.
Qed.

Lemma keys_deleteOne (q : TodoListDocument -> bool) (coll : list TodoListDocument) :
  uniqueKeys coll -> uniqueKeys (snd (Mongo.deleteOne q coll)).
Proof.
  unfold uniqueKeys. induction coll as [|d coll IH]; intros Hu; [done|].
  cbn in Hu. apply NoDup_cons in Hu as [Hd Hu]. cbn [Mongo.deleteOne].
  destruct (q d); [done|]. specialize (IH Hu).
  destruct (Mongo.deleteOne q coll) as [n r] eqn:E. cbn [snd] in *. cbn.
  apply NoDup_cons. split; [|done]. intros Hin. apply Hd.
  apply list_elem_of_In, in_map_iff in Hin as (x & Hx & Hin).
  apply list_elem_of_In, in_map_iff. exists x. split; [done|].
  apply list_elem_of_In, (MongoFacts.deleteOne_sub q). rewrite E. by apply list_elem_of_In.
Qed.

(** The uniqueness of [_id] that the properties above assume is itself
    kept by every request. *)
Lemma handle_keeps_uniqueKeys (fuel : nat) (r : Api.Request) (w w' : World) (rep : Api.Reply) :
  uniqueKeys (TodoListColl w) ->
  Api.handle fuel r w = Some (rep, w') ->
  uniqueKeys (TodoListColl w').
Proof.
  intros Hu Hh.
  assert (Htouch : forall q f, (forall d, l_id (f d) = l_id d) ->
                     uniqueKeys (Mongo.updateOne q f (TodoListColl w))).
  { intros q f Hf. unfold uniqueKeys. by rewrite keys_updateOne. }
  destruct r; cbn [Api.handle] in Hh.
  - by simplify_eq.
  - destruct (Api.POST_lists _ _ _ _ _ _) as [[r w1]|] eqn:E;
      unfold Api.reply in Hh; cbn in Hh; simplify_eq.
    apply POST_lists_effect in E
      as [(_ & -> & _)|(_ & d & v & -> & _ & Hd & _ & _ & Hfresh & _)]; [done|].
    unfold uniqueKeys in *. rewrite map_app. apply NoDup_app. split; [done|].
    split; [|apply NoDup_singleton].
    intros k Hk [->|[]%elem_of_nil]%elem_of_cons.
    apply list_elem_of_In, in_map_iff in Hk as (x & Hx & Hin).
    apply (Hfresh x); [by apply list_elem_of_In | congruence].
  - destruct (Api.GET_list _ _ _ _) as [[r w1]|] eqn:E;
      unfold Api.reply in Hh; cbn in Hh; simplify_eq.
    apply GET_list_effect in E
      as [[-> _]|[(lst & k & _ & _ & _ & ->)|(lst & v & k & _ & _ & _ & _ & -> & _)]];
      cbn; [done..|]. by apply Htouch.
  - destruct (Api.PATCH_list _ _ _ _) as [r w1] eqn:E;
      unfold Api.reply in Hh; cbn in Hh; simplify_eq.
    apply PATCH_list_effect in E as [[_ ->]|(_ & lst & t & _ & _ & ->)]; [done|].
    cbn. by apply Htouch.
  - destruct (Api.DELETE_list _ _ _) as [r w1] eqn:E;
      unfold Api.reply in Hh; cbn in Hh; simplify_eq.
    apply DELETE_list_effect in E as [[_ ->]|(_ & auth & lst & _ & _ & _ & ->)]; [done|].
    cbn. by apply keys_deleteOne.
  - destruct (Api.POST_item _ _ _ _ _) as [r w1] eqn:E;
      unfold Api.reply in Hh; cbn in Hh; simplify_eq.
    apply POST_item_effect in E as [[_ ->]|(_ & lst & item & _ & _ & ->)]; [done|].
    cbn. by apply Htouch.
  - destruct (Api.PATCH_item _ _ _ _ _ _) as [r w1] eqn:E;
      unfold Api.reply in Hh; cbn in Hh; simplify_eq.
    apply PATCH_item_effect in E as [[_ ->]|(_ & lst & oid & fields & _ & _ & ->)]; [done|].
    cbn. by apply Htouch.
  - destruct (Api.DELETE_item _ _ _ _) as [r w1] eqn:E;
      unfold Api.reply in Hh; cbn in Hh; simplify_eq.
    apply DELETE_item_effect in E as [[_ ->]|(_ & lst & oid & _ & _ & ->)]; [done|].
    cbn. by apply Htouch.
  - destruct (Api.ListPage _ _ _ _ _) as [[p w1]|] eqn:E;
      unfold Api.reply in Hh; cbn in Hh; simplify_eq.
    apply ListPage_effect in E
      as [->|[(lst & k & _ & _ & _ & ->)|(lst & v & k & _ & _ & _ & -> & _)]];
      cbn; [done..|]. by apply Htouch.
Qed.

End Uniqueness.

(** ** Ownership and list deletion *)

Section Ownership.
Context `{Externals}.



(** C2: on DELETE /api/lists/[shareId], a caller with a verified identity
    who addresses a list by its edit identifier and is not its owner
    (the list has another owner or none) receives 403 and nothing changes;
    a list without owner survives every such request, together with its
    items, and a request that addresses it is answered with an error and
    changes nothing; a request without verified identity receives 401 and
    nothing changes. *)
Theorem C2_list_deletion_owner_only :
  (forall (cookie : option string) (auth : AuthContext) (id : string) (w : World)
          (lst : TodoListDocument),
      Auth.requireAuth cookie = Some auth ->
      Utils.isValidShareId id = true ->
      Mongo.findOne (Mongo.byShareId id) (TodoListColl w) = Some lst ->
      userId lst <> Some (auth_userId auth) ->
      Api.DELETE_list cookie id w =
        (errorJson "Forbidden: Only the list owner can delete this list" 403, w)) /\
  (forall (cookie : option string) (id : string) (w : World) (lst : TodoListDocument),
      uniqueKeys (TodoListColl w) -> lst ∈ TodoListColl w -> userId lst = None ->
      lst ∈ TodoListColl (snd (Api.DELETE_list cookie id w)) /\
      (forall it, it ∈ TodoItemColl w -> listId it = l_id lst ->
                  it ∈ TodoItemColl (snd (Api.DELETE_list cookie id w))) /\
      (Mongo.findOne (Mongo.byShareId id) (TodoListColl w) = Some lst ->
       status (fst (Api.DELETE_list cookie id w)) <> 200 /\
       snd (Api.DELETE_list cookie id w) = w)) /\
  (forall (cookie : option string) (id : string) (w : World),
      Auth.getAuthContext cookie = None ->
      Api.DELETE_list cookie id w = (errorJson "Authentication required" 401, w)).
Proof.
  split; [|split].
  - intros cookie auth id w lst Ha Hid Hf Hown. unfold Api.DELETE_list.
    rewrite Ha, Hid, Hf. cbn [negb].
    destruct (userId lst) as [u|]; [|done].
    destruct (String.eqb_spec u (auth_userId auth)) as [->|]; [done|done].
  - intros cookie id w lst Hk Hin Hno.
    destruct (Api.DELETE_list cookie id w) as [r w'] eqn:E. cbn [fst snd].
    apply DELETE_list_effect in E as [[Hst ->]|(Hst & auth & f & Ha & Hf & Hown & ->)];
      [done|].
    assert (Hfin : f ∈ TodoListColl w) by (by eapply MongoFacts.findOne_Some).
    assert (Hne : l_id lst <> l_id f).
    { intros Heq. assert (lst = f) as -> by (by eapply MongoFacts.keys_inj). congruence. }
    cbn. split; [|split].
    + apply MongoFacts.deleteOne_keeps; [done|].
      unfold Mongo.byListId. by apply String.eqb_neq.
    + intros it Hit Hl. apply MongoFacts.deleteMany_keeps; [done|].
      unfold Mongo.byListRef. rewrite Hl. by apply String.eqb_neq.
    + intros Hf'. congruence.
  - intros cookie id w Ha. unfold Api.DELETE_list, Auth.requireAuth. by rewrite Ha.
Qed.


End Ownership.

(** ** Lazy backfill, [updatedAt] and failed item mutations *)

Section Frame.
Context `{Externals}.

Lemma GET_list_total (fuel : nat) (id : string) (now : Z) (w : World) :
  (maxAttempts <= fuel)%nat -> exists res, Api.GET_list fuel id now w = Some res.
Proof.
  intros Hfuel. unfold Api.GET_list.
  destruct (negb (Utils.isValidShareId id)); [eauto|].
  destruct (Mongo.findOne _ (TodoListColl w)) as [lst|]; [|eauto].
  destruct (lacksViewId lst); [|eauto].
  destruct (generateViewId_total fuel 0 (randomCalls w) (TodoListColl w))
    as [[[v|] k] ->]; [lia | unfold maxAttempts; lia | eauto..].
Qed.

(** A record without viewId that a valid identifier finds is found by its
    shareId, and still is once a viewId is written. *)
Lemma lacking_found_by_shareId (id : string) (lst : TodoListDocument) (v : string) (now : Z) :
  Utils.isValidShareId id = true -> lacksViewId lst = true ->
  Mongo.byEitherId id lst = true -> Mongo.byEitherId id (setViewId v now lst) = true.
Proof.
  unfold Mongo.byEitherId, Mongo.byShareId, Mongo.byViewId, lacksViewId. cbn.
  intros Hvalid Hl Hm. destruct (String.eqb (shareId lst) id); [done|].
  destruct (viewId lst) as [u|]; [|done]. cbn in Hm.
  apply String.eqb_eq in Hm. subst u. by destruct id.
Qed.

(** C7: GET /api/lists/[shareId] always returns, and when it answers 200 for
    a record that has no viewId, the response carries the generated viewId,
    that viewId is persisted on the record, and a second GET of the same
    identifier answers 200 with the same viewId while generating nothing
    (it needs no iteration of the loop, draws no random bytes) and writing
    nothing. *)
Theorem C7_backfill_idempotent :
  (forall (fuel : nat) (id : string) (now : Z) (w : World),
      (maxAttempts <= fuel)%nat -> exists res, Api.GET_list fuel id now w = Some res) /\
  (forall (fuel : nat) (id : string) (now now' : Z) (w w1 : World)
          (lst : TodoListDocument) (r1 : Response),
      uniqueKeys (TodoListColl w) ->
      Mongo.findOne (Mongo.byEitherId id) (TodoListColl w) = Some lst ->
      lacksViewId lst = true ->
      Api.GET_list fuel id now w = Some (r1, w1) ->
      status r1 = 200 ->
      exists v tl1 items1 tl2 items2,
        r1 = json (GetListResponse tl1 items1) 200 /\ a_viewId tl1 = Some v /\
        Mongo.findOne (Mongo.byEitherId id) (TodoListColl w1) = Some (setViewId v now lst) /\
        Api.GET_list 0 id now' w1 = Some (json (GetListResponse tl2 items2) 200, w1) /\
        a_viewId tl2 = Some v).
Proof.
  split; [apply GET_list_total|].
  intros fuel id now now' w w1 lst r1 Hk Hf Hl Hg Hst.
  apply GET_list_effect in Hg
    as [[-> [Hn|(l' & Hf' & Hl' & _)]]|[(l' & k & _ & _ & Hs & _)|
        (l' & v & k & Hf' & _ & Hvalid & Hg & -> & ->)]]; [done | congruence | congruence |].
  assert (l' = lst) as -> by congruence.
  apply generateViewId_Fresh in Hg as (_ & Hne & _).
  assert (Hf1 : Mongo.findOne (Mongo.byEitherId id)
                  (Mongo.updateOne (Mongo.byListId (l_id lst)) (setViewId v now)
                     (TodoListColl w)) = Some (setViewId v now lst)).
  { apply MongoFacts.findOne_updateOne; [done..|].
    apply lacking_found_by_shareId; [done..|]. by eapply MongoFacts.findOne_Some. }
  exists v. eexists _, _, _, _. split; [reflexivity|]. split; [reflexivity|].
  split; [exact Hf1|]. split.
  - unfold Api.GET_list. rewrite Hvalid. cbn [negb TodoListColl withLists].
    rewrite Hf1. unfold lacksViewId. cbn [viewId setViewId]. rewrite Hne. reflexivity.
  - reflexivity.
Qed.

(** C9: a request that is neither a content mutation that succeeded (title
    update, item creation, update or deletion) nor a read that succeeded on
    a list without viewId leaves every stored list record as it is,
    [updatedAt] included; a GET of a list that has a viewId returns the store it was
    given; a GET that backfills writes the viewId and [updatedAt] of the
    list in one update and nothing else; and whatever the request and its
    outcome, the record of every list other than the one the request
    addresses stays in the store as it is, [updatedAt] included: a mutation
    writes the [updatedAt] of its own list only. *)
Theorem C9_updatedAt_frame :
  (forall (fuel : nat) (r : Api.Request) (w w' : World) (rep : Api.Reply)
          (d d' : TodoListDocument),
      uniqueKeys (TodoListColl w) ->
      Api.handle fuel r w = Some (rep, w') ->
      ~ writesUpdatedAt r rep w ->
      d ∈ TodoListColl w -> d' ∈ TodoListColl w' -> l_id d' = l_id d ->
      d' = d) /\
  (forall (fuel : nat) (id : string) (now : Z) (w : World) (lst : TodoListDocument),
      Mongo.findOne (Mongo.byEitherId id) (TodoListColl w) = Some lst ->
      lacksViewId lst = false ->
      exists r,
        Api.GET_list fuel id now w = Some (r, w) /\
        (Utils.isValidShareId id = true -> r = Api.respondList lst id w)) /\
  (forall (fuel : nat) (id : string) (now : Z) (w w' : World) (r : Response)
          (lst : TodoListDocument),
      uniqueKeys (TodoListColl w) ->
      Mongo.findOne (Mongo.byEitherId id) (TodoListColl w) = Some lst ->
      lacksViewId lst = true ->
      Api.GET_list fuel id now w = Some (r, w') ->
      status r = 200 ->
      exists v,
        TodoListColl w' =
          Mongo.updateOne (Mongo.byListId (l_id lst)) (setViewId v now) (TodoListColl w) /\
        TodoItemColl w' = TodoItemColl w /\
        Mongo.findOne (Mongo.byListId (l_id lst)) (TodoListColl w') = Some (setViewId v now lst) /\
        viewId (setViewId v now lst) = Some v /\
        updatedAt (setViewId v now lst) = now) /\
  (forall (fuel : nat) (r : Api.Request) (w w' : World) (rep : Api.Reply)
          (d : TodoListDocument),
      Api.handle fuel r w = Some (rep, w') ->
      d ∈ TodoListColl w ->
      (forall lst, addressedList r w = Some lst -> l_id d <> l_id lst) ->
      d ∈ TodoListColl w' /\
      (uniqueKeys (TodoListColl w) ->
       forall d', d' ∈ TodoListColl w' -> l_id d' = l_id d -> d' = d)).
Proof.
  split; [|split; [|split]]; cycle 3.
  { intros fuel r w w' rep d Hh Hd Hother.
    assert (Hin : d ∈ TodoListColl w'); [|split; [exact Hin|]].
    2:{ intros Hk d' Hd' Hid. symmetry.
        eapply MongoFacts.keys_inj; [by eapply handle_keeps_uniqueKeys | done..]. }
    assert (Hq : forall lst, addressedList r w = Some lst ->
                             Mongo.byListId (l_id lst) d = false).
    { intros lst Hl. unfold Mongo.byListId. apply String.eqb_neq. by apply Hother. }
    destruct r; cbn [Api.handle] in Hh; cbn [addressedList] in Hq.
    - by simplify_eq.
    - destruct (Api.POST_lists _ _ _ _ _ _) as [[r w1]|] eqn:E;
        unfold Api.reply in Hh; cbn in Hh; simplify_eq.
      apply POST_lists_effect in E as [(_ & -> & _)|(_ & n & v & -> & _)]; [done|].
      apply elem_of_app. by left.
    - destruct (Api.GET_list _ _ _ _) as [[r w1]|] eqn:E;
        unfold Api.reply in Hh; cbn in Hh; simplify_eq.
      apply GET_list_effect in E
        as [[-> _]|[(lst & k & _ & _ & _ & ->)|(lst & v & k & Hf & _ & _ & _ & -> & _)]];
        cbn; [done..|]. apply MongoFacts.updateOne_keeps; [done | by apply Hq].
    - destruct (Api.PATCH_list _ _ _ _) as [r w1] eqn:E;
        unfold Api.reply in Hh; cbn in Hh; simplify_eq.
      apply PATCH_list_effect in E as [[_ ->]|(_ & lst & t & Hf & _ & ->)]; [done|].
      cbn. apply MongoFacts.updateOne_keeps; [done | by apply Hq].
    - destruct (Api.DELETE_list _ _ _) as [r w1] eqn:E;
        unfold Api.reply in Hh; cbn in Hh; simplify_eq.
      apply DELETE_list_effect in E as [[_ ->]|(_ & auth & lst & _ & Hf & _ & ->)]; [done|].
      cbn. apply MongoFacts.deleteOne_keeps; [done | by apply Hq].
    - destruct (Api.POST_item _ _ _ _ _) as [r w1] eqn:E;
        unfold Api.reply in Hh; cbn in Hh; simplify_eq.
      apply POST_item_effect in E as [[_ ->]|(_ & lst & item & Hf & _ & ->)]; [done|].
      cbn. apply MongoFacts.updateOne_keeps; [done | by apply Hq].
    - destruct (Api.PATCH_item _ _ _ _ _ _) as [r w1] eqn:E;
        unfold Api.reply in Hh; cbn in Hh; simplify_eq.
      apply PATCH_item_effect in E as [[_ ->]|(_ & lst & oid & fields & Hf & _ & ->)]; [done|].
      cbn. apply MongoFacts.updateOne_keeps; [done | by apply Hq].
    - destruct (Api.DELETE_item _ _ _ _) as [r w1] eqn:E;
        unfold Api.reply in Hh; cbn in Hh; simplify_eq.
      apply DELETE_item_effect in E as [[_ ->]|(_ & lst & oid & Hf & _ & ->)]; [done|].
      cbn. apply MongoFacts.updateOne_keeps; [done | by apply Hq].
    - destruct (Api.ListPage _ _ _ _ _) as [[p w1]|] eqn:E;
        unfold Api.reply in Hh; cbn in Hh; simplify_eq.
      apply ListPage_effect in E
        as [->|[(lst & k & _ & _ & _ & ->)|(lst & v & k & Hf & _ & _ & -> & _)]];
        cbn; [done..|]. apply MongoFacts.updateOne_keeps; [done | by apply Hq]. }
  - intros fuel r w w' rep d d' Hk Hh Hnw Hd Hd' Hid.
    assert (Hsame : TodoListColl w' = TodoListColl w -> d' = d).
    { intros Heq. rewrite Heq in Hd'. by eapply MongoFacts.keys_inj. }
    destruct r; cbn [Api.handle] in Hh; cbn [writesUpdatedAt] in Hnw.
    + simplify_eq. by apply Hsame.
    + destruct (Api.POST_lists _ _ _ _ _ _) as [[r w1]|] eqn:E;
        unfold Api.reply in Hh; cbn in Hh; simplify_eq.
      apply POST_lists_effect in E
        as [(_ & Heq & _)|(_ & n & v & Heq & _ & Hn & _ & _ & Hfresh & _)];
        [by apply Hsame|].
      rewrite Heq in Hd'. apply elem_of_app in Hd' as [Hd'|Hd'].
      * by eapply MongoFacts.keys_inj.
      * apply list_elem_of_singleton in Hd'. subst d'. exfalso.
        apply (Hfresh d Hd). congruence.
    + destruct (Api.GET_list _ _ _ _) as [[r w1]|] eqn:E;
        unfold Api.reply in Hh; cbn in Hh; simplify_eq.
      apply GET_list_effect in E
        as [[-> _]|[(lst & k & Hf & Hl & _ & ->)|(lst & v & k & Hf & Hl & _ & _ & _ & ->)]];
        [by apply Hsame | by apply Hsame |].
      exfalso. apply Hnw. split; [reflexivity|]. by exists lst.
    + destruct (Api.PATCH_list _ _ _ _) as [r w1] eqn:E;
        unfold Api.reply in Hh; cbn in Hh; simplify_eq.
      apply PATCH_list_effect in E as [[_ ->]|[Hst _]]; [by apply Hsame | done].
    + destruct (Api.DELETE_list _ _ _) as [r w1] eqn:E;
        unfold Api.reply in Hh; cbn in Hh; simplify_eq.
      apply DELETE_list_effect in E as [[_ ->]|(_ & auth & lst & _ & _ & _ & ->)];
        [by apply Hsame|].
      cbn in Hd'. apply MongoFacts.deleteOne_sub in Hd'. by eapply MongoFacts.keys_inj.
    + destruct (Api.POST_item _ _ _ _ _) as [r w1] eqn:E;
        unfold Api.reply in Hh; cbn in Hh; simplify_eq.
      apply POST_item_effect in E as [[_ ->]|[Hst _]]; [by apply Hsame | done].
    + destruct (Api.PATCH_item _ _ _ _ _ _) as [r w1] eqn:E;
        unfold Api.reply in Hh; cbn in Hh; simplify_eq.
      apply PATCH_item_effect in E as [[_ ->]|[Hst _]]; [by apply Hsame | done].
    + destruct (Api.DELETE_item _ _ _ _) as [r w1] eqn:E;
        unfold Api.reply in Hh; cbn in Hh; simplify_eq.
      apply DELETE_item_effect in E as [[_ ->]|[Hst _]]; [by apply Hsame | done].
    + destruct (Api.ListPage _ _ _ _ _) as [[p w1]|] eqn:E;
        unfold Api.reply in Hh; cbn in Hh; simplify_eq.
      apply ListPage_effect in E
        as [->|[(lst & k & Hf & Hl & _ & ->)|
                (lst & v & k & Hf & Hl & _ & _ & (tl & items & perm & o & e & ->))]];
        [by apply Hsame | by apply Hsame |].
      exfalso. apply Hnw. by exists lst.
  - intros fuel id now w lst Hf Hl. unfold Api.GET_list.
    destruct (Utils.isValidShareId id); cbn [negb].
    + rewrite Hf, Hl. eauto.
    + eexists. split; [reflexivity|]. discriminate.
  - intros fuel id now w w' r lst Hk Hf Hl Hg Hst.
    apply GET_list_effect in Hg
      as [[-> [Hn|(l' & Hf' & Hl' & _)]]|[(l' & k & _ & _ & Hs & _)|
          (l' & v & k & Hf' & _ & _ & Hg & -> & _)]]; [done | congruence | congruence |].
    assert (l' = lst) as -> by congruence.
    exists v. cbn [TodoListColl TodoItemColl withLists withRandomCalls].
    split; [done|]. split; [done|]. split; [|done].
    apply MongoFacts.findOne_updateOne; [done | | ].
    + apply MongoFacts.findOne_byListId; [done|]. by eapply MongoFacts.findOne_Some.
    + unfold Mongo.byListId. cbn. apply String.eqb_refl.
Qed.

(** C10: an item update or an item deletion that passes the permission
    check and finds no item with the given id in the addressed list is
    answered 404 'Item not found' and returns the store it was given; more
    generally every item update or deletion that is not answered 200
    returns the store it was given, the list record and its [updatedAt]
    included. *)
Theorem C10_failed_item_mutation_changes_nothing :
  (forall (id itemId oid : string) (b : UpdateItemRequest) (fields : UpdateFields)
          (now now' : Z) (w : World) (lst : TodoListDocument),
      Utils.isValidShareId id = true -> ObjectId_isValid itemId = true ->
      Api.validateUpdate b now = inr fields ->
      Mongo.findOne (Mongo.byEitherId id) (TodoListColl w) = Some lst ->
      Utils.detectPermission lst id = edit ->
      ObjectId_new itemId = Some oid ->
      Mongo.findOne (Mongo.byItem oid (l_id lst)) (TodoItemColl w) = None ->
      Api.PATCH_item id itemId (Some b) now now' w = (errorJson "Item not found" 404, w)) /\
  (forall (id itemId oid : string) (now : Z) (w : World) (lst : TodoListDocument),
      Utils.isValidShareId id = true -> ObjectId_isValid itemId = true ->
      Mongo.findOne (Mongo.byEitherId id) (TodoListColl w) = Some lst ->
      Utils.detectPermission lst id = edit ->
      ObjectId_new itemId = Some oid ->
      Mongo.findOne (Mongo.byItem oid (l_id lst)) (TodoItemColl w) = None ->
      Api.DELETE_item id itemId now w = (errorJson "Item not found" 404, w)) /\
  (forall (id itemId : string) (body : option UpdateItemRequest) (now now' : Z) (w : World),
      status (fst (Api.PATCH_item id itemId body now now' w)) <> 200 ->
      snd (Api.PATCH_item id itemId body now now' w) = w) /\
  (forall (id itemId : string) (now : Z) (w : World),
      status (fst (Api.DELETE_item id itemId now w)) <> 200 ->
      snd (Api.DELETE_item id itemId now w) = w).
Proof.
  repeat split.
  - intros id itemId oid b fields now now' w lst Hid Hitem Hb Hf Hp Ho Hnone.
    unfold Api.PATCH_item, Mongo.findOneAndUpdate.
    rewrite Hid, Hitem, Hb, Hf, Hp, Ho, Hnone. cbn.
    by rewrite MongoFacts.updateOne_no_match, withItems_same.
  - intros id itemId oid now w lst Hid Hitem Hf Hp Ho Hnone.
    unfold Api.DELETE_item.
    rewrite Hid, Hitem, Hf, Hp, Ho, MongoFacts.deleteOne_no_match by done. cbn.
    by rewrite withItems_same.
  - intros id itemId body now now' w Hst.
    destruct (Api.PATCH_item _ _ _ _ _ _) as [r w'] eqn:E.
    by apply PATCH_item_effect in E as [[_ ->]|[? _]].
  - intros id itemId now w Hst.
    destruct (Api.DELETE_item _ _ _ _) as [r w'] eqn:E.
    by apply DELETE_item_effect in E as [[_ ->]|[? _]].
Qed.

End Frame.

(** ** Retry bound of list creation *)

Lemma zeros_twins (k : nat) :
  String.eqb (Utils.generateShareId (randomByte (Externals := Demo.zeros) k))
             (Utils.generateShareId (randomByte (Externals := Demo.zeros) (S k))) = true.
Proof. reflexivity. Qed.

(** C8: when both generated identifiers are equal the loop of POST
    /api/lists starts over without counting the attempt.  With a source of
    randomness that keeps producing equal pairs the loop never ends,
    whatever the fuel, and so neither does the request; with six equal
    pairs followed by a fresh pair the record is created in the seventh
    round, after 14 calls of randomBytes, although more than 5 rounds
    collided. *)
Theorem C8_twins_retried_without_bound :
  (forall (fuel attempts k : nat) (coll : list TodoListDocument),
      Api.generateIds (H := Demo.zeros) fuel attempts k coll = None) /\
  (forall (fuel : nat) (now : Z) (insertedId : string) (w : World),
      Api.POST_lists (H := Demo.zeros) fuel (Some "alice-token")
        (Some {| b_title := Js.JsStr "Groceries" |}) now insertedId w = None) /\
  Api.generateIds (H := Demo.sixTwins) 6 0 0 [] = None /\
  Api.generateIds (H := Demo.sixTwins) 7 0 0 [] = Some (Fresh ("mnopqrstu", "nopqrstuv"), 14%nat) /\
  (exists r w',
      Api.POST_lists (H := Demo.sixTwins) 7 (Some "alice-token")
        (Some {| b_title := Js.JsStr "Groceries" |}) 3000 "64b000000000000000000003"
        Demo.world = Some (r, w') /\
      status r = 201 /\ randomCalls w' = 14%nat /\ length (TodoListColl w') = 3%nat).
Proof.
  assert (Hloop : forall fuel attempts k coll,
             Api.generateIds (H := Demo.zeros) fuel attempts k coll = None).
  { induction fuel as [|fuel IH]; intros attempts k coll; [reflexivity|].
    cbn [Api.generateIds]. rewrite zeros_twins. apply IH. }
  split; [exact Hloop|]. split.
  - intros fuel now insertedId w. unfold Api.POST_lists.
    change (Auth.requireAuth (H := Demo.zeros) (Some "alice-token")) with (Some Demo.alice).
    change (Api.validateTitle (H := Demo.zeros) {| b_title := Js.JsStr "Groceries" |})
      with (@inr Response string "Groceries").
    cbv iota beta. by rewrite Hloop.
  - split; [reflexivity|]. split; [reflexivity|].
    eexists _, _. split; [vm_compute; reflexivity|]. by vm_compute.
Qed.

(** ** Examples on the demonstration store *)

Lemma demo_uniqueKeys : uniqueKeys (TodoListColl Demo.world).
Proof.
  unfold uniqueKeys. cbn.
  repeat (apply NoDup_cons_2; [by (intros Hin; repeat (apply elem_of_cons in Hin as [Hin|Hin]; [discriminate Hin|]); apply elem_of_nil in Hin)|]).
  apply NoDup_nil_2.
Defined.

Lemma demo_legacy_stored : Demo.legacy ∈ TodoListColl Demo.world.
Proof. cbn. apply list_elem_of_further, list_elem_of_here. Defined.



(** Bob, signed in, holds the edit link of alice's list: 403. *)
Lemma C2_witness :
  Api.DELETE_list (H := Demo.externals) (Some "bob-token") "k3mf8qp2x" Demo.world =
    (errorJson "Forbidden: Only the list owner can delete this list" 403, Demo.world).
Proof.
  refine (proj1 (C2_list_deletion_owner_only (H := Demo.externals))
            (Some "bob-token") Demo.bob "k3mf8qp2x" Demo.world Demo.groceries
            eq_refl eq_refl eq_refl _).
  cbn. discriminate.
Defined.

(** Creating a list in the demonstration store keeps identifiers unique. *)
Lemma C3_witness :
  exists rep w',
    Api.handle (H := Demo.externals) 5
      (Api.ReqCreateList (Some "alice-token") (Some {| b_title := Js.JsStr " Chores " |})
         3000 "64b000000000000000000003") Demo.world = Some (rep, w') /\
    length (TodoListColl w') = 3%nat /\
    uniqueIds (TodoListColl w').
Proof.
  eexists _, _. split; [vm_compute; reflexivity|]. split; [reflexivity|].
  eapply (proj1 (C3_identifier_uniqueness_invariant (H := Demo.externals)) 5%nat
            (Api.ReqCreateList (Some "alice-token") (Some {| b_title := Js.JsStr " Chores " |})
               3000 "64b000000000000000000003") Demo.world).
  - exact demo_uniqueIds.
  - vm_compute. reflexivity.
Defined.

(** Reading the legacy list twice returns the same generated viewId. *)
Lemma C7_witness :
  exists v tl1 items1 tl2 items2,
    fst Demo.firstRead = json (GetListResponse tl1 items1) 200 /\
    a_viewId tl1 = Some v /\
    Mongo.findOne (Mongo.byEitherId "legacy001") (TodoListColl (snd Demo.firstRead))
      = Some (setViewId v 3000 Demo.legacy) /\
    Api.GET_list (H := Demo.externals) 0 "legacy001" 4000 (snd Demo.firstRead)
      = Some (json (GetListResponse tl2 items2) 200, snd Demo.firstRead) /\
    a_viewId tl2 = Some v.
Proof.
  exact (proj2 (C7_backfill_idempotent (H := Demo.externals)) 5%nat "legacy001" 3000 4000
           Demo.world (snd Demo.firstRead) Demo.legacy (fst Demo.firstRead)
           demo_uniqueKeys eq_refl eq_refl eq_refl eq_refl).
Defined.

(** The first read of the legacy list writes its viewId and [updatedAt]
    in one update and leaves the items alone; an item added to the
    groceries list leaves the record of the legacy list in the store. *)
Lemma C9_witness :
  (exists v,
    TodoListColl (snd Demo.firstRead) =
      Mongo.updateOne (Mongo.byListId (l_id Demo.legacy)) (setViewId v 3000)
        (TodoListColl Demo.world) /\
    TodoItemColl (snd Demo.firstRead) = TodoItemColl Demo.world /\
    Mongo.findOne (Mongo.byListId (l_id Demo.legacy)) (TodoListColl (snd Demo.firstRead))
      = Some (setViewId v 3000 Demo.legacy) /\
    viewId (setViewId v 3000 Demo.legacy) = Some v /\
    updatedAt (setViewId v 3000 Demo.legacy) = 3000) /\
  Demo.legacy ∈
    TodoListColl (snd (Api.POST_item (H := Demo.externals) "k3mf8qp2x"
                         (Some {| b_text := Js.JsStr "Eggs" |}) 3000
                         "64c000000000000000000002" Demo.world)).
Proof.
  split.
  - exact (proj1 (proj2 (proj2 (C9_updatedAt_frame (H := Demo.externals)))) 5%nat
             "legacy001" 3000 Demo.world (snd Demo.firstRead) (fst Demo.firstRead)
             Demo.legacy demo_uniqueKeys eq_refl eq_refl eq_refl eq_refl).
  - refine (proj1 (proj2 (proj2 (proj2 (C9_updatedAt_frame (H := Demo.externals)))) 5%nat
                     (Api.ReqCreateItem "k3mf8qp2x" (Some {| b_text := Js.JsStr "Eggs" |})
                        3000 "64c000000000000000000002")
                     Demo.world _ _ Demo.legacy eq_refl demo_legacy_stored _)).
    intros lst Hf. injection Hf as <-. discriminate.
Defined.

(** Updating an item that is not in the groceries list: 404, nothing
    changes. *)
Lemma C10_witness :
  Api.PATCH_item (H := Demo.externals) "k3mf8qp2x" "64c000000000000000000009"
    (Some {| p_text := Js.JsUndefined; p_completed := Js.JsBool true;
             p_order := Js.JsUndefined |})
    3000 3001 Demo.world
  = (errorJson "Item not found" 404, Demo.world).
Proof.
  exact (proj1 (C10_failed_item_mutation_changes_nothing (H := Demo.externals))
           "k3mf8qp2x" "64c000000000000000000009" "64c000000000000000000009"
           {| p_text := Js.JsUndefined; p_completed := Js.JsBool true;
              p_order := Js.JsUndefined |}
           {| uf_updatedAt := 3000; uf_text := None; uf_completed := Some true;
              uf_order := None |}
           3000 3001 Demo.world Demo.groceries
           eq_refl eq_refl eq_refl eq_refl eq_refl eq_refl eq_refl).
Defined.

(* ===================================================================== *)
(** * Further properties of the code                                      *)
(* ===================================================================== *)

(** ** lib/utils.ts *)

(** X1: every identifier [generateShareId] produces, whatever the random
    bytes, has 9 characters and is accepted by [isValidShareId]. *)
Theorem X1_generated_id_is_valid (buf : nat -> N) :
  String.length (Utils.generateShareId buf) = 9%nat /\
  Utils.isValidShareId (Utils.generateShareId buf) = true.
Proof.
  split; [reflexivity|].
  unfold Utils.isValidShareId, Utils.generateShareId.
  cbn -[Utils.charAt Utils.isLowerAlnum]. by rewrite !charAt_alnum.
Qed.

Lemma generateLoop_ext (buf buf' : nat -> N) (n i : nat) :
  (forall j, (i <= j < i + n)%nat -> (buf j mod 36 = buf' j mod 36)%N) ->
  Utils.generateLoop buf i n = Utils.generateLoop buf' i n.
Proof.
  revert i. induction n as [|n IH]; intros i Hj; [reflexivity|].
  cbn [Utils.generateLoop]. rewrite (Hj i) by lia. f_equal.
  apply IH. intros j Hr. apply Hj. lia.
Qed.

(** X2: the identifier is a function of the first nine bytes of the buffer
    taken modulo 36: the remaining nine of the eighteen bytes drawn are not
    read, and bytes that differ by a multiple of 36 give the same
    character. *)
Theorem X2_generated_id_reads_nine_bytes_mod_36 (buf buf' : nat -> N) :
  (forall j, (j < 9)%nat -> (buf j mod 36 = buf' j mod 36)%N) ->
  Utils.generateShareId buf = Utils.generateShareId buf'.
Proof.
  intros Hj. unfold Utils.generateShareId. apply generateLoop_ext.
  intros j Hr. apply Hj. lia.
Qed.

Lemma X2_witness :
  Utils.generateShareId (fun j => if (j <? 9)%nat then N.of_nat j + 36 else 7)%N
  = Utils.generateShareId (fun j => N.of_nat j).
Proof.
  apply X2_generated_id_reads_nine_bytes_mod_36.
  intros j Hj. do 9 (destruct j as [|j]; [reflexivity|]). lia.
Defined.

(** X3: with bounds in order [clamp] returns a value within the bounds, the
    value itself when it already is, and clamping twice is clamping once;
    with bounds out of order it returns [max], whatever the value. *)
Theorem X3_clamp_bounds (value min max : Z) :
  (min <= max ->
     min <= clamp value min max <= max /\
     (min <= value <= max -> clamp value min max = value) /\
     (value < min -> clamp value min max = min) /\
     (max < value -> clamp value min max = max) /\
     clamp (clamp value min max) min max = clamp value min max) /\
  (max < min -> clamp value min max = max).
Proof. unfold clamp. lia. Qed.

Lemma X3_witness :
  (0 <= clamp 150 0 100 <= 100 /\
   (0 <= 150 <= 100 -> clamp 150 0 100 = 150) /\
   (150 < 0 -> clamp 150 0 100 = 0) /\
   (100 < 150 -> clamp 150 0 100 = 100) /\
   clamp (clamp 150 0 100) 0 100 = clamp 150 0 100) /\
  clamp 5 10 0 = 0.
Proof.
  split.
  - apply (X3_clamp_bounds 150 0 100). lia.
  - apply (X3_clamp_bounds 5 10 0). lia.
Defined.

(** ** The string builtins of the examples *)

(** [Js.trim] and [Js.len], which stand for the builtins in the examples,
    have the two properties of the builtins that the bounds on the store
    assume. *)
Module AsciiFacts.

(** The length of a string does not grow under [trim]. *)
Lemma trimEnd_length (s : string) : (String.length (Js.trimEnd s) <= String.length s)%nat.
Proof.
  induction s as [|c s IH]; [done|]. cbn [Js.trimEnd].
  destruct (Js.trimEnd s); [destruct (Js.isWhite c)|]; cbn in *; lia.
Qed.

Lemma trimStart_length (s : string) : (String.length (Js.trimStart s) <= String.length s)%nat.
Proof.
  induction s as [|c s IH]; [done|]. cbn [Js.trimStart].
  destruct (Js.isWhite c); cbn in *; lia.
Qed.

Lemma len_nonneg (s : string) : 0 <= Js.len s.
Proof. unfold Js.len. lia. Qed.

Lemma trim_len (s : string) : Js.len (Js.trim s) <= Js.len s.
Proof.
  unfold Js.len, Js.trim.
  pose proof (trimEnd_length (Js.trimStart s)). pose proof (trimStart_length s). lia.
Qed.

End AsciiFacts.

Section SigninMore.
Context `{Externals}.

(** X4: signin reads the address only through
    [email.toLowerCase().trim()]: two signin requests with the same
    password whose addresses have the same normal form, whatever the
    builtins make it, get the same response and leave the same state, the
    users and the throttle. *)
Theorem X4_signin_address_normalization (b1 b2 : SigninRequest) (e1 e2 : string)
    (now : Z) (w : AuthWorld) :
  b_email b1 = Js.JsStr e1 -> b_email b2 = Js.JsStr e2 ->
  Js.isEmpty e1 = false -> Js.isEmpty e2 = false ->
  b_password b1 = b_password b2 ->
  normalizeEmail e1 = normalizeEmail e2 ->
  Api.POST_signin (Some b1) now w = Api.POST_signin (Some b2) now w.
Proof.
  intros He1 He2 Hn1 Hn2 Hp Hn.
  unfold Api.POST_signin. rewrite He1, He2, <- Hp. cbn [Js.truthy].
  rewrite Hn1, Hn2. unfold normalizeEmail in Hn. by rewrite Hn.
Qed.

End SigninMore.

Lemma X4_witness :
  Api.POST_signin (H := Demo.externals)
    (Some {| b_email := Js.JsStr "  Bob@Example.COM "; b_password := Js.JsStr "guess" |})
    5000 Demo.authWorld
  = Api.POST_signin (H := Demo.externals)
      (Some {| b_email := Js.JsStr "bob@example.com"; b_password := Js.JsStr "guess" |})
      5000 Demo.authWorld.
Proof.
  exact (X4_signin_address_normalization (H := Demo.externals)
           {| b_email := Js.JsStr "  Bob@Example.COM "; b_password := Js.JsStr "guess" |}
           {| b_email := Js.JsStr "bob@example.com"; b_password := Js.JsStr "guess" |}
           "  Bob@Example.COM " "bob@example.com" 5000 Demo.authWorld
           eq_refl eq_refl eq_refl eq_refl eq_refl eq_refl).
Defined.

(** ** lib/rate-limit.ts: keys, counters and the periodic sweep *)

Module RateLimitMore.
Import RateLimit.

(** What both source functions do to the map: the entry of the key may be
    deleted or replaced, nothing else. *)
Ltac throttle_cases m k :=
  destruct (m !! k) as [e|] eqn:He;
  [destruct (resetAt e <? _) eqn:Hexp;
   [rewrite ?lookup_delete_eq | rewrite ?He; destruct (_ <=? count e) eqn:Hfull]
  | rewrite ?He];
  cbn [fst snd fmap option_fmap option_map].

Section WithExternals.
Context `{Externals}.

Lemma check_other_key (p : Policy) (now : Z) (key k' : string)
    (m : gmap string RateLimitEntry) :
  k' <> keyOf p key -> snd (check p now key m) !! k' = m !! k'.
Proof.
  intros Hne. destruct p; cbn [check keyOf] in *.
  - unfold checkSignupRateLimit. throttle_cases m key;
      rewrite ?lookup_insert_ne, ?lookup_delete_ne by done; done.
  - unfold checkSigninRateLimit. throttle_cases m (String_trim (String_toLowerCase key));
      rewrite ?lookup_insert_ne, ?lookup_delete_ne by done; done.
Qed.

Lemma check_own_key_count (p : Policy) (now : Z) (key : string)
    (m : gmap string RateLimitEntry) (e' : RateLimitEntry) :
  (forall e, m !! keyOf p key = Some e -> 1 <= count e <= limit p) ->
  snd (check p now key m) !! keyOf p key = Some e' ->
  1 <= count e' <= limit p.
Proof.
  intros Hin. destruct p; cbn [check keyOf limit] in *.
  - unfold checkSignupRateLimit. throttle_cases m key;
      rewrite ?lookup_insert_eq, ?He; intros [= <-]; cbn;
      try (specialize (Hin e eq_refl)); unfold Js.orNum; cbn;
      repeat case_match; lia.
  - unfold checkSigninRateLimit. throttle_cases m (String_trim (String_toLowerCase key));
      rewrite ?lookup_insert_eq, ?He; intros [= <-]; cbn;
      try (specialize (Hin e eq_refl)); unfold Js.orNum; cbn;
      repeat case_match; lia.
Qed.

End WithExternals.
End RateLimitMore.

(** X5: a throttle call touches the entry of its own key only: the entry of
    every other key, for signup every other origin and for signin every
    other normalized address, is left as it was. *)
Theorem X5_throttle_keys_independent `{Externals} (p : RateLimit.Policy) (now : Z) (key k' : string)
    (m : gmap string RateLimit.RateLimitEntry) :
  k' <> RateLimit.keyOf p key ->
  snd (RateLimit.check p now key m) !! k' = m !! k'.
Proof. apply RateLimitMore.check_other_key. Qed.

Lemma X5_witness :
  snd (RateLimit.check (H := Demo.externals) RateLimit.Signup 1000 "203.0.113.7"
         {[ "198.51.100.2" := {| RateLimit.count := 3; RateLimit.resetAt := 5000 |} ]})
    !! "198.51.100.2"
  = ({[ "198.51.100.2" := {| RateLimit.count := 3; RateLimit.resetAt := 5000 |} ]}
       : gmap string RateLimit.RateLimitEntry) !! "198.51.100.2".
Proof.
  apply (X5_throttle_keys_independent RateLimit.Signup 1000 "203.0.113.7" "198.51.100.2").
  cbn. discriminate.
Defined.

(** X6: the periodic sweep keeps exactly the entries whose window has not
    expired, and no caller can tell whether it ran: a throttle call made at
    or after the time of a sweep is answered as without the sweep and leaves
    the same entry for its key. *)
Theorem X6_sweep_is_unobservable `{Externals} (p : RateLimit.Policy) (key : string) (now now' : Z)
    (m : gmap string RateLimit.RateLimitEntry) :
  0 < now' -> now <= now' ->
  (forall k e, RateLimit.sweep now m !! k = Some e <->
               m !! k = Some e /\ now <= RateLimit.resetAt e) /\
  fst (RateLimit.check p now' key (RateLimit.sweep now m)) = fst (RateLimit.check p now' key m) /\
  snd (RateLimit.check p now' key (RateLimit.sweep now m)) !! RateLimit.keyOf p key
    = snd (RateLimit.check p now' key m) !! RateLimit.keyOf p key.
Proof.
  intros Hpos Hle. split; [|by apply RateLimitFacts.sweep_transparent].
  intros k e. unfold RateLimit.sweep. rewrite map_lookup_filter_Some. cbn. intuition lia.
Qed.

Lemma X6_witness :
  fst (RateLimit.check (H := Demo.externals) RateLimit.Signup 8000 "203.0.113.7"
         (RateLimit.sweep 7000
            {[ "203.0.113.7" := {| RateLimit.count := 3; RateLimit.resetAt := 5000 |} ]}))
  = fst (RateLimit.check (H := Demo.externals) RateLimit.Signup 8000 "203.0.113.7"
           {[ "203.0.113.7" := {| RateLimit.count := 3; RateLimit.resetAt := 5000 |} ]}).
Proof.
  refine (proj1 (proj2 (X6_sweep_is_unobservable RateLimit.Signup "203.0.113.7" 7000 8000
                          _ _ _))); lia.
Defined.

(** X7: the counter of an entry stays between 1 and the limit of its
    policy: if every entry of the map does, so does every entry after a
    call, whether the call was allowed or refused. *)
Theorem X7_throttle_counter_within_limit `{Externals} (p : RateLimit.Policy) (now : Z) (key : string)
    (m : gmap string RateLimit.RateLimitEntry) :
  countsWithin (RateLimit.limit p) m ->
  countsWithin (RateLimit.limit p) (snd (RateLimit.check p now key m)).
Proof.
  intros Hin k e' Hk. destruct (decide (k = RateLimit.keyOf p key)) as [->|Hne].
  - eapply RateLimitMore.check_own_key_count; [|exact Hk]. intros e. apply Hin.
  - rewrite RateLimitMore.check_other_key in Hk by done. by eapply Hin.
Qed.

Lemma demo_counts_empty : countsWithin 5 ∅.
Proof. intros k e Hk. rewrite lookup_empty in Hk. discriminate Hk. Defined.

Lemma X7_witness :
  countsWithin 5 (snd (RateLimit.check (H := Demo.externals) RateLimit.Signin 1000 "bob@example.com" ∅)).
Proof.
  exact (X7_throttle_counter_within_limit RateLimit.Signin 1000 "bob@example.com" ∅
           demo_counts_empty).
Defined.

(** ** app/api/auth/signin/route.ts: what a signin does to the throttle *)

Section SigninThrottle.
Context `{Externals}.

(** X8: a signin request with a non-empty string address and a password
    makes exactly one throttle call, with the normalized address, whatever
    the credential check then finds (so signins that succeed count as
    well), and never writes to the users collection; a request rejected for
    its shape changes nothing; and while the key the throttle derives from
    the normalized address has a live window with 5 attempts counted,
    every such request is answered 429 and changes nothing, the correct
    password included. *)
Theorem X8_signin_throttle_accounting :
  (forall (b : SigninRequest) (e : string) (now : Z) (w : AuthWorld),
      b_email b = Js.JsStr e -> Js.isEmpty e = false ->
      Js.truthy (b_password b) = true ->
      signinAttempts (snd (Api.POST_signin (Some b) now w))
        = snd (RateLimit.checkSigninRateLimit now (normalizeEmail e) (signinAttempts w)) /\
      usersColl (snd (Api.POST_signin (Some b) now w)) = usersColl w /\
      (status (fst (Api.POST_signin (Some b) now w)) = 429 <->
       fst (RateLimit.checkSigninRateLimit now (normalizeEmail e) (signinAttempts w)) = false)) /\
  (forall (body : option SigninRequest) (now : Z) (w : AuthWorld),
      (forall b e, body = Some b -> b_email b = Js.JsStr e -> Js.isEmpty e = false ->
                   Js.truthy (b_password b) = true -> False) ->
      snd (Api.POST_signin body now w) = w) /\
  (forall (b : SigninRequest) (e : string) (now : Z) (w : AuthWorld)
          (entry : RateLimit.RateLimitEntry),
      b_email b = Js.JsStr e -> Js.isEmpty e = false ->
      Js.truthy (b_password b) = true ->
      signinAttempts w !! RateLimit.keyOf RateLimit.Signin (normalizeEmail e) = Some entry ->
      now <= RateLimit.resetAt entry -> 5 <= RateLimit.count entry ->
      Api.POST_signin (Some b) now w
        = (errorJson "Too many signin attempts. Please try again later." 429, w)).
Proof.
  split; [|split].
  - intros b e now w He Hne Hp. unfold Api.POST_signin, normalizeEmail.
    rewrite He, Hp. cbn [Js.truthy]. rewrite Hne. cbn [negb orb].
    destruct (RateLimit.checkSigninRateLimit now _ (signinAttempts w)) as [allowed attempts].
    destruct allowed; cbn [negb fst snd].
    + destruct (Mongo.findOne _ _) as [user|]; cbn [usersColl];
        [destruct (Auth.verifyPassword _ _) as [[|]|];
         [destruct (Auth.generateToken user)|..]|]; cbn; by repeat split.
    + cbn. by repeat split.
  - intros [b|] now w Hshape; [|reflexivity]. unfold Api.POST_signin.
    destruct (Js.truthy (b_email b)) eqn:Hte; [|reflexivity].
    destruct (Js.truthy (b_password b)) eqn:Htp; [|reflexivity]. cbn [negb orb].
    destruct (b_email b) as [| | | | |e|] eqn:He; try reflexivity.
    exfalso. apply (Hshape b e eq_refl He); [|done].
    cbn in Hte. by destruct (Js.isEmpty e).
  - intros b e now w entry He Hne Hp Hm Hlive Hfull.
    unfold Api.POST_signin. rewrite He, Hp. cbn [Js.truthy]. rewrite Hne. cbn [negb orb].
    unfold RateLimit.checkSigninRateLimit.
    change (String_trim (String_toLowerCase (String_trim (String_toLowerCase e))))
      with (RateLimit.keyOf RateLimit.Signin (normalizeEmail e)).
    rewrite Hm.
    destruct (Z.ltb_spec (RateLimit.resetAt entry) now); [lia|]. rewrite Hm.
    destruct (Z.leb_spec 5 (RateLimit.count entry)); [|lia].
    cbn [negb]. by destruct w.
Qed.

End SigninThrottle.

(** Bob has used his five attempts: the correct password is answered 429. *)
Lemma X8_witness :
  Api.POST_signin (H := Demo.externals)
    (Some {| b_email := Js.JsStr "Bob@Example.com"; b_password := Js.JsStr "correct horse" |})
    6000
    {| usersColl := [Demo.bobAccount];
       signinAttempts :=
         {[ "bob@example.com" := {| RateLimit.count := 5; RateLimit.resetAt := 900000 |} ]} |}
  = (errorJson "Too many signin attempts. Please try again later." 429,
     {| usersColl := [Demo.bobAccount];
        signinAttempts :=
          {[ "bob@example.com" := {| RateLimit.count := 5; RateLimit.resetAt := 900000 |} ]} |}).
Proof.
  refine (proj2 (proj2 (X8_signin_throttle_accounting (H := Demo.externals)))
            {| b_email := Js.JsStr "Bob@Example.com"; b_password := Js.JsStr "correct horse" |}
            "Bob@Example.com" 6000 _
            {| RateLimit.count := 5; RateLimit.resetAt := 900000 |}
            eq_refl eq_refl eq_refl _ _ _).
  - cbn. apply lookup_singleton_eq.
  - cbn. lia.
  - cbn. lia.
Defined.

(** ** app/api/auth/signup/route.ts *)

Section SignupFacts.
Context `{Externals} `{SignupExternals}.

Lemma clientIp_nonempty (h : Headers) : Js.isEmpty (clientIp h) = false.
Proof.
  unfold clientIp, orStr.
  destruct (splitFirst <$> x_forwarded_for h) as [v|]; [destruct (Js.isEmpty v) eqn:E; [|done]|];
    (destruct (x_real_ip h) as [r|]; [destruct (Js.isEmpty r) eqn:Er; done | done]).
Qed.

(** The document an insert with a fresh [_id] appended is the one found by
    that [_id]. *)
Lemma findOne_inserted (doc : UserDocument) (users users' : list UserDocument) :
  Mongo.insertOne u_id doc users = Some users' ->
  Mongo.findOne (fun u => String.eqb (u_id u) (u_id doc)) users' = Some doc.
Proof.
  intros Hi. pose proof (fun x => insertOne_fresh _ _ _ _ x Hi) as Hfresh.
  apply insertOne_Some in Hi as ->. unfold Mongo.findOne.
  induction users as [|u users IH]; cbn.
  - by rewrite String.eqb_refl.
  - destruct (String.eqb_spec (u_id u) (u_id doc)) as [Heq|_].
    + exfalso. apply (Hfresh u); [by left | done].
    + apply IH. intros x Hx. apply Hfresh. by right.
Qed.

(** What POST /api/auth/signup does to the store: it always makes its
    throttle call, never touches the signin throttle, and either leaves the
    users collection alone, answering something else than 201, or appends
    one account under the normalized address, free until then, and answers
    201 with that account, or 500 when no token could be signed. *)
Lemma POST_signup_effect (h : Headers) (body : option SigninRequest) (now : Z)
    (insertedId : string) (w w' : AccountsWorld) (r : Response) :
  POST_signup h body now insertedId w = (r, w') ->
  signupAttempts w' = snd (RateLimit.checkSignupRateLimit now (clientIp h) (signupAttempts w)) /\
  signinAttempts (accounts w') = signinAttempts (accounts w) /\
  (status r = 429 <->
   fst (RateLimit.checkSignupRateLimit now (clientIp h) (signupAttempts w)) = false) /\
  ((status r <> 201 /\ usersColl (accounts w') = usersColl (accounts w)) \/
   (exists b e hash doc,
       body = Some b /\ b_email b = Js.JsStr e /\
       validator_isEmail (b_email b) = Some true /\
       hashPassword (b_password b) = Some hash /\
       doc = {| u_id := insertedId; u_email := normalizeEmail e; passwordHash := hash;
                u_createdAt := now; u_updatedAt := now |} /\
       Mongo.findOne (fun u => String.eqb (u_email u) (normalizeEmail e))
         (usersColl (accounts w)) = None /\
       (forall u, u ∈ usersColl (accounts w) -> u_id u <> insertedId) /\
       usersColl (accounts w') = usersColl (accounts w) ++ [doc] /\
       ((exists token,
            Auth.generateToken doc = Some token /\
            r = {| status := 201; body := UserResponse (serializeUser doc);
                   setCookie := Some token |}) \/
        (r = errorJson "Internal server error" 500 /\ Auth.generateToken doc = None)))).
Proof.
  unfold POST_signup. intros Hp.
  destruct (RateLimit.checkSignupRateLimit now (clientIp h) (signupAttempts w))
    as [allowed attempts].
  cbn [fst snd].
  destruct allowed; cbn [negb] in Hp.
  2:{ simplify_eq. cbn. split; [done|]. split; [done|]. split; [done|]. by left. }
  assert (Hquiet : forall msg st, st <> 429 -> st <> 201 ->
            (errorJson msg st, withSignupAttempts attempts w) = (r, w') ->
            signupAttempts w' = attempts /\
            signinAttempts (accounts w') = signinAttempts (accounts w) /\
            (status r = 429 <-> true = false) /\
            ((status r <> 201 /\ usersColl (accounts w') = usersColl (accounts w)) \/
             (exists b e hash doc,
                body = Some b /\ b_email b = Js.JsStr e /\
                validator_isEmail (b_email b) = Some true /\
                hashPassword (b_password b) = Some hash /\
                doc = {| u_id := insertedId; u_email := normalizeEmail e;
                         passwordHash := hash; u_createdAt := now; u_updatedAt := now |} /\
                Mongo.findOne (fun u => String.eqb (u_email u) (normalizeEmail e))
                  (usersColl (accounts w)) = None /\
                (forall u, u ∈ usersColl (accounts w) -> u_id u <> insertedId) /\
                usersColl (accounts w') = usersColl (accounts w) ++ [doc] /\
                ((exists token,
                     Auth.generateToken doc = Some token /\
                     r = {| status := 201; body := UserResponse (serializeUser doc);
                            setCookie := Some token |}) \/
                 (r = errorJson "Internal server error" 500 /\
                  Auth.generateToken doc = None))))).
  { intros msg st H429 H201 [= <- <-]. cbn. split; [done|]. split; [done|].
    split; [by split|]. by left. }
  destruct body as [b|]; [|eapply (Hquiet _ 500); [done | done | exact Hp]].
  destruct (negb (Js.truthy (b_email b)) || negb (Js.truthy (b_password b)));
    [eapply (Hquiet _ 400); [done | done | exact Hp]|].
  destruct (validator_isEmail (b_email b)) as [[|]|] eqn:Hv;
    [|eapply (Hquiet _ 400); [done | done | exact Hp] | eapply (Hquiet _ 500); [done | done | exact Hp]].
  destruct (lengthBelow8 (b_password b)) as [[|]|];
    [eapply (Hquiet _ 400); [done | done | exact Hp] |
    | eapply (Hquiet _ 500); [done | done | exact Hp]].
  destruct (b_email b) as [| | | | |e|] eqn:He; try (eapply (Hquiet _ 500); [done | done | exact Hp]; fail).
  cbn [accounts withSignupAttempts] in Hp.
  destruct (Mongo.findOne _ (usersColl (accounts w))) as [existing|] eqn:Hex;
    [eapply (Hquiet _ 400); [done | done | exact Hp]|].
  destruct (hashPassword (b_password b)) as [hash|] eqn:Hh; [|eapply (Hquiet _ 500); [done | done | exact Hp]].
  destruct (Mongo.insertOne u_id _ (usersColl (accounts w))) as [c|] eqn:Hi;
    [|eapply (Hquiet _ 500); [done | done | exact Hp]].
  cbn [accounts withUsers usersColl] in Hp.
  pose proof (findOne_inserted _ _ _ Hi) as Hfound. cbn [u_id] in Hfound.
  rewrite Hfound in Hp.
  pose proof (fun x => insertOne_fresh _ _ _ _ x Hi) as Hfresh. cbn [u_id] in Hfresh.
  apply insertOne_Some in Hi as ->.
  split; [by destruct (Auth.generateToken _); simplify_eq|].
  split; [by destruct (Auth.generateToken _); simplify_eq|].
  split; [by destruct (Auth.generateToken _); simplify_eq|].
  right. eexists b, e, hash, _. split; [done|]. split; [done|]. split; [by rewrite He|].
  split; [done|]. split; [reflexivity|]. split; [exact Hex|]. split; [exact Hfresh|].
  destruct (Auth.generateToken _) as [token|] eqn:Ht; simplify_eq; cbn.
  - split; [done|]. left. by exists token.
  - split; [done|]. by right.
Qed.

(** X9: every signup request makes the throttle call of its origin before
    anything else is looked at, so requests that are then rejected for
    their shape, or fail, count as attempts too; the answer is 429 exactly
    when that call refuses, and then no account is written; the signin
    throttle is never touched.  The origin is never the empty string, and
    it is 'unknown' for every request that carries neither header. *)
Theorem X9_signup_counts_every_request (h : Headers) (body : option SigninRequest)
    (now : Z) (insertedId : string) (w : AccountsWorld) :
  signupAttempts (snd (POST_signup h body now insertedId w))
    = snd (RateLimit.checkSignupRateLimit now (clientIp h) (signupAttempts w)) /\
  signinAttempts (accounts (snd (POST_signup h body now insertedId w)))
    = signinAttempts (accounts w) /\
  (status (fst (POST_signup h body now insertedId w)) = 429 <->
   fst (RateLimit.checkSignupRateLimit now (clientIp h) (signupAttempts w)) = false) /\
  (status (fst (POST_signup h body now insertedId w)) = 429 ->
   usersColl (accounts (snd (POST_signup h body now insertedId w))) = usersColl (accounts w)) /\
  Js.isEmpty (clientIp h) = false /\
  (x_forwarded_for h = None -> x_real_ip h = None -> clientIp h = "unknown").
Proof.
  destruct (POST_signup h body now insertedId w) as [r w'] eqn:E. cbn [fst snd].
  apply POST_signup_effect in E as (Hs & Hi & H429 & Hu).
  split; [done|]. split; [done|]. split; [done|]. split.
  - intros Hst. destruct Hu as [[_ ?]|(b & e & hash & doc & _ & _ & _ & _ & _ & _ & _ & _ & Hr)];
      [done|].
    destruct Hr as [(token & _ & ->)|[-> _]]; discriminate Hst.
  - split; [apply clientIp_nonempty|]. intros Hx Hr. unfold clientIp. by rewrite Hx, Hr.
Qed.

Lemma findOne_appended {A : Type} (q : A -> bool) (c : list A) (d : A) :
  Mongo.findOne q c = None -> q d = true -> Mongo.findOne q (c ++ [d]) = Some d.
Proof.
  unfold Mongo.findOne. intros Hnone Hq. induction c as [|x c IH]; cbn in *.
  - by rewrite Hq.
  - destruct (q x); [discriminate | by apply IH].
Qed.

Lemma fresh_email (users : list UserDocument) (n : string) :
  Mongo.findOne (fun u => String.eqb (u_email u) n) users = None ->
  n ∉ map u_email users.
Proof.
  intros Hf Hin. apply list_elem_of_In, in_map_iff in Hin as (u & Hu & Hin).
  apply (MongoFacts.findOne_None _ _ u) in Hf; [|by apply list_elem_of_In].
  cbn beta in Hf. rewrite Hu, String.eqb_refl in Hf. discriminate.
Qed.

(** X10: signup keeps the addresses of the users collection pairwise
    distinct, and an address whose normal form
    ([email.toLowerCase().trim()]) is registered is never registered
    again, whatever its spelling: the request is not answered 201 and the
    collection stays as it is. *)
Theorem X10_signup_keeps_addresses_unique :
  (forall (h : Headers) (body : option SigninRequest) (now : Z) (insertedId : string)
          (w : AccountsWorld),
      uniqueEmails (usersColl (accounts w)) ->
      uniqueEmails (usersColl (accounts (snd (POST_signup h body now insertedId w))))) /\
  (forall (h : Headers) (b : SigninRequest) (e : string) (now : Z) (insertedId : string)
          (w : AccountsWorld) (user : UserDocument),
      b_email b = Js.JsStr e ->
      Mongo.findOne (fun u => String.eqb (u_email u) (normalizeEmail e))
        (usersColl (accounts w)) = Some user ->
      status (fst (POST_signup h (Some b) now insertedId w)) <> 201 /\
      usersColl (accounts (snd (POST_signup h (Some b) now insertedId w)))
        = usersColl (accounts w)).
Proof.
  split.
  - intros h body now insertedId w Hu.
    destruct (POST_signup h body now insertedId w) as [r w'] eqn:E. cbn [snd].
    apply POST_signup_effect in E
      as (_ & _ & _ & [[_ ->]|(b & e & hash & doc & _ & _ & _ & _ & -> & Hf & _ & -> & _)]);
      [done|].
    unfold uniqueEmails in *. rewrite map_app. apply NoDup_app. split; [done|].
    split; [|apply NoDup_singleton].
    intros n Hn [->|[]%elem_of_nil]%elem_of_cons. by eapply fresh_email.
  - intros h b e now insertedId w user He Hf.
    destruct (POST_signup h (Some b) now insertedId w) as [r w'] eqn:E. cbn [fst snd].
    apply POST_signup_effect in E
      as (_ & _ & _ & [?|(b' & e' & hash & doc & Hb & He' & _ & _ & _ & Hnone & _)]);
      [done|].
    injection Hb as <-. rewrite He in He'. injection He' as <-. congruence.
Qed.

(** X11: an account created by signup can sign in: when signup answers 201
    and the hash that was stored verifies against the same password, a
    signin with the same body that the throttle admits is answered 200
    with the same user and a cookie. *)
Theorem X11_signup_then_signin (h : Headers) (b : SigninRequest) (now now' : Z)
    (insertedId : string) (w w' : AccountsWorld) (r : Response) :
  POST_signup h (Some b) now insertedId w = (r, w') ->
  status r = 201 ->
  (forall hash, hashPassword (b_password b) = Some hash ->
                Auth.verifyPassword (b_password b) hash = Some true) ->
  (forall e, b_email b = Js.JsStr e ->
     fst (RateLimit.checkSigninRateLimit now' (normalizeEmail e)
            (signinAttempts (accounts w'))) = true) ->
  status (fst (Api.POST_signin (Some b) now' (accounts w'))) = 200 /\
  body (fst (Api.POST_signin (Some b) now' (accounts w'))) = body r /\
  is_Some (setCookie (fst (Api.POST_signin (Some b) now' (accounts w')))).
Proof.
  intros E Hst Hverify Hopen.
  assert (Htruthy : Js.truthy (b_email b) = true /\ Js.truthy (b_password b) = true).
  { unfold POST_signup in E.
    destruct (RateLimit.checkSignupRateLimit _ _ _) as [[|] ?]; cbn [negb] in E;
      [|by simplify_eq].
    destruct (Js.truthy (b_email b)), (Js.truthy (b_password b)); cbn in E;
      by simplify_eq. }
  destruct Htruthy as [Hte Htp].
  apply POST_signup_effect in E
    as (_ & _ & _ & [[? _]|(b' & e & hash & doc & Hb & He & _ & Hh & Hdoc & Hnone & _ & Hu & Hr)]);
    [done|].
  injection Hb as <-.
  destruct Hr as [(token & Ht & ->)|[-> _]]; [|discriminate Hst].
  rewrite (signin_reaches_lookup b e) by (done || by apply Hopen).
  unfold accountOf. rewrite Hu.
  assert (Hfound : Mongo.findOne
                     (fun u => String.eqb (u_email u) (String_trim (String_toLowerCase e)))
                     (usersColl (accounts w) ++ [doc]) = Some doc).
  { apply findOne_appended; [exact Hnone|]. subst doc. cbn. apply String.eqb_refl. }
  rewrite Hfound. replace (passwordHash doc) with hash by (by subst doc).
  rewrite (Hverify hash Hh), Ht. cbn. split; [done|]. split; [done|]. by eexists.
Qed.

(** X12: signup is not atomic: for a request the throttle admits, with an
    address the validator accepts that is not registered and a string
    password of at least 8 units, when the account has been inserted and no
    token can be signed, the answer is 500 and the account stays stored
    under the normalized address, so that signing up again with the same
    body is answered 'Email already registered' once the throttle admits
    the request. *)
Theorem X12_signup_failure_after_insert (h : Headers) (b : SigninRequest) (e pw : string)
    (now now' : Z) (insertedId insertedId' : string) (w : AccountsWorld) :
  fst (RateLimit.checkSignupRateLimit now (clientIp h) (signupAttempts w)) = true ->
  b_email b = Js.JsStr e -> Js.isEmpty e = false ->
  b_password b = Js.JsStr pw -> Js.isEmpty pw = false -> 8 <= String_length pw ->
  validator_isEmail (b_email b) = Some true ->
  Mongo.findOne (fun u => String.eqb (u_email u) (normalizeEmail e))
    (usersColl (accounts w)) = None ->
  (forall u, u ∈ usersColl (accounts w) -> u_id u <> insertedId) ->
  forall stored,
    hashPassword (b_password b) = Some stored ->
    Auth.generateToken
      {| u_id := insertedId; u_email := normalizeEmail e; passwordHash := stored;
         u_createdAt := now; u_updatedAt := now |} = None ->
    let out := POST_signup h (Some b) now insertedId w in
    fst out = errorJson "Internal server error" 500 /\
    usersColl (accounts (snd out)) =
      usersColl (accounts w) ++
        [{| u_id := insertedId; u_email := normalizeEmail e; passwordHash := stored;
            u_createdAt := now; u_updatedAt := now |}] /\
    (fst (RateLimit.checkSignupRateLimit now' (clientIp h) (signupAttempts (snd out))) = true ->
     fst (POST_signup h (Some b) now' insertedId' (snd out))
       = errorJson "Email already registered" 400).
Proof.
  intros Hopen He Hne Hpw Hpne Hlen Hvalid Hnone Hfresh stored Hh Htok out.
  set (doc := {| u_id := insertedId; u_email := normalizeEmail e; passwordHash := stored;
                 u_createdAt := now; u_updatedAt := now |}) in *.
  assert (Hins : Mongo.insertOne u_id doc (usersColl (accounts w))
                 = Some (usersColl (accounts w) ++ [doc])).
  { unfold Mongo.insertOne. destruct (existsb _ _) eqn:Ex; [|done].
    apply existsb_exists in Ex as (u & Hu & Heq). apply String.eqb_eq in Heq.
    exfalso. apply (Hfresh u); [by apply list_elem_of_In | done]. }
  assert (Hout : out = (errorJson "Internal server error" 500,
                        withUsers (usersColl (accounts w) ++ [doc])
                          (withSignupAttempts
                             (snd (RateLimit.checkSignupRateLimit now (clientIp h)
                                     (signupAttempts w))) w))).
  { subst out. unfold POST_signup.
    destruct (RateLimit.checkSignupRateLimit now (clientIp h) (signupAttempts w))
      as [allowed attempts]. cbn [fst snd] in *. subst allowed. cbn [negb].
    rewrite Hvalid, He, Hpw. cbn [Js.truthy lengthBelow8]. rewrite Hne, Hpne. cbn [negb orb].
    destruct (Z.ltb_spec (String_length pw) 8); [lia|].
    cbn [accounts withSignupAttempts]. fold (normalizeEmail e). rewrite Hnone.
    rewrite <- Hpw, Hh. fold doc. rewrite Hins.
    cbn [accounts withUsers usersColl].
    rewrite (findOne_inserted doc _ _ Hins : Mongo.findOne
               (fun u => String.eqb (u_id u) insertedId) _ = Some doc).
    by rewrite Htok. }
  rewrite Hout. cbn [fst snd accounts withUsers usersColl]. split; [done|]. split; [done|].
  intros Hopen'. unfold POST_signup.
  cbn [signupAttempts withUsers withSignupAttempts] in *.
  destruct (RateLimit.checkSignupRateLimit now' (clientIp h) _) as [allowed attempts].
  cbn [fst snd] in Hopen'. subst allowed. cbn [negb fst].
  rewrite Hvalid, He, Hpw. cbn [Js.truthy lengthBelow8]. rewrite Hne, Hpne. cbn [negb orb].
  destruct (Z.ltb_spec (String_length pw) 8); [lia|].
  cbn [accounts withSignupAttempts withUsers usersColl]. fold (normalizeEmail e).
  rewrite (findOne_appended _ _ doc Hnone) by apply String.eqb_refl. reflexivity.
Qed.

End SignupFacts.

(** A request without forwarding headers is counted under 'unknown'. *)
Lemma X9_witness :
  clientIp {| x_forwarded_for := None; x_real_ip := None |} = "unknown".
Proof.
  exact (proj2 (proj2 (proj2 (proj2 (proj2
           (X9_signup_counts_every_request (H := Demo.externals)
              (H0 := DemoAccounts.signupExternals)
              {| x_forwarded_for := None; x_real_ip := None |} None 1000 "" DemoAccounts.world)))))
           eq_refl eq_refl).
Defined.

(** Bob's address in another spelling is not registered again. *)
Lemma X10_witness :
  status (fst (POST_signup (H := Demo.externals) (H0 := DemoAccounts.signupExternals)
                 DemoAccounts.direct
                 (Some {| b_email := Js.JsStr "BOB@example.com";
                          b_password := Js.JsStr "another password" |})
                 1000 "64a000000000000000000003" DemoAccounts.world)) <> 201 /\
  usersColl (accounts (snd (POST_signup (H := Demo.externals)
                              (H0 := DemoAccounts.signupExternals) DemoAccounts.direct
                              (Some {| b_email := Js.JsStr "BOB@example.com";
                                       b_password := Js.JsStr "another password" |})
                              1000 "64a000000000000000000003" DemoAccounts.world)))
    = usersColl (accounts DemoAccounts.world).
Proof.
  exact (proj2 (X10_signup_keeps_addresses_unique (H := Demo.externals)
                  (H0 := DemoAccounts.signupExternals))
           DemoAccounts.direct
           {| b_email := Js.JsStr "BOB@example.com"; b_password := Js.JsStr "another password" |}
           "BOB@example.com" 1000 "64a000000000000000000003" DemoAccounts.world
           Demo.bobAccount eq_refl eq_refl).
Defined.

Lemma demo_carol_201 : status (fst DemoAccounts.carolSignup) = 201.
Proof. vm_compute. reflexivity. Defined.

(** Carol signs up and then signs in. *)
Lemma X11_witness :
  status (fst (Api.POST_signin (H := Demo.externals) (Some DemoAccounts.carol) 2000
                 (accounts (snd DemoAccounts.carolSignup)))) = 200 /\
  body (fst (Api.POST_signin (H := Demo.externals) (Some DemoAccounts.carol) 2000
               (accounts (snd DemoAccounts.carolSignup))))
    = body (fst DemoAccounts.carolSignup) /\
  is_Some (setCookie (fst (Api.POST_signin (H := Demo.externals) (Some DemoAccounts.carol) 2000
                             (accounts (snd DemoAccounts.carolSignup))))).
Proof.
  refine (X11_signup_then_signin (H := Demo.externals) (H0 := DemoAccounts.signupExternals)
            DemoAccounts.direct DemoAccounts.carol 1000 2000 "64a000000000000000000003"
            DemoAccounts.world (snd DemoAccounts.carolSignup) (fst DemoAccounts.carolSignup)
            _ demo_carol_201 _ _).
  - symmetry. apply surjective_pairing.
  - intros hash Hh. injection Hh as <-. reflexivity.
  - intros e He. injection He as <-. vm_compute. reflexivity.
Defined.

Lemma demo_carol_admitted :
  fst (RateLimit.checkSignupRateLimit 1000 (clientIp DemoAccounts.direct)
         (signupAttempts DemoAccounts.world)) = true.
Proof.
  unfold RateLimit.checkSignupRateLimit. cbn [DemoAccounts.world signupAttempts].
  rewrite lookup_empty. reflexivity.
Defined.

(** Carol's account is stored although her signup is answered 500. *)
Lemma X12_witness :
  fst DemoAccounts.carolSignupNoToken = errorJson "Internal server error" 500 /\
  (u_email <$> usersColl (accounts (snd DemoAccounts.carolSignupNoToken)))
    = ["bob@example.com"; "carol@example.com"].
Proof.
  destruct (X12_signup_failure_after_insert (H := DemoAccounts.noTokens)
              (H0 := DemoAccounts.signupExternals)
              DemoAccounts.direct DemoAccounts.carol "Carol@Example.com" "correct horse"
              1000 2000 "64a000000000000000000003" "64a000000000000000000004"
              DemoAccounts.world demo_carol_admitted eq_refl eq_refl eq_refl eq_refl
              ltac:(by vm_compute) eq_refl eq_refl
              ltac:(intros u Hu; apply list_elem_of_singleton in Hu; subst u; discriminate)
              "hash:correct horse" eq_refl eq_refl) as (Hr & Hu & _).
  split; [exact Hr|].
  change (DemoAccounts.carolSignupNoToken)
    with (POST_signup (H := DemoAccounts.noTokens) (H0 := DemoAccounts.signupExternals)
            DemoAccounts.direct (Some DemoAccounts.carol) 1000 "64a000000000000000000003"
            DemoAccounts.world).
  rewrite Hu. reflexivity.
Defined.

(** ** Listings: GET /api/lists and the items of GET /api/lists/[shareId] *)

Module SortFacts.
Import Mongo.

#[global] Instance updatedDesc_total : Total updatedDesc.
Proof. intros a b. unfold updatedDesc. lia. Qed.

#[global] Instance orderAsc_total : Total orderAsc.
Proof. intros a b. unfold orderAsc. lia. Qed.

#[global] Instance orderDesc_total : Total orderDesc.
Proof. intros a b. unfold orderDesc. lia. Qed.

#[global] Instance orderDesc_trans : Transitive orderDesc.
Proof. intros a b c. unfold orderDesc. lia. Qed.

Lemma map_fmap {A B : Type} (f : A -> B) (l : list A) : map f l = f <$> l.
Proof. induction l as [|x l IH]; cbn; [done|]. by rewrite IH. Qed.

Lemma elem_of_findAll {A : Type} (q : A -> bool) (c : list A) (x : A) :
  x ∈ findAll q c <-> x ∈ c /\ q x = true.
Proof. unfold findAll. rewrite !list_elem_of_In. apply filter_In. Qed.

Lemma elem_of_sortUpdatedDesc (c : list TodoListDocument) (x : TodoListDocument) :
  x ∈ sortUpdatedDesc c <-> x ∈ c.
Proof. unfold sortUpdatedDesc. by rewrite merge_sort_Permutation. Qed.


Lemma elem_of_sortOrderDesc (c : list TodoItemDocument) (x : TodoItemDocument) :
  x ∈ sortOrderDesc c <-> x ∈ c.
Proof. unfold sortOrderDesc. by rewrite merge_sort_Permutation. Qed.

(** The first document of the descending sort has the greatest order. *)
Lemma sortOrderDesc_head (c : list TodoItemDocument) (i : TodoItemDocument)
    (rest : list TodoItemDocument) :
  take 1 (sortOrderDesc c) = i :: rest ->
  i ∈ c /\ forall x, x ∈ c -> order x <= order i.
Proof.
  intros Ht.
  pose proof (StronglySorted_merge_sort orderDesc c) as Hs.
  fold (sortOrderDesc c) in Hs.
  assert (Hin : forall x, x ∈ c <-> x ∈ sortOrderDesc c)
    by (intros x; symmetry; apply elem_of_sortOrderDesc).
  destruct (sortOrderDesc c) as [|j s]; [discriminate|].
  cbn in Ht. injection Ht as -> _.
  apply StronglySorted_inv in Hs as [_ Hall].
  split; [apply Hin; by left|].
  intros x [->|Hx]%Hin%elem_of_cons; [lia|].
  rewrite Forall_forall in Hall. apply (Hall x). exact Hx.
Qed.

Lemma sortOrderDesc_none (c : list TodoItemDocument) :
  take 1 (sortOrderDesc c) = [] -> c = [].
Proof.
  intros Ht. destruct c as [|x c]; [done|]. exfalso.
  assert (Hx : x ∈ sortOrderDesc (x :: c)) by (apply elem_of_sortOrderDesc; by left).
  destruct (sortOrderDesc (x :: c)); [by apply elem_of_nil in Hx | discriminate].
Qed.

End SortFacts.

Section Listings.
Context `{Externals}.

(** X13: GET /api/lists, called with a verified identity whose userId is a
    well-formed ObjectId, answers 200 with the lists that identity owns and
    no others (lists of other users and lists without owner never appear),
    in descending order of [updatedAt], each with a viewId property (the
    empty string for a record that has none) and without permission tag. *)
Theorem X13_GET_lists_owned_and_sorted (cookie : option string) (auth : AuthContext)
    (uid : string) (w : World) :
  Auth.requireAuth cookie = Some auth ->
  ObjectId_new (auth_userId auth) = Some uid ->
  exists lists,
    Api.GET_lists cookie w = json (ListsResponse lists) 200 /\
    (forall tl, tl ∈ lists ->
       exists d, d ∈ TodoListColl w /\ userId d = Some uid /\
                 a_id tl = l_id d /\ a_shareId tl = shareId d /\ a_title tl = title d /\
                 a_viewId tl = Some (default "" (viewId d)) /\ permission tl = None) /\
    (forall d, d ∈ TodoListColl w -> userId d = Some uid ->
       exists tl, tl ∈ lists /\ a_id tl = l_id d) /\
    Sorted (fun a b => a_updatedAt b <= a_updatedAt a) lists.
Proof.
  intros Ha Ho. unfold Api.GET_lists. rewrite Ha, Ho.
  eexists. split; [reflexivity|].
  set (owned := fun d => match userId d with Some u => String.eqb u uid | None => false end).
  set (ser := fun l => serializeTodoList (assignViewId (default "" (viewId l)) l)).
  assert (Howned : forall d, owned d = true <-> userId d = Some uid).
  { intros d. unfold owned. destruct (userId d) as [u|]; [|done].
    rewrite String.eqb_eq. split; congruence. }
  rewrite SortFacts.map_fmap. split; [|split].
  - intros tl (d & -> & Hd)%list_elem_of_fmap.
    apply SortFacts.elem_of_sortUpdatedDesc, SortFacts.elem_of_findAll in Hd as [Hd Hq].
    exists d. apply Howned in Hq. by repeat split.
  - intros d Hd Hu. exists (ser d). split; [|done].
    apply list_elem_of_fmap. exists d. split; [done|].
    apply SortFacts.elem_of_sortUpdatedDesc, SortFacts.elem_of_findAll.
    split; [done | by apply Howned].
  - apply (Sorted_fmap _ Mongo.updatedDesc); [by intros x y|].
    apply Sorted_merge_sort. apply _.
Qed.


End Listings.

(** ** Items and lists under mutation *)

(** Adding 1 to a number: exact up to 2^53, where it stops growing. *)
Module NumberFacts.

Lemma add1_exact (x : Z) : Z.abs x < Js.maxSafe -> Js.add1 x = x + 1.
Proof.
  intros Hx. unfold Js.add1, Js.roundDouble.
  destruct (Z.leb_spec (Z.abs (x + 1)) Js.maxSafe); [done | lia].
Qed.

Lemma add1_nonneg (x : Z) : 0 <= x -> 0 <= Js.add1 x.
Proof.
  intros Hx. unfold Js.add1, Js.roundDouble.
  destruct (Z.leb_spec (Z.abs (x + 1)) Js.maxSafe); [lia|].
  replace (Z.sgn (x + 1)) with 1 by (symmetry; apply Z.sgn_pos; lia).
  set (a := Z.abs (x + 1)) in *.
  assert (Hulp : 0 < 2 ^ (Z.log2 a - 52)).
  { apply Z.pow_pos_nonneg; [lia|].
    assert (53 <= Z.log2 a); [|lia].
    apply Z.log2_le_pow2; [lia|]. unfold Js.maxSafe in *. lia. }
  assert (Hq : 0 <= a / 2 ^ (Z.log2 a - 52)) by (apply Z.div_pos; lia).
  repeat case_match; nia.
Qed.

Example add1_small : Js.add1 41 = 42.
Proof. reflexivity. Qed.

Example add1_at_2_53 : Js.add1 9007199254740992 = 9007199254740992.
Proof. reflexivity. Qed.

Example add1_tie_to_even : Js.add1 9007199254740994 = 9007199254740996.
Proof. reflexivity. Qed.

End NumberFacts.

Section Mutations.
Context `{Externals}.

Lemma deleteOne_length {A : Type} (q : A -> bool) (c : list A) (x : A) :
  Mongo.findOne q c = Some x ->
  S (length (snd (Mongo.deleteOne q c))) = length c.
Proof.
  unfold Mongo.findOne. induction c as [|d c IH]; cbn; [discriminate|].
  destruct (q d); [done|]. intros Hf. specialize (IH Hf).
  destruct (Mongo.deleteOne q c). cbn in *. by rewrite IH.
Qed.

(** X15: an item created through POST /api/lists/[shareId]/items is appended
    to the collection with the trimmed text, not completed, and, as long as
    the orders of the items the list already has are below 2^53 in absolute
    value, an order greater than each of them (from 2^53 on, adding 1 to a
    number may return the number); the first item of a list gets order 0. *)
Theorem X15_POST_item_order_is_next (id : string) (body : option CreateItemRequest)
    (now : Z) (insertedId : string) (w w' : World) (r : Response) :
  Api.POST_item id body now insertedId w = (r, w') ->
  status r = 201 ->
  exists lst doc,
    Mongo.findOne (Mongo.byEitherId id) (TodoListColl w) = Some lst /\
    r = json (ItemResponse (serializeTodoItem doc)) 201 /\
    TodoItemColl w' = TodoItemColl w ++ [doc] /\
    i_id doc = insertedId /\ listId doc = l_id lst /\ completed doc = false /\
    (exists b t, body = Some b /\ b_text b = Js.JsStr t /\ text doc = String_trim t) /\
    ((forall x, x ∈ TodoItemColl w -> listId x = l_id lst ->
                Z.abs (order x) < Js.maxSafe) ->
     forall x, x ∈ TodoItemColl w -> listId x = l_id lst -> order x < order doc) /\
    ((forall x, x ∈ TodoItemColl w -> listId x <> l_id lst) -> order doc = 0).
Proof.
  unfold Api.POST_item. intros Hp Hst.
  destruct (negb (Utils.isValidShareId id)); [by simplify_eq|].
  destruct body as [b|]; [|by simplify_eq].
  destruct (Api.validateText b) as [r0|t] eqn:Hv;
    [apply validateText_inl in Hv; simplify_eq; lia|].
  assert (Ht : b_text b = Js.JsStr t).
  { unfold Api.validateText in Hv. repeat case_match; by simplify_eq. }
  destruct (Mongo.findOne _ (TodoListColl w)) as [lst|] eqn:Hf; [|by simplify_eq].
  destruct (Utils.detectPermission lst id); [by simplify_eq|].
  destruct (take 1 _) as [|top rest] eqn:Htop.
  - apply SortFacts.sortOrderDesc_none in Htop.
    destruct (Mongo.insertOne _ _ _) as [c|] eqn:Hi; [|by simplify_eq].
    apply insertOne_Some in Hi as ->. simplify_eq.
    eexists lst, _. split; [done|]. split; [reflexivity|]. cbn.
    repeat (split; [done|]). split; [by exists b, t|]. split; [|done].
    intros _ x Hx Hl. exfalso.
    assert (Hin : x ∈ Mongo.findAll (Mongo.byListRef (l_id lst)) (TodoItemColl w)).
    { apply SortFacts.elem_of_findAll. split; [done|]. by apply String.eqb_eq. }
    rewrite Htop in Hin. by apply elem_of_nil in Hin.
  - apply SortFacts.sortOrderDesc_head in Htop as [Htin Hmax].
    destruct (Mongo.insertOne _ _ _) as [c|] eqn:Hi; [|by simplify_eq].
    apply insertOne_Some in Hi as ->. simplify_eq.
    eexists lst, _. split; [done|]. split; [reflexivity|]. cbn.
    repeat (split; [done|]). split; [by exists b, t|]. split.
    + intros Hsafe x Hx Hl.
      apply SortFacts.elem_of_findAll in Htin as [Htin Hq]. apply String.eqb_eq in Hq.
      rewrite NumberFacts.add1_exact by (by apply Hsafe).
      assert (order x <= order top); [|lia]. apply Hmax.
      apply SortFacts.elem_of_findAll. split; [done|]. by apply String.eqb_eq.
    + intros Hnone. exfalso.
      apply SortFacts.elem_of_findAll in Htin as [Htin Hq]. apply String.eqb_eq in Hq.
      by apply (Hnone top).
Qed.

(** X16: the item handlers reach the items of the addressed list only:
    whatever the request, an item that belongs to another list than the one
    the identifier finds is still in the collection, unchanged, after an
    item creation, update or deletion. *)
Theorem X16_items_of_other_lists_untouched (id : string) (w : World)
    (it : TodoItemDocument) :
  it ∈ TodoItemColl w ->
  (forall lst, Mongo.findOne (Mongo.byEitherId id) (TodoListColl w) = Some lst ->
               listId it <> l_id lst) ->
  (forall body now insertedId,
      it ∈ TodoItemColl (snd (Api.POST_item id body now insertedId w))) /\
  (forall itemId body now now',
      it ∈ TodoItemColl (snd (Api.PATCH_item id itemId body now now' w))) /\
  (forall itemId now,
      it ∈ TodoItemColl (snd (Api.DELETE_item id itemId now w))).
Proof.
  intros Hin Hother.
  assert (Hq : forall lst oid,
             Mongo.findOne (Mongo.byEitherId id) (TodoListColl w) = Some lst ->
             Mongo.byItem oid (l_id lst) it = false).
  { intros lst oid Hf. unfold Mongo.byItem. apply andb_false_iff. right.
    apply String.eqb_neq. by apply Hother. }
  split; [|split].
  - intros body now insertedId.
    destruct (Api.POST_item _ _ _ _ _) as [r w'] eqn:E. cbn [snd].
    apply POST_item_effect in E as [[_ ->]|(_ & lst & item & _ & _ & ->)]; [done|].
    cbn. apply elem_of_app. by left.
  - intros itemId body now now'.
    destruct (Api.PATCH_item _ _ _ _ _ _) as [r w'] eqn:E. cbn [snd].
    apply PATCH_item_effect in E as [[_ ->]|(_ & lst & oid & fields & Hf & _ & ->)]; [done|].
    cbn. apply MongoFacts.updateOne_keeps; [done | by apply Hq].
  - intros itemId now.
    destruct (Api.DELETE_item _ _ _ _) as [r w'] eqn:E. cbn [snd].
    apply DELETE_item_effect in E as [[_ ->]|(_ & lst & oid & Hf & _ & ->)]; [done|].
    cbn. apply MongoFacts.deleteOne_keeps; [done | by apply Hq].
Qed.

(** X17: a list deletion that succeeds removes one record from the TodoList
    collection, the one found by the shareId, and from the TodoItem
    collection the items that refer to it; every other list and every item
    of another list stays, and nothing is added. *)
Theorem X17_DELETE_list_removes_only_that_list (cookie : option string) (id : string)
    (w w' : World) (r : Response) :
  Api.DELETE_list cookie id w = (r, w') ->
  status r = 200 ->
  exists lst,
    Mongo.findOne (Mongo.byShareId id) (TodoListColl w) = Some lst /\
    S (length (TodoListColl w')) = length (TodoListColl w) /\
    (forall d, d ∈ TodoListColl w -> l_id d <> l_id lst -> d ∈ TodoListColl w') /\
    (forall d, d ∈ TodoListColl w' -> d ∈ TodoListColl w) /\
    (forall it, it ∈ TodoItemColl w' <-> it ∈ TodoItemColl w /\ listId it <> l_id lst) /\
    randomCalls w' = randomCalls w.
Proof.
  intros E Hst.
  apply DELETE_list_effect in E as [[? _]|(_ & auth & lst & _ & Hf & _ & ->)]; [done|].
  exists lst. cbn. split; [done|].
  assert (Hin : lst ∈ TodoListColl w) by (by eapply MongoFacts.findOne_Some).
  split; [|split; [|split; [|split; [|done]]]].
  - destruct (Mongo.findOne (Mongo.byListId (l_id lst)) (TodoListColl w)) as [x|] eqn:Hx.
    + by eapply deleteOne_length.
    + apply (MongoFacts.findOne_None _ _ lst) in Hx; [|done].
      unfold Mongo.byListId in Hx. by rewrite String.eqb_refl in Hx.
  - intros d Hd Hne. apply MongoFacts.deleteOne_keeps; [done|].
    unfold Mongo.byListId. by apply String.eqb_neq.
  - intros d. apply MongoFacts.deleteOne_sub.
  - intros it. unfold Mongo.deleteMany. rewrite !list_elem_of_In, filter_In.
    unfold Mongo.byListRef. rewrite negb_true_iff, String.eqb_neq. done.
Qed.

(** X18: through the edit identifier and with a title that passes the
    checks, PATCH /api/lists/[shareId] answers 200 with the record as
    updated, stores the trimmed title and the new [updatedAt] on the list
    found and leaves its identifiers, its owner, every other list and all
    items as they were. *)
Theorem X18_PATCH_list_updates_title (id : string) (b : TitleRequest) (t : string)
    (now : Z) (w : World) (lst : TodoListDocument) :
  uniqueKeys (TodoListColl w) ->
  Utils.isValidShareId id = true ->
  Api.validateTitle b = inr t ->
  Mongo.findOne (Mongo.byEitherId id) (TodoListColl w) = Some lst ->
  Utils.detectPermission lst id = edit ->
  let out := Api.PATCH_list id (Some b) now w in
  fst out = json (ListResponse (serializeTodoList (setTitle (String_trim t) now lst))) 200 /\
  Mongo.findOne (Mongo.byListId (l_id lst)) (TodoListColl (snd out))
    = Some (setTitle (String_trim t) now lst) /\
  (forall d, d ∈ TodoListColl w -> l_id d <> l_id lst -> d ∈ TodoListColl (snd out)) /\
  length (TodoListColl (snd out)) = length (TodoListColl w) /\
  TodoItemColl (snd out) = TodoItemColl w /\
  shareId (setTitle (String_trim t) now lst) = shareId lst /\
  viewId (setTitle (String_trim t) now lst) = viewId lst /\
  userId (setTitle (String_trim t) now lst) = userId lst.
Proof.
  intros Hk Hvalid Hb Hf Hp out.
  assert (Hin : lst ∈ TodoListColl w) by (by eapply MongoFacts.findOne_Some).
  assert (Hkey : Mongo.findOne (Mongo.byListId (l_id lst)) (TodoListColl w) = Some lst)
    by (by apply MongoFacts.findOne_byListId).
  assert (Hout : out =
    (json (ListResponse (serializeTodoList (setTitle (String_trim t) now lst))) 200,
     withLists (Mongo.updateOne (Mongo.byListId (l_id lst)) (setTitle (String_trim t) now)
                  (TodoListColl w)) w)).
  { subst out. unfold Api.PATCH_list, Mongo.findOneAndUpdate.
    by rewrite Hvalid, Hb, Hf, Hp, Hkey. }
  rewrite Hout. cbn [fst snd TodoListColl TodoItemColl withLists].
  split; [done|]. split; [|split; [|split; [|done]]].
  - apply MongoFacts.findOne_updateOne; [done..|].
    unfold Mongo.byListId. cbn. apply String.eqb_refl.
  - intros d Hd Hne. apply MongoFacts.updateOne_keeps; [done|].
    unfold Mongo.byListId. by apply String.eqb_neq.
  - clear. induction (TodoListColl w) as [|d c IH]; cbn; [done|].
    destruct (Mongo.byListId _ d); cbn; by rewrite ?IH.
Qed.

End Mutations.

(** Alice's listing holds her list and not the record without owner. *)
Lemma X13_witness :
  exists lists,
    Api.GET_lists (H := Demo.externals) (Some "alice-token") Demo.world
      = json (ListsResponse lists) 200 /\
    Sorted (fun a b => a_updatedAt b <= a_updatedAt a) lists.
Proof.
  destruct (X13_GET_lists_owned_and_sorted (H := Demo.externals) (Some "alice-token")
              Demo.alice "64a000000000000000000001" Demo.world eq_refl eq_refl)
    as (lists & Hr & _ & _ & Hs).
  exists lists. split; [exact Hr | exact Hs].
Defined.


(** A second item of the groceries list is ordered after the first. *)
Lemma X15_witness :
  exists doc,
    TodoItemColl (snd (Api.POST_item (H := Demo.externals) "k3mf8qp2x"
                         (Some {| b_text := Js.JsStr " Buy eggs " |})
                         3000 "64c000000000000000000002" Demo.world))
      = [Demo.milk; doc] /\
    order Demo.milk < order doc.
Proof.
  destruct (X15_POST_item_order_is_next (H := Demo.externals) "k3mf8qp2x"
              (Some {| b_text := Js.JsStr " Buy eggs " |}) 3000 "64c000000000000000000002"
              Demo.world _ _ (surjective_pairing _) eq_refl)
    as (lst & doc & Hf & _ & Hc & _ & Hl & _ & _ & Hlt & _).
  exists doc. split; [exact Hc|].
  injection Hf as <-. apply Hlt; [|by left | reflexivity].
  intros x Hx _. apply list_elem_of_singleton in Hx as ->. by vm_compute.
Defined.

(** The item of the groceries list outlives a deletion addressed to the
    legacy list with the same item identifier. *)
Lemma X16_witness :
  Demo.milk ∈ TodoItemColl (snd (Api.DELETE_item (H := Demo.externals) "legacy001"
                                   "64c000000000000000000001" 3000 Demo.world)).
Proof.
  refine (proj2 (proj2 (X16_items_of_other_lists_untouched (H := Demo.externals)
                          "legacy001" Demo.world Demo.milk _ _))
            "64c000000000000000000001" 3000).
  - by left.
  - intros lst Hf. injection Hf as <-. discriminate.
Defined.

(** Alice deletes the groceries list: one list less, and no item left. *)
Lemma X17_witness :
  exists lst,
    Mongo.findOne (Mongo.byShareId "k3mf8qp2x") (TodoListColl Demo.world) = Some lst /\
    S (length (TodoListColl (snd (Api.DELETE_list (H := Demo.externals)
                                    (Some "alice-token") "k3mf8qp2x" Demo.world))))
      = length (TodoListColl Demo.world).
Proof.
  destruct (X17_DELETE_list_removes_only_that_list (H := Demo.externals)
              (Some "alice-token") "k3mf8qp2x" Demo.world _ _
              (surjective_pairing _) eq_refl)
    as (lst & Hf & Hlen & _).
  exists lst. split; [exact Hf | exact Hlen].
Defined.

(** The groceries list renamed through its edit identifier. *)
Lemma X18_witness :
  Mongo.findOne (Mongo.byListId "64b000000000000000000001")
    (TodoListColl (snd (Api.PATCH_list (H := Demo.externals) "k3mf8qp2x" (Some {| b_title := Js.JsStr " Food " |})
                          3000 Demo.world)))
    = Some (setTitle "Food" 3000 Demo.groceries).
Proof.
  refine (proj1 (proj2 (X18_PATCH_list_updates_title (H := Demo.externals) "k3mf8qp2x"
                          {| b_title := Js.JsStr " Food " |} " Food " 3000 Demo.world
                          Demo.groceries _ eq_refl eq_refl eq_refl eq_refl))).
  exact demo_uniqueKeys.
Defined.

(** ** A list from creation to deletion *)

Section LifeCycle.
Context `{Externals}.

Lemma generateIds_valid (fuel attempts k k' : nat) (coll : list TodoListDocument)
    (s v : string) :
  Api.generateIds fuel attempts k coll = Some (Fresh (s, v), k') ->
  Utils.isValidShareId s = true /\ Utils.isValidShareId v = true /\ Js.isEmpty v = false.
Proof.
  revert attempts k. induction fuel as [|fuel IH]; intros attempts k;
    cbn [Api.generateIds]; [discriminate|].
  destruct (String.eqb _ _); [apply IH|].
  destruct (Mongo.findOne _ coll).
  - destruct (maxAttempts <=? S attempts)%nat; [discriminate | apply IH].
  - intros [= <- <- <-].
    split; [apply generateShareId_valid|].
    split; [apply generateShareId_valid | apply generateShareId_nonempty].
Qed.

Lemma POST_lists_created (fuel : nat) (cookie : option string) (body : option TitleRequest)
    (now : Z) (insertedId : string) (w w' : World) (r : Response) :
  Api.POST_lists fuel cookie body now insertedId w = Some (r, w') ->
  status r = 201 ->
  exists auth uid b t s v k,
    Auth.requireAuth cookie = Some auth /\ ObjectId_new (auth_userId auth) = Some uid /\
    body = Some b /\ Api.validateTitle b = inr t /\
    Api.generateIds fuel 0 (randomCalls w) (TodoListColl w) = Some (Fresh (s, v), k) /\
    r = json (ListResponse (serializeTodoList
                {| l_id := insertedId; userId := Some uid; shareId := s; viewId := Some v;
                   title := String_trim t; createdAt := now; updatedAt := now |})) 201 /\
    w' = withLists (TodoListColl w ++
                    [{| l_id := insertedId; userId := Some uid; shareId := s;
                        viewId := Some v; title := String_trim t; createdAt := now;
                        updatedAt := now |}]) (withRandomCalls k w) /\
    (forall x, x ∈ TodoListColl w -> l_id x <> insertedId).
Proof.
  unfold Api.POST_lists. intros Hp Hst.
  destruct (Auth.requireAuth cookie) as [auth|]; [|by simplify_eq].
  destruct body as [b|]; [|by simplify_eq].
  destruct (Api.validateTitle b) as [r0|t] eqn:Hv;
    [apply validateTitle_inl in Hv; simplify_eq; lia|].
  destruct (Api.generateIds _ _ _ _) as [[[[s v]|] k]|] eqn:Hg; [|by simplify_eq..].
  destruct (ObjectId_new (auth_userId auth)) as [uid|] eqn:Ho; [|by simplify_eq].
  destruct (Mongo.insertOne _ _ _) as [c|] eqn:Hi; [|by simplify_eq].
  pose proof (fun x => insertOne_fresh _ _ _ _ x Hi) as Hkey.
  apply insertOne_Some in Hi as ->. simplify_eq.
  exists auth, uid, b, t, s, v, k. repeat (split; [done|]). exact Hkey.
Qed.

Lemma deleteOne_appended {A : Type} (q : A -> bool) (c : list A) (d : A) :
  Mongo.findOne q c = None -> q d = true -> snd (Mongo.deleteOne q (c ++ [d])) = c.
Proof.
  unfold Mongo.findOne. induction c as [|x c IH]; cbn; intros Hn Hq.
  - by rewrite Hq.
  - destruct (q x); [done|]. specialize (IH Hn Hq).
    destruct (Mongo.deleteOne q (c ++ [d])). cbn in *. by rewrite IH.
Qed.

(** X20: a list created through POST /api/lists can at once be read through
    the shareId of the answer, with permission [edit], and through the
    viewId, with permission [view]; neither read writes.  A deletion through
    the viewId answers 404, a deletion through the shareId by another
    identity answers 403, and a deletion through the shareId by the creator
    (whose userId is an ObjectId in canonical form) answers 200 and leaves
    the TodoList collection as it was before the creation. *)
Theorem X20_created_list_life_cycle (fuel fuel' : nat) (cookie : option string)
    (body : option TitleRequest) (now now' : Z) (insertedId : string) (w w1 : World)
    (r : Response) (auth : AuthContext) :
  Api.POST_lists fuel cookie body now insertedId w = Some (r, w1) ->
  status r = 201 ->
  Auth.requireAuth cookie = Some auth ->
  ObjectId_new (auth_userId auth) = Some (auth_userId auth) ->
  exists d v,
    r = json (ListResponse (serializeTodoList d)) 201 /\
    viewId d = Some v /\ userId d = Some (auth_userId auth) /\
    Api.GET_list fuel' (shareId d) now' w1 = Some (Api.respondList d (shareId d) w1, w1) /\
    Api.GET_list fuel' v now' w1 = Some (Api.respondList d v w1, w1) /\
    Utils.detectPermission d (shareId d) = edit /\
    Utils.detectPermission d v = view /\
    Api.DELETE_list cookie v w1 = (errorJson "List not found" 404, w1) /\
    (forall cookie' auth',
        Auth.requireAuth cookie' = Some auth' -> auth_userId auth' <> auth_userId auth ->
        Api.DELETE_list cookie' (shareId d) w1
          = (errorJson "Forbidden: Only the list owner can delete this list" 403, w1)) /\
    fst (Api.DELETE_list cookie (shareId d) w1)
      = json (MessageResponse "List deleted successfully") 200 /\
    TodoListColl (snd (Api.DELETE_list cookie (shareId d) w1)) = TodoListColl w.
Proof.
  intros Hp Hst Ha Ho.
  apply POST_lists_created in Hp
    as (auth0 & uid & b & t & s & v & k & Ha0 & Ho0 & -> & Hv & Hg & -> & -> & Hkey);
    [|done].
  rewrite Ha in Ha0. injection Ha0 as <-. rewrite Ho in Ho0. injection Ho0 as <-.
  pose proof (generateIds_valid _ _ _ _ _ _ _ Hg) as (Hsv & Hvv & Hve).
  apply generateIds_Fresh in Hg as (Hne & Hs & Hv').
  set (d := {| l_id := insertedId; userId := Some (auth_userId auth); shareId := s;
               viewId := Some v; title := String_trim t; createdAt := now; updatedAt := now |}).
  set (w1 := withLists (TodoListColl w ++ [d]) (withRandomCalls k w)).
  assert (Hfs : forall q, (forall x, x ∈ TodoListColl w -> q x = false) -> q d = true ->
                          Mongo.findOne q (TodoListColl w1) = Some d).
  { intros q Hq Hd. cbn. apply findOne_appended; [|done].
    by apply MongoFacts.findOne_None_iff. }
  assert (Hnot : forall id x, id ∉ allIds (TodoListColl w) -> x ∈ TodoListColl w ->
                              Mongo.byEitherId id x = false).
  { intros id x Hid Hx. destruct (Mongo.byEitherId id x) eqn:E; [|done].
    exfalso. apply Hid. apply IdFacts.elem_of_allIds. exists x. split; [done|].
    by apply byEitherId_ids. }
  assert (Hds : Mongo.findOne (Mongo.byEitherId s) (TodoListColl w1) = Some d).
  { apply Hfs; [intros x Hx; by apply Hnot|].
    unfold Mongo.byEitherId, Mongo.byShareId. cbn. by rewrite String.eqb_refl. }
  assert (Hdv : Mongo.findOne (Mongo.byEitherId v) (TodoListColl w1) = Some d).
  { apply Hfs; [intros x Hx; by apply Hnot|].
    unfold Mongo.byEitherId, Mongo.byViewId. cbn.
    rewrite String.eqb_refl. apply orb_true_r. }
  assert (Hshare : forall id x, id ∉ allIds (TodoListColl w) -> x ∈ TodoListColl w ->
                                Mongo.byShareId id x = false).
  { intros id x Hid Hx. specialize (Hnot id x Hid Hx).
    unfold Mongo.byEitherId in Hnot. by apply orb_false_iff in Hnot as [? _]. }
  assert (Hdd : Mongo.findOne (Mongo.byShareId s) (TodoListColl w1) = Some d).
  { apply Hfs; [intros x Hx; by apply Hshare|].
    unfold Mongo.byShareId. cbn. apply String.eqb_refl. }
  assert (Hl : lacksViewId d = false) by exact Hve.
  exists d, v. split; [done|]. split; [done|]. split; [done|].
  split; [|split; [|split; [|split; [|split; [|split; [|split]]]]]].
  - unfold Api.GET_list. change (shareId d) with s. by rewrite Hsv, Hds, Hl.
  - unfold Api.GET_list. by rewrite Hvv, Hdv, Hl.
  - by apply detectPermission_edit_iff.
  - apply detectPermission_view_iff. cbn. congruence.
  - unfold Api.DELETE_list. rewrite Ha, Hvv. cbn [negb].
    replace (Mongo.findOne (Mongo.byShareId v) (TodoListColl w1)) with (@None TodoListDocument);
      [done|].
    symmetry. apply MongoFacts.findOne_None_iff. intros x Hx. cbn in Hx.
    apply elem_of_app in Hx as [Hx|Hx]; [by apply Hshare|].
    apply list_elem_of_singleton in Hx as ->. unfold Mongo.byShareId. cbn.
    by apply String.eqb_neq.
  - intros cookie' auth' Ha' Hother. unfold Api.DELETE_list.
    change (shareId d) with s. rewrite Ha', Hsv, Hdd. cbn [negb userId d].
    replace (String.eqb (auth_userId auth) (auth_userId auth')) with false; [done|].
    symmetry. apply String.eqb_neq. congruence.
  - unfold Api.DELETE_list. change (shareId d) with s. rewrite Ha, Hsv, Hdd.
    cbn [negb userId d]. by rewrite String.eqb_refl.
  - unfold Api.DELETE_list. change (shareId d) with s. rewrite Ha, Hsv, Hdd.
    cbn [negb userId d]. rewrite String.eqb_refl. cbn.
    apply deleteOne_appended.
    + apply MongoFacts.findOne_None_iff. intros x Hx. unfold Mongo.byListId.
      apply String.eqb_neq. by apply Hkey.
    + unfold Mongo.byListId. apply String.eqb_refl.
Qed.

End LifeCycle.

(** ** What validation lets into the store *)

Section Bounds.
Context `{Externals}.

(** What the section assumes of the builtins: a length is not negative, and
    [trim] only removes characters. *)
Hypothesis length_nonneg : forall s, 0 <= String_length s.
Hypothesis trim_shortens : forall s, String_length (String_trim s) <= String_length s.

Lemma validateTitle_inr (b : TitleRequest) (t : string) :
  Api.validateTitle b = inr t -> 0 < String_length (String_trim t) <= 200.
Proof.
  unfold Api.validateTitle. intros Hv.
  destruct (b_title b) as [| |?|?| |s|]; try discriminate.
  destruct (Js.isEmpty s); [discriminate|].
  destruct (Z.eqb_spec (String_length (String_trim s)) 0); [discriminate|].
  destruct (Z.ltb_spec 200 (String_length s)); [discriminate|].
  injection Hv as <-.
  pose proof (length_nonneg (String_trim s)). pose proof (trim_shortens s). lia.
Qed.

Lemma validateText_inr (b : CreateItemRequest) (t : string) :
  Api.validateText b = inr t -> 0 < String_length (String_trim t) <= 500.
Proof.
  unfold Api.validateText. intros Hv.
  destruct (b_text b) as [| |?|?| |s|]; try discriminate.
  destruct (Js.isEmpty s); [discriminate|].
  destruct (Z.eqb_spec (String_length (String_trim s)) 0); [discriminate|].
  destruct (Z.ltb_spec 500 (String_length s)); [discriminate|].
  injection Hv as <-.
  pose proof (length_nonneg (String_trim s)). pose proof (trim_shortens s). lia.
Qed.

Lemma validateUpdate_inr (b : UpdateItemRequest) (now : Z) (u : UpdateFields) :
  Api.validateUpdate b now = inr u ->
  (forall t, uf_text u = Some t -> 0 < String_length t <= 500) /\
  (forall n, uf_order u = Some n -> 0 <= n).
Proof.
  unfold Api.validateUpdate. intros Hv.
  destruct (_ && _); [discriminate|].
  assert (Hord : forall t c,
             match p_order b with
             | Js.JsUndefined =>
                 inr {| uf_updatedAt := now; uf_text := t; uf_completed := c;
                        uf_order := None |}
             | Js.JsNum n =>
                 if n <? 0 then inl (errorJson "Order must be a non-negative integer" 400)
                 else inr {| uf_updatedAt := now; uf_text := t; uf_completed := c;
                             uf_order := Some n |}
             | _ => inl (errorJson "Order must be a non-negative integer" 400)
             end = inr u ->
             uf_text u = t /\ forall n, uf_order u = Some n -> 0 <= n).
  { intros t c Ho. destruct (p_order b) as [| |?|n| |?|]; try discriminate.
    - injection Ho as <-. by split.
    - destruct (Z.ltb_spec n 0); [discriminate|]. injection Ho as <-. cbn.
      split; [done|]. intros ? [= <-]. lia. }
  assert (Hcomp : forall t,
             match p_completed b with
             | Js.JsUndefined =>
                 match p_order b with
                 | Js.JsUndefined =>
                     inr {| uf_updatedAt := now; uf_text := t; uf_completed := None;
                            uf_order := None |}
                 | Js.JsNum n =>
                     if n <? 0
                     then inl (errorJson "Order must be a non-negative integer" 400)
                     else inr {| uf_updatedAt := now; uf_text := t; uf_completed := None;
                                 uf_order := Some n |}
                 | _ => inl (errorJson "Order must be a non-negative integer" 400)
                 end
             | Js.JsBool c =>
                 match p_order b with
                 | Js.JsUndefined =>
                     inr {| uf_updatedAt := now; uf_text := t; uf_completed := Some c;
                            uf_order := None |}
                 | Js.JsNum n =>
                     if n <? 0
                     then inl (errorJson "Order must be a non-negative integer" 400)
                     else inr {| uf_updatedAt := now; uf_text := t; uf_completed := Some c;
                                 uf_order := Some n |}
                 | _ => inl (errorJson "Order must be a non-negative integer" 400)
                 end
             | _ => inl (errorJson "Completed must be a boolean" 400)
             end = inr u ->
             uf_text u = t /\ forall n, uf_order u = Some n -> 0 <= n).
  { intros t Hc. destruct (p_completed b) as [| |c|?| |?|]; try discriminate;
      by apply Hord in Hc. }
  destruct (p_text b) as [| |?|?| |s|]; try discriminate.
  - apply Hcomp in Hv as [Ht Ho]. split; [|done]. intros t. rewrite Ht. discriminate.
  - destruct (Z.eqb_spec (String_length (String_trim s)) 0); [discriminate|].
    destruct (Z.ltb_spec 500 (String_length s)); [discriminate|].
    apply Hcomp in Hv as [Ht Ho]. split; [|done]. intros t. rewrite Ht. intros [= <-].
    pose proof (length_nonneg (String_trim s)). pose proof (trim_shortens s). lia.
Qed.

Lemma updateOne_bounded_titles (q : TodoListDocument -> bool)
    (f : TodoListDocument -> TodoListDocument) (c : list TodoListDocument) :
  boundedTitles c ->
  (forall d, 0 < String_length (title d) <= 200 -> 0 < String_length (title (f d)) <= 200) ->
  boundedTitles (Mongo.updateOne q f c).
Proof.
  intros Hb Hf d Hd.
  apply MongoFacts.updateOne_elem in Hd as [Hd|(x & Hx & _ & ->)];
    [by apply Hb | apply Hf, Hb, Hx].
Qed.

Lemma updateOne_bounded_items (q : TodoItemDocument -> bool)
    (f : TodoItemDocument -> TodoItemDocument) (c : list TodoItemDocument) :
  boundedItems c ->
  (forall i, 0 < String_length (text i) <= 500 /\ 0 <= order i ->
             0 < String_length (text (f i)) <= 500 /\ 0 <= order (f i)) ->
  boundedItems (Mongo.updateOne q f c).
Proof.
  intros Hb Hf d Hd.
  apply MongoFacts.updateOne_elem in Hd as [Hd|(x & Hx & _ & ->)];
    [by apply Hb | apply Hf, Hb, Hx].
Qed.

Lemma PATCH_list_titles (id : string) (body : option TitleRequest) (now : Z) (w : World) :
  boundedTitles (TodoListColl w) ->
  boundedTitles (TodoListColl (snd (Api.PATCH_list id body now w))).
Proof.
  intros Hb. unfold Api.PATCH_list.
  destruct (negb _); [done|]. destruct body as [b|]; [|done].
  destruct (Api.validateTitle b) as [r|t] eqn:Hv; [done|].
  apply validateTitle_inr in Hv.
  destruct (Mongo.findOne _ _) as [lst|]; [|done].
  destruct (Utils.detectPermission lst id); [done|].
  unfold Mongo.findOneAndUpdate.
  assert (Hu : boundedTitles (Mongo.updateOne (Mongo.byListId (l_id lst))
                                (setTitle (String_trim t) now) (TodoListColl w)))
    by (by apply updateOne_bounded_titles).
  by destruct (Mongo.findOne _ _).
Qed.

Lemma POST_item_items (id : string) (body : option CreateItemRequest) (now : Z)
    (insertedId : string) (w : World) :
  boundedItems (TodoItemColl w) ->
  boundedItems (TodoItemColl (snd (Api.POST_item id body now insertedId w))).
Proof.
  intros Hb. unfold Api.POST_item.
  destruct (negb _); [done|]. destruct body as [b|]; [|done].
  destruct (Api.validateText b) as [r|t] eqn:Hv; [done|].
  apply validateText_inr in Hv.
  destruct (Mongo.findOne _ _) as [lst|]; [|done].
  destruct (Utils.detectPermission lst id); [done|].
  assert (Hnext : 0 <= match take 1 (Mongo.sortOrderDesc
                                (Mongo.findAll (Mongo.byListRef (l_id lst)) (TodoItemColl w)))
                       with
                       | i :: _ => Js.add1 (order i)
                       | [] => 0
                       end).
  { destruct (take 1 _) as [|top rest] eqn:Htop; [done|].
    apply SortFacts.sortOrderDesc_head in Htop as [Htin _].
    apply SortFacts.elem_of_findAll in Htin as [Htin _].
    apply Hb in Htin. apply NumberFacts.add1_nonneg. lia. }
  destruct (Mongo.insertOne _ _ _) as [c|] eqn:Hi; [|done].
  apply insertOne_Some in Hi as ->. cbn.
  intros i [Hi|Hi]%elem_of_app; [by apply Hb|].
  apply list_elem_of_singleton in Hi as ->. by cbn.
Qed.

Lemma PATCH_item_items (id itemId : string) (body : option UpdateItemRequest)
    (now now' : Z) (w : World) :
  boundedItems (TodoItemColl w) ->
  boundedItems (TodoItemColl (snd (Api.PATCH_item id itemId body now now' w))).
Proof.
  intros Hb. unfold Api.PATCH_item.
  destruct (negb _); [done|]. destruct (negb _); [done|].
  destruct body as [b|]; [|done].
  destruct (Api.validateUpdate b now) as [r|u] eqn:Hv; [done|].
  apply validateUpdate_inr in Hv as [Ht Ho].
  destruct (Mongo.findOne _ _) as [lst|]; [|done].
  destruct (Utils.detectPermission lst id); [done|].
  destruct (ObjectId_new itemId) as [oid|]; [|done].
  unfold Mongo.findOneAndUpdate.
  assert (Hu : boundedItems (Mongo.updateOne (Mongo.byItem oid (l_id lst))
                               (setItemFields u) (TodoItemColl w))).
  { apply updateOne_bounded_items; [done|]. intros i [Hi1 Hi2]. cbn.
    split.
    - destruct (uf_text u) as [t|]; [by apply Ht | done].
    - destruct (uf_order u) as [n|]; [by apply Ho | done]. }
  by destruct (Mongo.findOne _ _).
Qed.

(** X19: the checks of the handlers bound what the store holds.  Given that
    a length is never negative and that [trim] never lengthens a string: if
    every stored title has a length of 1 to 200 and every stored item a
    text of a length of 1 to 500 and an order of at least 0, the same is
    true after any request, whatever its body. *)
Theorem X19_validation_bounds_the_store (fuel : nat) (rq : Api.Request) (w w' : World)
    (rep : Api.Reply) :
  boundedTitles (TodoListColl w) -> boundedItems (TodoItemColl w) ->
  Api.handle fuel rq w = Some (rep, w') ->
  boundedTitles (TodoListColl w') /\ boundedItems (TodoItemColl w').
Proof.
  intros Ht Hi Hh.
  assert (Htouch : forall q f, (forall d, title (f d) = title d) ->
                     boundedTitles (Mongo.updateOne q f (TodoListColl w))).
  { intros q f Hf. apply updateOne_bounded_titles; [done|]. intros d. by rewrite Hf. }
  destruct rq; cbn [Api.handle] in Hh.
  - by simplify_eq.
  - destruct (Api.POST_lists _ _ _ _ _ _) as [[r w1]|] eqn:E;
      unfold Api.reply in Hh; cbn in Hh; simplify_eq.
    destruct (decide (status r = 201)) as [Hst|Hst].
    + apply POST_lists_created in E
        as (auth & uid & b & t & s & v & k & _ & _ & _ & Hv & _ & _ & -> & _); [|done].
      apply validateTitle_inr in Hv. cbn. split; [|done].
      intros d [Hd|Hd]%elem_of_app; [by apply Ht|].
      apply list_elem_of_singleton in Hd as ->. by cbn.
    + apply POST_lists_effect in E as [(_ & -> & ->)|[? _]]; done.
  - destruct (Api.GET_list _ _ _ _) as [[r w1]|] eqn:E;
      unfold Api.reply in Hh; cbn in Hh; simplify_eq.
    apply GET_list_effect in E
      as [[-> _]|[(lst & k & _ & _ & _ & ->)|(lst & v & k & _ & _ & _ & _ & -> & _)]];
      cbn; [done..|]. split; [by apply Htouch | done].
  - destruct (Api.PATCH_list _ _ _ _) as [r w1] eqn:E;
      unfold Api.reply in Hh; cbn in Hh; simplify_eq.
    split.
    + change w' with (snd (r, w')). rewrite <- E. by apply PATCH_list_titles.
    + apply PATCH_list_effect in E as [[_ ->]|(_ & lst & t & _ & _ & ->)]; done.
  - destruct (Api.DELETE_list _ _ _) as [r w1] eqn:E;
      unfold Api.reply in Hh; cbn in Hh; simplify_eq.
    apply DELETE_list_effect in E as [[_ ->]|(_ & auth & lst & _ & _ & _ & ->)]; [done|].
    cbn. split.
    + intros d Hd. apply Ht. by apply MongoFacts.deleteOne_sub in Hd.
    + intros i Hd. apply Hi. unfold Mongo.deleteMany in Hd.
      apply list_elem_of_In, filter_In in Hd as [Hd _]. by apply list_elem_of_In.
  - destruct (Api.POST_item _ _ _ _ _) as [r w1] eqn:E;
      unfold Api.reply in Hh; cbn in Hh; simplify_eq.
    split.
    + apply POST_item_effect in E as [[_ ->]|(_ & lst & item & _ & _ & ->)]; [done|].
      cbn. by apply Htouch.
    + change w' with (snd (r, w')). rewrite <- E. by apply POST_item_items.
  - destruct (Api.PATCH_item _ _ _ _ _ _) as [r w1] eqn:E;
      unfold Api.reply in Hh; cbn in Hh; simplify_eq.
    split.
    + apply PATCH_item_effect in E as [[_ ->]|(_ & lst & oid & fields & _ & _ & ->)]; [done|].
      cbn. by apply Htouch.
    + change w' with (snd (r, w')). rewrite <- E. by apply PATCH_item_items.
  - destruct (Api.DELETE_item _ _ _ _) as [r w1] eqn:E;
      unfold Api.reply in Hh; cbn in Hh; simplify_eq.
    apply DELETE_item_effect in E as [[_ ->]|(_ & lst & oid & _ & _ & ->)]; [done|].
    cbn. split; [by apply Htouch|].
    intros i Hd. apply Hi. by apply MongoFacts.deleteOne_sub in Hd.
  - destruct (Api.ListPage _ _ _ _ _) as [[p w1]|] eqn:E;
      unfold Api.reply in Hh; cbn in Hh; simplify_eq.
    apply ListPage_effect in E
      as [->|[(lst & k & _ & _ & _ & ->)|(lst & v & k & _ & _ & _ & -> & _)]];
      cbn; [done..|]. split; [by apply Htouch | done].
Qed.

End Bounds.

(** ** lib/middleware/auth.ts: checkOwnership *)

Section OwnershipHelper.
Context `{Externals}.

(** X21: [checkOwnership], on the collection it reads, answers true for at
    most one user per identifier, and only when that collection holds a
    record with that user as [userId] which the identifier addresses by
    [_id] (when it makes an ObjectId) or else by shareId; a record without
    [userId] and a viewId make nobody an owner. *)
Theorem X21_checkOwnership_is_exclusive (uid listId : string)
    (todolists : list TodoListDocument) :
  checkOwnership uid listId todolists = true ->
  (exists l, l ∈ todolists /\ userId l = Some uid /\
             (ObjectId_new listId = Some (l_id l) \/
              (ObjectId_new listId = None /\ shareId l = listId))) /\
  (forall uid', checkOwnership uid' listId todolists = true -> uid' = uid).
Proof.
  unfold checkOwnership. intros Hc.
  set (found := match ObjectId_new listId with
                | Some oid => Mongo.findOne (Mongo.byListId oid) todolists
                | None => Mongo.findOne (Mongo.byShareId listId) todolists
                end) in *.
  destruct found as [l|] eqn:Hf; [|discriminate].
  destruct (userId l) as [u|] eqn:Hu; [|discriminate].
  apply String.eqb_eq in Hc as ->. split.
  - exists l. subst found.
    destruct (ObjectId_new listId) as [oid|];
      apply MongoFacts.findOne_Some in Hf as [Hin Hq].
    + split; [done|]. split; [done|]. left.
      unfold Mongo.byListId in Hq. apply String.eqb_eq in Hq. by rewrite Hq.
    + split; [done|]. split; [done|]. right. split; [done|].
      unfold Mongo.byShareId in Hq. by apply String.eqb_eq in Hq.
  - intros uid' Hc'. symmetry. by apply String.eqb_eq.
Qed.

End OwnershipHelper.

(** ** app/list/[shareId]/page.tsx against GET /api/lists/[shareId] *)

Section PageAndApi.
Context `{Externals}.

(** X22: for a list that has its viewId, the page of /list/[id] shows what
    GET /api/lists/[id] answers: the same record, the same items in the same
    order and the same permission, which depends on the identifier alone;
    neither writes.  The page marks the visitor as owner exactly when the
    cookie verifies to the [userId] of the list, also through the view
    identifier, where the permission stays [view]; without a cookie there is
    no owner mark and no email. *)
Theorem X22_page_shows_what_the_api_answers (fuel : nat) (id : string)
    (cookie : option string) (now : Z) (w : World) (lst : TodoListDocument) :
  Utils.isValidShareId id = true ->
  Mongo.findOne (Mongo.byEitherId id) (TodoListColl w) = Some lst ->
  lacksViewId lst = false ->
  exists items isOwner email,
    Api.ListPage fuel id cookie now w
      = Some (ListView (serializeTodoList lst) items (Utils.detectPermission lst id)
                isOwner email, w) /\
    Api.GET_list fuel id now w
      = Some (json (GetListResponse
                      (Api.withPermission (Utils.detectPermission lst id)
                         (serializeTodoList lst)) items) 200, w) /\
    (isOwner = true <->
     exists token auth, cookie = Some token /\ Auth.verifyToken token = Some auth /\
                        userId lst = Some (auth_userId auth)) /\
    (cookie = None -> isOwner = false /\ email = None).
Proof.
  intros Hvalid Hf Hl. unfold Api.ListPage, Api.GET_list, Api.respondList.
  rewrite Hvalid, Hf, Hl. cbn [negb].
  eexists _, _, _. split; [reflexivity|]. split; [reflexivity|]. split.
  - destruct cookie as [token|]; cbn.
    + destruct (Auth.verifyToken token) as [auth|] eqn:Hv; cbn.
      * destruct (userId lst) as [u|] eqn:Hu.
        -- rewrite String.eqb_eq. split.
           ++ intros ->. by exists token, auth.
           ++ intros (token' & auth' & [= <-] & Hv' & [= ->]).
              rewrite Hv in Hv'. by injection Hv' as <-.
        -- split; [done|]. by intros (? & ? & _ & _ & ?).
      * split; [done|]. intros (token' & auth' & [= <-] & Hv' & _).
        rewrite Hv in Hv'. discriminate.
    + split; [done|]. by intros (? & ? & ? & _).
  - by intros ->.
Qed.

End PageAndApi.

Lemma demo_bounded :
  boundedTitles (H := Demo.externals) (TodoListColl Demo.world) /\
  boundedItems (H := Demo.externals) (TodoItemColl Demo.world).
Proof.
  split; intros d Hd; cbn in Hd;
    repeat (apply elem_of_cons in Hd as [->|Hd]; [by vm_compute|]);
    by apply elem_of_nil in Hd.
Defined.

(** The bounds hold in the store of the examples after a renaming. *)
Lemma X19_witness :
  boundedTitles (H := Demo.externals)
    (TodoListColl (snd (Api.PATCH_list (H := Demo.externals) "k3mf8qp2x"
                          (Some {| b_title := Js.JsStr " Food " |}) 3000 Demo.world))) /\
  boundedItems (H := Demo.externals)
    (TodoItemColl (snd (Api.PATCH_list (H := Demo.externals) "k3mf8qp2x"
                          (Some {| b_title := Js.JsStr " Food " |}) 3000 Demo.world))).
Proof.
  exact (X19_validation_bounds_the_store (H := Demo.externals)
           AsciiFacts.len_nonneg AsciiFacts.trim_len 5
           (Api.ReqPatchList "k3mf8qp2x" (Some {| b_title := Js.JsStr " Food " |}) 3000)
           Demo.world _ _ (proj1 demo_bounded) (proj2 demo_bounded) eq_refl).
Defined.

Lemma demo_created :
  Api.POST_lists (H := Demo.externals) 5 (Some "alice-token") (Some DemoLists.chores) 4000
    "64b000000000000000000003" Demo.world
  = Some (fst DemoLists.created, snd DemoLists.created).
Proof. vm_compute. reflexivity. Defined.

(** Alice's new list cannot be deleted through its view identifier, and her
    deletion through the shareId restores the collection. *)
Lemma X20_witness :
  exists d v,
    fst DemoLists.created = json (ListResponse (serializeTodoList d)) 201 /\
    viewId d = Some v /\
    Api.DELETE_list (H := Demo.externals) (Some "alice-token") v (snd DemoLists.created)
      = (errorJson "List not found" 404, snd DemoLists.created) /\
    TodoListColl (snd (Api.DELETE_list (H := Demo.externals) (Some "alice-token")
                         (shareId d) (snd DemoLists.created)))
      = TodoListColl Demo.world.
Proof.
  destruct (X20_created_list_life_cycle (H := Demo.externals) 5 5 (Some "alice-token")
              (Some DemoLists.chores) 4000 5000 "64b000000000000000000003" Demo.world
              (snd DemoLists.created) (fst DemoLists.created) Demo.alice
              demo_created eq_refl eq_refl eq_refl)
    as (d & v & Hr & Hv & _ & _ & _ & _ & _ & Hnot & _ & _ & Hback).
  exists d, v. split; [exact Hr|]. split; [exact Hv|]. split; [exact Hnot | exact Hback].
Defined.

(** Alice owns the groceries list, found by its shareId. *)
Lemma X21_witness :
  exists l, l ∈ DemoLists.todolists /\ userId l = Some "64a000000000000000000001" /\
            (ObjectId_new (Externals := Demo.externals) "k3mf8qp2x" = Some (l_id l) \/
             (ObjectId_new (Externals := Demo.externals) "k3mf8qp2x" = None /\
              shareId l = "k3mf8qp2x")).
Proof.
  exact (proj1 (X21_checkOwnership_is_exclusive (H := Demo.externals)
                  "64a000000000000000000001" "k3mf8qp2x" DemoLists.todolists eq_refl)).
Defined.

(** Alice on the view link of her own list: owner, with permission view. *)
Lemma X22_witness :
  exists items email,
    Api.ListPage (H := Demo.externals) 5 "v9w8x7y6z" (Some "alice-token") 3000 Demo.world
      = Some (ListView (serializeTodoList Demo.groceries) items view true email, Demo.world).
Proof.
  destruct (X22_page_shows_what_the_api_answers (H := Demo.externals) 5 "v9w8x7y6z"
              (Some "alice-token") 3000 Demo.world Demo.groceries eq_refl eq_refl eq_refl)
    as (items & isOwner & email & Hp & _ & Hown & _).
  exists items, email.
  assert (Ho : isOwner = true).
  { apply Hown. exists "alice-token", Demo.alice. by repeat split. }
  rewrite Ho in Hp. exact Hp.
Defined.

(** ** The generation loops come to an end *)

Section Termination.
Context `{Externals}.

Lemma generateViewId_draws (fuel attempts k : nat) (coll : list TodoListDocument) :
  (maxAttempts - attempts <= fuel)%nat -> (attempts < maxAttempts)%nat ->
  exists g k', Api.generateViewId fuel attempts k coll = Some (g, k') /\
               (k < k' <= k + (maxAttempts - attempts))%nat.
Proof.
  revert attempts k. induction fuel as [|fuel IH]; intros attempts k Hfuel Hatt; [lia|].
  cbn [Api.generateViewId]. destruct (Mongo.findOne _ coll).
  - destruct (Nat.leb_spec maxAttempts (S attempts)).
    + eexists _, _. split; [reflexivity | lia].
    + destruct (IH (S attempts) (S k)) as (g & k' & -> & Hk); [lia..|].
      eexists _, _. split; [reflexivity | lia].
  - eexists _, _. split; [reflexivity | lia].
Qed.

Lemma generateIds_draws (fuel attempts k : nat) (coll : list TodoListDocument) :
  (forall i, (i < maxAttempts - attempts)%nat ->
             Utils.generateShareId (randomByte (k + 2 * i))
             <> Utils.generateShareId (randomByte (S (k + 2 * i)))) ->
  (maxAttempts - attempts <= fuel)%nat -> (attempts < maxAttempts)%nat ->
  exists g k', Api.generateIds fuel attempts k coll = Some (g, k') /\
               (k < k' <= k + 2 * (maxAttempts - attempts))%nat.
Proof.
  revert attempts k. induction fuel as [|fuel IH]; intros attempts k Hne Hfuel Hatt; [lia|].
  cbn [Api.generateIds].
  destruct (String.eqb_spec (Utils.generateShareId (randomByte k))
              (Utils.generateShareId (randomByte (S k)))) as [Heq|_].
  { exfalso. apply (Hne 0%nat); [lia|]. by rewrite Nat.add_0_r. }
  destruct (Mongo.findOne _ coll).
  - destruct (Nat.leb_spec maxAttempts (S attempts)).
    + eexists _, _. split; [reflexivity | lia].
    + destruct (IH (S attempts) (S (S k))) as (g & k' & -> & Hk); [|lia..|].
      * intros i Hi. replace (S (S k) + 2 * i)%nat with (k + 2 * S i)%nat by lia.
        apply Hne. lia.
      * eexists _, _. split; [reflexivity | lia].
  - eexists _, _. split; [reflexivity | lia].
Qed.

(** X23: the generation loops end.  A GET of a list always answers, having
    drawn at most [maxAttempts] identifiers; POST /api/lists answers, having
    drawn at most [maxAttempts] pairs, when none of the pairs it would draw
    consists of two equal identifiers. *)
Theorem X23_generation_loops_terminate (fuel : nat) (w : World) :
  (maxAttempts <= fuel)%nat ->
  (forall id now,
      exists r w', Api.GET_list fuel id now w = Some (r, w') /\
                   (randomCalls w <= randomCalls w' <= randomCalls w + maxAttempts)%nat) /\
  ((forall i, (i < maxAttempts)%nat ->
              Utils.generateShareId (randomByte (randomCalls w + 2 * i))
              <> Utils.generateShareId (randomByte (S (randomCalls w + 2 * i)))) ->
   forall cookie body now insertedId,
     exists r w', Api.POST_lists fuel cookie body now insertedId w = Some (r, w') /\
                  (randomCalls w <= randomCalls w' <= randomCalls w + 2 * maxAttempts)%nat).
Proof.
  intros Hfuel. split.
  - intros id now. unfold Api.GET_list.
    destruct (negb _); [eexists _, _; split; [reflexivity | lia]|].
    destruct (Mongo.findOne _ _) as [lst|]; [|eexists _, _; split; [reflexivity | lia]].
    destruct (lacksViewId lst); [|eexists _, _; split; [reflexivity | lia]].
    destruct (generateViewId_draws fuel 0 (randomCalls w) (TodoListColl w))
      as (g & k' & -> & Hk); [unfold maxAttempts in *; lia..|].
    destruct g; (eexists _, _; split; [reflexivity | cbn; lia]).
  - intros Hne cookie body now insertedId. unfold Api.POST_lists.
    destruct (Auth.requireAuth cookie) as [auth|];
      [|eexists _, _; split; [reflexivity | lia]].
    destruct body as [b|]; [|eexists _, _; split; [reflexivity | lia]].
    destruct (Api.validateTitle b); [eexists _, _; split; [reflexivity | lia]|].
    destruct (generateIds_draws fuel 0 (randomCalls w) (TodoListColl w))
      as (g & k' & -> & Hk); [by rewrite Nat.sub_0_r | unfold maxAttempts in *; lia..|].
    destruct g as [[sid vid]|]; [|eexists _, _; split; [reflexivity | cbn -[Nat.mul Nat.add]; unfold maxAttempts in *; lia]].
    destruct (ObjectId_new _); [|eexists _, _; split; [reflexivity | cbn -[Nat.mul Nat.add]; unfold maxAttempts in *; lia]].
    destruct (Mongo.insertOne _ _ _); (eexists _, _; split; [reflexivity | cbn -[Nat.mul Nat.add]; unfold maxAttempts in *; lia]).
Qed.

End Termination.

(** With the randomness of the examples no pair is made of equal identifiers. *)
Lemma X23_witness :
  exists r w',
    Api.POST_lists (H := Demo.externals) 5 (Some "alice-token") (Some DemoLists.chores) 4000
      "64b000000000000000000003" Demo.world = Some (r, w') /\
    (randomCalls Demo.world <= randomCalls w' <= randomCalls Demo.world + 2 * maxAttempts)%nat.
Proof.
  refine (proj2 (X23_generation_loops_terminate (H := Demo.externals) 5 Demo.world _) _
            (Some "alice-token") (Some DemoLists.chores) 4000 "64b000000000000000000003").
  - unfold maxAttempts. lia.
  - intros i Hi. unfold maxAttempts in Hi.
    destruct i as [|[|[|[|[|i]]]]]; [by vm_compute..|lia].
Defined.
